(** * Research-hours portal: approval workflow and hours engine

  A shallow embedding of the decision logic of [app/services/approval.py],
  of the calculator of [app/hours_calculator.py], of the validators and
  the role table of [app/db_models.py] and of the admin and owner routes
  built on them ([app/blueprints]), with the properties the specification
  states about them and further properties read off the code.

  Conventions of the embedding.
  - Python [str] values are [string]s (UTF-8 bytes); a nullable column or
    an [Optional] argument is an [option].
  - Python truthiness is written out: [None], the empty string and the
    integer 0 are falsy.
  - Python [float]s are modelled as exact rationals ([Q]); equality of
    hours is [Qeq].  Rounding error of binary floating point is outside
    the model. *)

From Stdlib Require Import String Ascii List Bool ZArith QArith Qround Qminmax
  Sorted Lia Lqa.
Import ListNotations.

Local Close Scope Q_scope.
Local Open Scope string_scope.

(** ** Python idioms *)

Module Py.

(** [x or d] for an optional string: [None] and [""] are falsy. *)
Definition str_or (x : option string) (d : string) : string :=
  match x with
  | Some (String c r) => String c r
  | _ => d
  end.

(** Truthiness of an optional integer: [None] and [0] are falsy. *)
Definition int_truthy (x : option Z) : bool :=
  match x with
  | Some n => negb (Z.eqb n 0)
  | None => false
  end.

(** [x or d] for an optional integer. *)
Definition int_or (x : option Z) (d : Z) : Z :=
  if int_truthy x then match x with Some n => n | None => d end else d.

(** [x in (a, b, ...)] for strings. *)
Definition str_in (x : string) (l : list string) : bool :=
  existsb (String.eqb x) l.

(** [x == y] where [x] may be [None] and [y] is a string literal. *)
Definition opt_str_eqb (x : option string) (y : string) : bool :=
  match x with
  | Some s => String.eqb s y
  | None => false
  end.

Definition b2z (b : bool) : Z := if b then 1%Z else 0%Z.

(** White space as [str.strip()] sees it, within ASCII: tab, line feed,
    vertical tab, form feed, carriage return, the four separators
    0x1c-0x1f and the space.  The non-ASCII Unicode spaces Python strips
    too are outside the model. *)
Definition is_space (c : ascii) : bool :=
  let n := nat_of_ascii c in
  ((9 <=? n) && (n <=? 13) || (28 <=? n) && (n <=? 32))%nat.

Fixpoint lstrip (s : string) : string :=
  match s with
  | EmptyString => EmptyString
  | String c r => if is_space c then lstrip r else s
  end.

Fixpoint rstrip (s : string) : string :=
  match s with
  | EmptyString => EmptyString
  | String c r =>
      match rstrip r with
      | EmptyString => if is_space c then EmptyString else String c EmptyString
      | r' => String c r'
      end
  end.

(** [s.strip()] *)
Definition strip (s : string) : string := rstrip (lstrip s).

(** [s.lower()] on the ASCII letters. *)
Definition lower_ascii (c : ascii) : ascii :=
  let n := nat_of_ascii c in
  if ((65 <=? n) && (n <=? 90))%nat then ascii_of_nat (n + 32) else c.

Fixpoint lower (s : string) : string :=
  match s with
  | EmptyString => EmptyString
  | String c r => String (lower_ascii c) (lower r)
  end.

(** [sorted(set(ids))] *)
Fixpoint insert_uniq (x : Z) (l : list Z) : list Z :=
  match l with
  | [] => [x]
  | y :: l' =>
      match Z.compare x y with
      | Lt => x :: y :: l'
      | Eq => y :: l'
      | Gt => y :: insert_uniq x l'
      end
  end.

Definition sorted_set (l : list Z) : list Z := fold_right insert_uniq [] l.

End Py.

(** ** Approval workflow: the pure decision functions *)

Module Approval.

(** [ApprovalContext]: all the inputs of one decision. *)
Record ApprovalContext : Type := {
  current_status : option string;
  is_office : bool;
  can_university : bool;
  can_faculty : bool;
  can_department : bool;
  missing_department_admin : bool;
  missing_faculty_admin : bool
}.

(** The refusal texts of [can_approve]; [MsgEmpty] is the empty string
    that goes with an allowed decision. *)
Inductive ApproveMessage : Type :=
| MsgEmpty
| MsgNotPending          (* the item is not waiting for approval *)
| MsgOfficeNeedsUniversity (* office owner: only a university admin *)
| MsgNeedDepartment      (* a department admin in scope is needed *)
| MsgNeedFaculty         (* a faculty admin in scope is needed *)
| MsgNeedUniversity      (* a university admin is needed *)
| MsgOwnerNotFound.      (* [check_approval_chain]: the owner is gone *)

(** [s = ctx.current_status or "pending"] *)
Definition status_of (ctx : ApprovalContext) : string :=
  Py.str_or (current_status ctx) "pending".

Definition can_approve (ctx : ApprovalContext) : bool * ApproveMessage :=
  let s := status_of ctx in
  if is_office ctx then
    if negb (String.eqb s "pending") then (false, MsgNotPending)
    else if negb (can_university ctx) then (false, MsgOfficeNeedsUniversity)
    else (true, MsgEmpty)
  else if String.eqb s "pending" then
    if can_department ctx then (true, MsgEmpty)
    else if can_faculty ctx && missing_department_admin ctx then (true, MsgEmpty)
    else if can_university ctx && missing_department_admin ctx
            && missing_faculty_admin ctx then (true, MsgEmpty)
    else (false, MsgNeedDepartment)
  else if String.eqb s "department_approved" then
    if can_faculty ctx then (true, MsgEmpty)
    else if can_university ctx && missing_faculty_admin ctx then (true, MsgEmpty)
    else (false, MsgNeedFaculty)
  else if String.eqb s "faculty_approved" then
    if can_university ctx then (true, MsgEmpty)
    else (false, MsgNeedUniversity)
  else (false, MsgNotPending).

Definition next_status (ctx : ApprovalContext) : string :=
  let s := status_of ctx in
  if is_office ctx then
    if String.eqb s "pending" && can_university ctx then "approved" else s
  else if String.eqb s "pending" then
    if can_department ctx then "department_approved"
    else if can_faculty ctx && missing_department_admin ctx then "faculty_approved"
    else if can_university ctx && missing_department_admin ctx
            && missing_faculty_admin ctx then "approved"
    else s
  else if String.eqb s "department_approved" then
    if can_faculty ctx then "faculty_approved"
    else if can_university ctx && missing_faculty_admin ctx then "approved"
    else s
  else if String.eqb s "faculty_approved" then
    if can_university ctx then "approved" else s
  else s.

Definition action_level (ctx : ApprovalContext) : option string :=
  let s := status_of ctx in
  if is_office ctx then
    if String.eqb s "pending" && can_university ctx then Some "university"
    else None
  else if String.eqb s "pending" then
    if can_department ctx then Some "department"
    else if can_faculty ctx && missing_department_admin ctx then Some "faculty"
    else if can_university ctx && missing_department_admin ctx
            && missing_faculty_admin ctx then Some "university"
    else None
  else if String.eqb s "department_approved" then
    if can_faculty ctx then Some "faculty"
    else if can_university ctx && missing_faculty_admin ctx then Some "university"
    else None
  else if String.eqb s "faculty_approved" && can_university ctx then
    Some "university"
  else None.

Definition can_return (ctx : ApprovalContext) : bool :=
  if is_office ctx then can_university ctx
  else can_university ctx || can_faculty ctx || can_department ctx.

(** The keyword-argument wrappers used by the route handlers. *)

Definition mk_context (current_status : option string)
    (is_office can_university can_faculty can_department
     missing_department missing_faculty : bool) : ApprovalContext :=
  {| current_status := current_status;
     is_office := is_office;
     can_university := can_university;
     can_faculty := can_faculty;
     can_department := can_department;
     missing_department_admin := missing_department;
     missing_faculty_admin := missing_faculty |}.

Definition approval_can_approve st off cu cf cd md mf :=
  can_approve (mk_context st off cu cf cd md mf).

Definition approval_next_status st off cu cf cd md mf :=
  next_status (mk_context st off cu cf cd md mf).

Definition approval_action_level st off cu cf cd md mf :=
  action_level (mk_context st off cu cf cd md mf).

Definition approval_can_return
    (is_office has_university_access can_university can_faculty
     can_department : bool) : bool :=
  can_return
    (mk_context (Some "pending") is_office
       (if is_office then has_university_access else can_university)
       can_faculty can_department false false).

(** *** The approval chain as the specification words it *)


(** The position of a status along the chain. *)
Definition chain_index (s : string) : option Z :=
  if String.eqb s "pending" then Some 0%Z
  else if String.eqb s "department_approved" then Some 1%Z
  else if String.eqb s "faculty_approved" then Some 2%Z
  else if String.eqb s "approved" then Some 3%Z
  else None.

(** Intermediate levels jumped over by one approve: the distance from
    the current status to the next one, minus one.  A status outside the
    chain is never moved by approve and skips nothing. *)
Definition levels_skipped (ctx : ApprovalContext) : Z :=
  match chain_index (status_of ctx), chain_index (next_status ctx) with
  | Some i, Some j => (j - i - 1)%Z
  | _, _ => 0%Z
  end.

(** Levels the gap flags report vacant. *)
Definition vacant_levels (ctx : ApprovalContext) : Z :=
  (Py.b2z (missing_department_admin ctx)
   + Py.b2z (missing_faculty_admin ctx))%Z.

(** *** Sample decisions *)


Definition office_pending_ctx : ApprovalContext :=
  mk_context (Some "pending") true true false false false false.

Definition office_no_division_ctx : ApprovalContext :=
  mk_context (Some "pending") true true false false true false.

(** Scenario F: no department admin, a faculty admin acts on a pending
    item. *)
Definition scenario_f : ApprovalContext :=
  mk_context (Some "pending") false false true false true false.

End Approval.

(** ** The persisted data the scope logic reads *)

(** [OrganizationUnit]: [unit_type] is ["faculty"] or ["office"]. *)
Module OrganizationUnit.
Record t : Type := {
  id : Z;
  name : string;
  unit_type : string
}.
End OrganizationUnit.

Module Division.
Record t : Type := {
  id : Z;
  name : string;
  organization_unit_id : Z
}.
End Division.

(** [AdminRole]: one role grant.  The scope columns are nullable. *)
Module AdminRole.
Record t : Type := {
  id : Z;
  user_id : Z;
  role_level : string;
  organization_unit_id : option Z;
  division_id : option Z;
  is_active : bool
}.
End AdminRole.

Module User.
Record t : Type := {
  id : Z;
  organization_unit_id : option Z;
  division_id : option Z;
  is_active : bool
}.
End User.

(** The tables behind [AdminRole.query], [User.query] and the
    relationships [role.org_unit], [role.division], [user.org_unit],
    [user.roles]. *)
Record Database : Type := {
  users : list User.t;
  admin_roles : list AdminRole.t;
  organization_units : list OrganizationUnit.t;
  divisions : list Division.t
}.

(** The two session keys the scope logic reads, and whether a request is
    being served at all ([has_request_context()]). *)
Record Session : Type := {
  admin_act_as_user_mode : bool;      (* ACT_AS_USER_MODE_KEY *)
  admin_act_as_role_id : option Z     (* ACT_AS_SESSION_KEY *)
}.

Record Request : Type := {
  has_request_context : bool;
  session : Session
}.

(** ** Scope resolution *)

Module Scope.

(** [ADMIN_LEVEL_HIERARCHY.get(level, 0)] *)
Definition ADMIN_LEVEL_HIERARCHY (level : string) : option Z :=
  if String.eqb level "none" then Some 0%Z
  else if String.eqb level "department" then Some 1%Z
  else if String.eqb level "faculty" then Some 2%Z
  else if String.eqb level "university" then Some 3%Z
  else None.

Definition hierarchy_get (level : string) : Z :=
  match ADMIN_LEVEL_HIERARCHY level with Some n => n | None => 0%Z end.

(** [x == y] on nullable integers. *)
Definition opt_z_eqb (x y : option Z) : bool :=
  match x, y with
  | Some a, Some b => Z.eqb a b
  | None, None => true
  | _, _ => false
  end.

(** The relationships, resolved through the foreign keys. *)
Definition org_unit_of (db : Database) (fk : option Z)
  : option OrganizationUnit.t :=
  match fk with
  | Some k => find (fun u => Z.eqb (OrganizationUnit.id u) k)
                (organization_units db)
  | None => None
  end.

Definition division_of (db : Database) (fk : option Z) : option Division.t :=
  match fk with
  | Some k => find (fun d => Z.eqb (Division.id d) k) (divisions db)
  | None => None
  end.

(** [User.query.get(user_id)] *)
Definition user_get (db : Database) (uid : Z) : option User.t :=
  find (fun u => Z.eqb (User.id u) uid) (users db).

(** [user.roles]: every grant of the user, active or not. *)
Definition user_roles (db : Database) (user : User.t) : list AdminRole.t :=
  filter (fun r => Z.eqb (AdminRole.user_id r) (User.id user)) (admin_roles db).

(** [user.active_admin_roles] *)
Definition active_admin_roles (db : Database) (user : User.t)
  : list AdminRole.t :=
  filter AdminRole.is_active (user_roles db user).

(** The sort key of [_get_active_admin_roles]:
    [(-rank, org_unit.name or "", division.name or "", id)]. *)
Definition sort_key (db : Database) (r : AdminRole.t)
  : Z * string * string * Z :=
  ((- hierarchy_get (AdminRole.role_level r))%Z,
   match org_unit_of db (AdminRole.organization_unit_id r) with
   | Some u => OrganizationUnit.name u
   | None => ""
   end,
   match division_of db (AdminRole.division_id r) with
   | Some d => Division.name d
   | None => ""
   end,
   AdminRole.id r).

(** Python's ordering of such tuples: lexicographic, strings by code
    point. *)
Definition key_leb (a b : Z * string * string * Z) : bool :=
  let '(a1, a2, a3, a4) := a in
  let '(b1, b2, b3, b4) := b in
  match Z.compare a1 b1 with
  | Lt => true
  | Gt => false
  | Eq =>
      match String.compare a2 b2 with
      | Lt => true
      | Gt => false
      | Eq =>
          match String.compare a3 b3 with
          | Lt => true
          | Gt => false
          | Eq => Z.leb a4 b4
          end
      end
  end.

(** [list.sort(key=...)] is stable; so is this insertion sort. *)
Fixpoint insert_by {A K : Type} (key : A -> K) (leb : K -> K -> bool)
    (x : A) (l : list A) : list A :=
  match l with
  | [] => [x]
  | y :: l' =>
      if leb (key x) (key y) then x :: y :: l'
      else y :: insert_by key leb x l'
  end.

Fixpoint sort_by {A K : Type} (key : A -> K) (leb : K -> K -> bool)
    (l : list A) : list A :=
  match l with
  | [] => []
  | x :: l' => insert_by key leb x (sort_by key leb l')
  end.

(** [_get_active_admin_roles(user)]; the per-request cache only
    memoises this value. *)
Definition _get_active_admin_roles (db : Database) (user : User.t)
  : list AdminRole.t :=
  if Z.eqb (User.id user) 0 then []
  else
    sort_by (sort_key db) key_leb
      (filter (fun r => Z.eqb (AdminRole.user_id r) (User.id user)
                        && AdminRole.is_active r)
         (admin_roles db)).

(** [next((r for r in roles if r.role_level == level), None)] *)
Definition first_with_level (level : string) (roles : list AdminRole.t)
  : option AdminRole.t :=
  find (fun r => String.eqb (AdminRole.role_level r) level) roles.

(** The default act-as choice: faculty, then department, then
    university. *)
Definition preferred_role (roles : list AdminRole.t) : option AdminRole.t :=
  match first_with_level "faculty" roles with
  | Some r => Some r
  | None =>
      match first_with_level "department" roles with
      | Some r => Some r
      | None => first_with_level "university" roles
      end
  end.

(** [get_act_as_role(user)]: the role acted as, and the session as the
    call leaves it. *)
Definition get_act_as_role (db : Database) (req : Request) (user : User.t)
  : option AdminRole.t * Session :=
  let ses := session req in
  if negb (has_request_context req) then (None, ses)
  else if admin_act_as_user_mode ses then (None, ses)
  else
    let roles := _get_active_admin_roles db user in
    if Py.int_truthy (admin_act_as_role_id ses) then
      let rid := Py.int_or (admin_act_as_role_id ses) 0 in
      let role :=
        match find (fun r => Z.eqb (AdminRole.id r) rid) roles with
        | Some r => Some r
        | None =>
            find (fun r => Z.eqb (AdminRole.id r) rid
                           && Z.eqb (AdminRole.user_id r) (User.id user)
                           && AdminRole.is_active r)
              (admin_roles db)
        end in
      match role with
      | Some r => (Some r, ses)
      | None =>
          (None, {| admin_act_as_user_mode := admin_act_as_user_mode ses;
                    admin_act_as_role_id := None |})
      end
    else
      match preferred_role roles with
      | Some p =>
          if (1 <? Z.of_nat (length roles))%Z then
            (Some p, {| admin_act_as_user_mode := admin_act_as_user_mode ses;
                        admin_act_as_role_id := Some (AdminRole.id p) |})
          else (None, ses)
      | None => (None, ses)
      end.

(** The dictionary [{"university": 3, "faculty": 2, "department": 1}]
    of [highest_admin_level], read with [.get(level, 0)]. *)
Definition role_hierarchy (level : string) : Z :=
  if String.eqb level "university" then 3%Z
  else if String.eqb level "faculty" then 2%Z
  else if String.eqb level "department" then 1%Z
  else 0%Z.

(** One turn of the loop of [highest_admin_level] over
    [(max_level, highest)]. *)
Definition highest_step (acc : Z * string) (role : AdminRole.t)
  : Z * string :=
  if AdminRole.is_active role then
    let level := role_hierarchy (AdminRole.role_level role) in
    if (fst acc <? level)%Z then (level, AdminRole.role_level role) else acc
  else acc.

(** [user.highest_admin_level] *)
Definition highest_admin_level (db : Database) (user : User.t) : string :=
  snd (fold_left highest_step (user_roles db user) (0%Z, "none")).

(** The context dictionary of [get_effective_context]. *)
Record EffectiveContext : Type := {
  level : string;
  act_as_role : option AdminRole.t;
  user_mode : bool
}.

Definition get_effective_context (db : Database) (req : Request)
    (user : User.t) : EffectiveContext :=
  if has_request_context req && admin_act_as_user_mode (session req) then
    {| level := "none"; act_as_role := None; user_mode := true |}
  else
    let act_as := fst (get_act_as_role db req user) in
    let level0 :=
      match act_as with
      | Some r => AdminRole.role_level r
      | None => Py.str_or (Some (highest_admin_level db user)) "none"
      end in
    let level1 :=
      match ADMIN_LEVEL_HIERARCHY level0 with
      | Some _ => level0
      | None => "none"
      end in
    {| level := level1; act_as_role := act_as; user_mode := false |}.

Definition effective_admin_level (db : Database) (req : Request)
    (user : User.t) : string :=
  let l := level (get_effective_context db req user) in
  match ADMIN_LEVEL_HIERARCHY l with Some _ => l | None => "none" end.

(** [user.has_admin_role(role_level, org_unit_id=None, division_id=None)];
    an omitted keyword argument is [None]. *)
Definition has_admin_role (db : Database) (user : User.t)
    (role_level : string) (org_unit_id division_id : option Z) : bool :=
  existsb
    (fun role =>
       String.eqb (AdminRole.role_level role) role_level
       && (String.eqb role_level "university"
           || (String.eqb role_level "faculty"
               && (match org_unit_id with None => true | Some _ => false end
                   || opt_z_eqb (AdminRole.organization_unit_id role)
                        org_unit_id))
           || (String.eqb role_level "department"
               && (match division_id with None => true | Some _ => false end
                   || opt_z_eqb (AdminRole.division_id role) division_id))))
    (active_admin_roles db user).

Definition has_university_access (db : Database) (req : Request)
    (user : User.t) : bool :=
  if has_request_context req && admin_act_as_user_mode (session req) then false
  else
    let ctx := get_effective_context db req user in
    match act_as_role ctx with
    | Some _ => String.eqb (level ctx) "university"
    | None =>
        has_admin_role db user "university" None None
        || String.eqb (level ctx) "university"
    end.

(** The scope id a role contributes at [role_level]: its unit for a
    faculty role, its division for a department role, when truthy. *)
Definition scope_id_at (role_level : string) (role : AdminRole.t)
  : option Z :=
  if String.eqb role_level "faculty"
     && Py.int_truthy (AdminRole.organization_unit_id role)
  then AdminRole.organization_unit_id role
  else if String.eqb role_level "department"
          && Py.int_truthy (AdminRole.division_id role)
  then AdminRole.division_id role
  else None.

Definition get_role_scope_ids (db : Database) (req : Request)
    (user : User.t) (role_level : string) : list Z :=
  let ctx := get_effective_context db req user in
  if user_mode ctx then []
  else
    match act_as_role ctx with
    | Some role =>
        if negb (String.eqb (AdminRole.role_level role) role_level) then []
        else
          match scope_id_at role_level role with
          | Some k => [k]
          | None => []
          end
    | None =>
        Py.sorted_set
          (flat_map
             (fun role =>
                if negb (String.eqb (AdminRole.role_level role) role_level)
                then []
                else
                  match scope_id_at role_level role with
                  | Some k => [k]
                  | None => []
                  end)
             (_get_active_admin_roles db user))
    end.

(** [x in ids] for a nullable column [x]. *)
Definition opt_z_in (x : option Z) (ids : list Z) : bool :=
  match x with
  | Some k => existsb (Z.eqb k) ids
  | None => false
  end.

(** [count_effective_admins_by_scope(role_level, organization_unit_id,
    division_id)]; the two exclusion arguments are never passed by the
    approval code and are left at [None]. *)
Definition count_effective_admins_by_scope (db : Database)
    (role_level : string) (organization_unit_id division_id : option Z) : Z :=
  Z.of_nat
    (length
       (filter
          (fun role =>
             String.eqb (AdminRole.role_level role) role_level
             && AdminRole.is_active role
             && existsb
                  (fun u => Z.eqb (User.id u) (AdminRole.user_id role)
                            && User.is_active u)
                  (users db)
             && (if String.eqb role_level "faculty"
                    && Py.int_truthy organization_unit_id
                 then opt_z_eqb (AdminRole.organization_unit_id role)
                        organization_unit_id
                 else true)
             && (if String.eqb role_level "department"
                    && Py.int_truthy division_id
                 then opt_z_eqb (AdminRole.division_id role) division_id
                 else true))
          (admin_roles db))).

(** [(can_university, can_faculty, can_department)] *)
Definition get_scope_permissions (db : Database) (req : Request)
    (admin_user item_owner : User.t) : bool * bool * bool :=
  let ctx := get_effective_context db req admin_user in
  let lvl := level ctx in
  match act_as_role ctx with
  | Some role =>
      if String.eqb lvl "university" then (true, true, true)
      else if String.eqb lvl "faculty" then
        let scope_id := AdminRole.organization_unit_id role in
        (false,
         Py.int_truthy scope_id
         && opt_z_eqb (User.organization_unit_id item_owner) scope_id,
         false)
      else if String.eqb lvl "department" then
        let scope_id := AdminRole.division_id role in
        (false, false,
         Py.int_truthy scope_id
         && opt_z_eqb (User.division_id item_owner) scope_id)
      else (false, false, false)
  | None =>
      let can_university := has_university_access db req admin_user in
      let can_faculty :=
        if Py.int_truthy (User.organization_unit_id item_owner) then
          let faculty_scope_ids :=
            get_role_scope_ids db req admin_user "faculty" in
          match faculty_scope_ids with
          | _ :: _ =>
              opt_z_in (User.organization_unit_id item_owner)
                faculty_scope_ids
          | [] =>
              has_admin_role db admin_user "faculty"
                (User.organization_unit_id item_owner) None
              || (String.eqb lvl "faculty"
                  && opt_z_eqb (User.organization_unit_id item_owner)
                       (User.organization_unit_id admin_user))
          end
        else false in
      let can_department :=
        if Py.int_truthy (User.division_id item_owner) then
          let department_scope_ids :=
            get_role_scope_ids db req admin_user "department" in
          match department_scope_ids with
          | _ :: _ =>
              opt_z_in (User.division_id item_owner) department_scope_ids
          | [] =>
              has_admin_role db admin_user "department" None
                (User.division_id item_owner)
              || (String.eqb lvl "department"
                  && opt_z_eqb (User.division_id item_owner)
                       (User.division_id admin_user))
          end
        else false in
      (can_university, can_faculty, can_department)
  end.

(** Office-type units are approved by the university in one step. *)
Definition is_office_user (db : Database) (user : User.t) : bool :=
  match org_unit_of db (User.organization_unit_id user) with
  | Some u => String.eqb (OrganizationUnit.unit_type u) "office"
  | None => false
  end.

Definition has_department_admin_for_owner (db : Database)
    (item_owner : User.t) : bool :=
  if negb (Py.int_truthy (User.division_id item_owner)) then false
  else
    (0 <? count_effective_admins_by_scope db "department" None
            (User.division_id item_owner))%Z.

Definition has_faculty_admin_for_owner (db : Database)
    (item_owner : User.t) : bool :=
  if negb (Py.int_truthy (User.organization_unit_id item_owner)) then false
  else
    (0 <? count_effective_admins_by_scope db "faculty"
            (User.organization_unit_id item_owner) None)%Z.

(** *** The resolver as the specification words it *)

(** [lvl] is the highest level among [grants]: no grant outranks it, and
    it is the level of one of them, or ["none"]. *)
Definition is_highest_level (grants : list AdminRole.t) (lvl : string)
  : Prop :=
  (forall r, In r grants ->
     (hierarchy_get (AdminRole.role_level r) <= hierarchy_get lvl)%Z)
  /\ (lvl = "none"
      \/ exists r, In r grants /\ AdminRole.role_level r = lvl).

(** [ids] is the union of the scope identifiers of the [grants] at
    level [lvl]. *)
Definition is_scope_union (grants : list AdminRole.t) (lvl : string)
    (ids : list Z) : Prop :=
  forall k,
    In k ids <->
    exists r, In r grants /\ AdminRole.role_level r = lvl
              /\ scope_id_at lvl r = Some k.

(** *** Sample data *)

Local Open Scope Z_scope.

Definition sample_units : list OrganizationUnit.t :=
  [ {| OrganizationUnit.id := 5; OrganizationUnit.name := "CNTT";
       OrganizationUnit.unit_type := "faculty" |};
    {| OrganizationUnit.id := 7; OrganizationUnit.name := "DTVT";
       OrganizationUnit.unit_type := "faculty" |};
    {| OrganizationUnit.id := 9; OrganizationUnit.name := "KHCN";
       OrganizationUnit.unit_type := "office" |} ].

Definition sample_divisions : list Division.t :=
  [ {| Division.id := 50; Division.name := "CNPM";
       Division.organization_unit_id := 5 |} ].

Definition mk_user (uid : Z) (unit division : option Z) : User.t :=
  {| User.id := uid; User.organization_unit_id := unit;
     User.division_id := division; User.is_active := true |}.

Definition mk_role (rid uid : Z) (lvl : string) (unit division : option Z)
  : AdminRole.t :=
  {| AdminRole.id := rid; AdminRole.user_id := uid;
     AdminRole.role_level := lvl;
     AdminRole.organization_unit_id := unit;
     AdminRole.division_id := division;
     AdminRole.is_active := true |}.

(** User 1 holds a university grant and faculty grants over units 5
    and 7; user 2 holds one department grant; user 3 is a lecturer of
    division 50; user 4 works in the office unit 9; user 5 holds a
    university grant only. *)
Definition sample_db : Database :=
  {| users := [ mk_user 1 (Some 5) None; mk_user 2 (Some 5) (Some 50);
                mk_user 3 (Some 5) (Some 50); mk_user 4 (Some 9) None;
                mk_user 5 None None ];
     admin_roles := [ mk_role 1 1 "university" None None;
                      mk_role 2 1 "faculty" (Some 7) None;
                      mk_role 3 1 "faculty" (Some 5) None;
                      mk_role 4 2 "department" (Some 5) (Some 50);
                      mk_role 5 5 "university" None None ];
     organization_units := sample_units;
     divisions := sample_divisions |}.

(** A request with a fresh session: no user mode, no override chosen. *)
Definition fresh_request : Request :=
  {| has_request_context := true;
     session := {| admin_act_as_user_mode := false;
                   admin_act_as_role_id := None |} |}.

End Scope.

(** ** The approval action executor *)

(** The approval columns shared by [Publication], [Project] and
    [OtherActivity].  Time stamps are seconds. *)
Module Item.
Record t : Type := {
  id : Z;
  user_id : Z;
  approval_status : option string;
  is_approved : bool;
  approved_at : option Z;
  approved_by : option Z;
  rejection_reason : option string;
  returned_at : option Z;
  returned_by_level : option string
}.
End Item.

Module ApprovalLog.
Record t : Type := {
  item_type : string;
  item_id : Z;
  action : string;
  old_status : option string;
  new_status : option string;
  performed_by : Z;
  notes : option string
}.
End ApprovalLog.

Module Executor.

Import Scope.

(** The flash messages, by what they say; the wording (and the title and
    label interpolated into the success texts) is presentation. *)
Inductive Flash : Type :=
| FlashOwnerNotFound
| FlashRefused (m : Approval.ApproveMessage)
| FlashNoApprovePermission
| FlashMissingAdminWarning (missing_department missing_faculty : bool)
| FlashApproved (new_status : string)
| FlashRejected
| FlashReasonRequired
| FlashAlreadyApproved
| FlashNoReturnPermission
| FlashReturned
| FlashInvalidAction.

Inductive Category : Type := CatError | CatWarning | CatSuccess.

Record ApprovalActionResult : Type := {
  ok : bool;
  new_status : option string;
  flashes : list (Flash * Category)
}.

(** What one call leaves behind: the item as mutated in memory, the log
    rows added to the session, and whether the session was committed. *)
Record Outcome : Type := {
  result : ApprovalActionResult;
  item_after : Item.t;
  logged : list ApprovalLog.t;
  committed : bool
}.

Definition refuse (item : Item.t) (f : Flash) : Outcome :=
  {| result := {| ok := false; new_status := None;
                  flashes := [(f, CatError)] |};
     item_after := item; logged := []; committed := false |}.

(** [_ACTION_MAP_BY_NEW_STATUS.get(new_status, "approve")] *)
Definition action_for_new_status (new_status : string) : string :=
  if String.eqb new_status "department_approved" then "department_approve"
  else if String.eqb new_status "faculty_approved" then "faculty_approve"
  else if String.eqb new_status "approved" then "university_approve"
  else "approve".

Definition check_approval_chain (db : Database) (req : Request)
    (item : Item.t) (admin_user : User.t)
  : bool * Approval.ApproveMessage :=
  match user_get db (Item.user_id item) with
  | None => (false, Approval.MsgOwnerNotFound)
  | Some item_owner =>
      let '(can_university, can_faculty, can_department) :=
        get_scope_permissions db req admin_user item_owner in
      Approval.approval_can_approve (Item.approval_status item)
        (is_office_user db item_owner)
        can_university can_faculty can_department
        (negb (has_department_admin_for_owner db item_owner))
        (negb (has_faculty_admin_for_owner db item_owner))
  end.

Definition resolve_next_approval_status (db : Database) (req : Request)
    (current_status : string) (item_owner admin_user : User.t) : string :=
  let '(can_university, can_faculty, can_department) :=
    get_scope_permissions db req admin_user item_owner in
  Approval.approval_next_status (Some current_status)
    (is_office_user db item_owner)
    can_university can_faculty can_department
    (negb (has_department_admin_for_owner db item_owner))
    (negb (has_faculty_admin_for_owner db item_owner)).

Definition can_return_item (db : Database) (req : Request)
    (item : Item.t) (admin_user : User.t) : bool :=
  match user_get db (Item.user_id item) with
  | None => false
  | Some item_owner =>
      if is_office_user db item_owner then
        Approval.approval_can_return true
          (has_university_access db req admin_user) false false false
      else
        let '(can_university, can_faculty, can_department) :=
          get_scope_permissions db req admin_user item_owner in
        Approval.approval_can_return false false
          can_university can_faculty can_department
  end.

(** [_missing_admin_warning_for_owner(owner)] *)
Definition _missing_admin_warning_for_owner (db : Database) (owner : User.t)
  : option Flash :=
  if is_office_user db owner then None
  else
    let missing_department := negb (has_department_admin_for_owner db owner) in
    let missing_faculty := negb (has_faculty_admin_for_owner db owner) in
    if negb (missing_department || missing_faculty) then None
    else Some (FlashMissingAdminWarning missing_department missing_faculty).

Definition mk_log (item_type : string) (item : Item.t) (action : string)
    (old_status new_status : string) (actor : User.t)
    (notes : option string) : ApprovalLog.t :=
  {| ApprovalLog.item_type := item_type;
     ApprovalLog.item_id := Item.id item;
     ApprovalLog.action := action;
     ApprovalLog.old_status := Some old_status;
     ApprovalLog.new_status := Some new_status;
     ApprovalLog.performed_by := User.id actor;
     ApprovalLog.notes := notes |}.

(** [apply_approval_action(item=, item_type=, action=, actor=, reason=,
    commit=, collect_flashes=)]; [now] is [datetime.utcnow()]. *)
Definition apply_approval_action (db : Database) (req : Request) (now : Z)
    (item : Item.t) (item_type action : string) (actor : User.t)
    (reason : option string) (commit collect_flashes : bool) : Outcome :=
  match user_get db (Item.user_id item) with
  | None => refuse item FlashOwnerNotFound
  | Some owner =>
      let old_status := Py.str_or (Item.approval_status item) "pending" in
      if String.eqb action "approve" then
        let '(can_do, message) := check_approval_chain db req item actor in
        if negb can_do then
          refuse item
            (match message with
             | Approval.MsgEmpty => FlashNoApprovePermission
             | m => FlashRefused m
             end)
        else
          let warn :=
            if collect_flashes && String.eqb old_status "pending" then
              match _missing_admin_warning_for_owner db owner with
              | Some w => [(w, CatWarning)]
              | None => []
              end
            else [] in
          let new_status :=
            resolve_next_approval_status db req old_status owner actor in
          let final := String.eqb new_status "approved" in
          let item' :=
            {| Item.id := Item.id item;
               Item.user_id := Item.user_id item;
               Item.approval_status := Some new_status;
               Item.is_approved :=
                 if final then true else Item.is_approved item;
               Item.approved_at :=
                 if final then Some now else Item.approved_at item;
               Item.approved_by :=
                 if final then Some (User.id actor)
                 else Item.approved_by item;
               Item.rejection_reason := None;
               Item.returned_at := None;
               Item.returned_by_level := Item.returned_by_level item |} in
          {| result :=
               {| ok := true; new_status := Some new_status;
                  flashes :=
                    if collect_flashes
                    then warn ++ [(FlashApproved new_status, CatSuccess)]
                    else [] |};
             item_after := item';
             logged :=
               [mk_log item_type item (action_for_new_status new_status)
                  old_status new_status actor None];
             committed := commit |}
      else if String.eqb action "reject" then
        let new_status := "pending" in
        let item' :=
          {| Item.id := Item.id item;
             Item.user_id := Item.user_id item;
             Item.approval_status := Some new_status;
             Item.is_approved := false;
             Item.approved_at := None;
             Item.approved_by := None;
             Item.rejection_reason := None;
             Item.returned_at := None;
             Item.returned_by_level := None |} in
        {| result :=
             {| ok := true; new_status := Some new_status;
                flashes :=
                  if collect_flashes then [(FlashRejected, CatSuccess)]
                  else [] |};
           item_after := item';
           logged :=
             [mk_log item_type item "reject" old_status new_status actor None];
           committed := commit |}
      else if String.eqb action "return" then
        let reason := Py.strip (match reason with Some r => r | None => "" end) in
        if String.eqb reason "" then refuse item FlashReasonRequired
        else if String.eqb old_status "approved" then
          refuse item FlashAlreadyApproved
        else if negb (can_return_item db req item actor) then
          refuse item FlashNoReturnPermission
        else
          let new_status := "returned" in
          let item' :=
            {| Item.id := Item.id item;
               Item.user_id := Item.user_id item;
               Item.approval_status := Some new_status;
               Item.is_approved := false;
               Item.approved_at := None;
               Item.approved_by := None;
               Item.rejection_reason := Some reason;
               Item.returned_at := Some now;
               Item.returned_by_level :=
                 Some (effective_admin_level db req actor) |} in
          {| result :=
               {| ok := true; new_status := Some new_status;
                  flashes :=
                    if collect_flashes then [(FlashReturned, CatWarning)]
                    else [] |};
             item_after := item';
             logged :=
               [mk_log item_type item "return" old_status new_status actor
                  (Some reason)];
             committed := commit |}
      else refuse item FlashInvalidAction
  end.

(** *** Definitions the properties are stated with *)


Definition mk_item (iid owner : Z) (st : option string) : Item.t :=
  {| Item.id := iid; Item.user_id := owner; Item.approval_status := st;
     Item.is_approved := false; Item.approved_at := None;
     Item.approved_by := None; Item.rejection_reason := None;
     Item.returned_at := None; Item.returned_by_level := None |}.

(** The flag and the status agree: [is_approved] holds exactly when the
    status is approved. *)
Definition synchronised (item : Item.t) : Prop :=
  Item.is_approved item = Py.opt_str_eqb (Item.approval_status item) "approved".


End Executor.

(** ** The admin routes around the executor *)

Module Routes.

Import Scope Executor.

(** [filter_items_by_scope]: whether a row survives the scope filter.
    The filters join [User] on the owner, so a row whose owner is gone
    survives only the unfiltered university case. *)
Definition filter_items_by_scope (db : Database) (req : Request)
    (admin_user : User.t) (item : Item.t) : bool :=
  let lvl := effective_admin_level db req admin_user in
  let owner := user_get db (Item.user_id item) in
  if String.eqb lvl "university" then true
  else if String.eqb lvl "faculty" then
    match get_role_scope_ids db req admin_user "faculty" with
    | (_ :: _) as org_unit_ids =>
        match owner with
        | Some o => opt_z_in (User.organization_unit_id o) org_unit_ids
        | None => false
        end
    | [] =>
        if Py.int_truthy (User.organization_unit_id admin_user) then
          match owner with
          | Some o =>
              match User.organization_unit_id o with
              | Some _ =>
                  opt_z_eqb (User.organization_unit_id o)
                    (User.organization_unit_id admin_user)
              | None => false
              end
          | None => false
          end
        else false
    end
  else if String.eqb lvl "department" then
    match get_role_scope_ids db req admin_user "department" with
    | (_ :: _) as division_ids =>
        match owner with
        | Some o => opt_z_in (User.division_id o) division_ids
        | None => false
        end
    | [] =>
        if Py.int_truthy (User.division_id admin_user) then
          match owner with
          | Some o =>
              match User.division_id o with
              | Some _ =>
                  opt_z_eqb (User.division_id o) (User.division_id admin_user)
              | None => false
              end
          | None => false
          end
        else false
    end
  else false.

(** SQL [column != literal]: unknown, hence filtered out, on NULL. *)
Definition sql_ne (column : option string) (literal : string) : bool :=
  match column with
  | Some v => negb (String.eqb v literal)
  | None => false
  end.

(** [exclude_lower_level_pending]: whether a row survives. *)
Definition exclude_lower_level_pending (db : Database) (req : Request)
    (admin_user : User.t) (item : Item.t) : bool :=
  let lvl := effective_admin_level db req admin_user in
  if String.eqb lvl "faculty" then sql_ne (Item.approval_status item) "pending"
  else if String.eqb lvl "university" then
    sql_ne (Item.approval_status item) "department_approved"
    && match user_get db (Item.user_id item) with
       | Some o =>
           match org_unit_of db (User.organization_unit_id o) with
           | Some u =>
               sql_ne (Item.approval_status item) "pending"
               || String.eqb (OrganizationUnit.unit_type u) "office"
           | None => false
           end
       | None => false
       end
  else true.

(** [get_scoped_item_or_none(model_class, item_id, actor=,
    include_lower_pending=)] over the rows of one item table. *)
Definition get_scoped_item_or_none (db : Database) (req : Request)
    (table : list Item.t) (item_id : Z) (actor : User.t)
    (include_lower_pending : bool) : option Item.t :=
  find
    (fun item =>
       filter_items_by_scope db req actor item
       && (include_lower_pending
           || exclude_lower_level_pending db req actor item)
       && Z.eqb (Item.id item) item_id)
    table.

(** A refusal before any item is touched. *)
Inductive Early : Type :=
| OutOfScope            (* the item is outside the actor's working scope *)
| Redirected.           (* a guard decorator sent the request away *)

Definition apply_approval_action_by_id (db : Database) (req : Request)
    (now : Z) (table : list Item.t) (item_type : string) (item_id : Z)
    (action : string) (actor : User.t) (reason : option string)
    (include_lower_pending commit collect_flashes : bool)
  : Early + Outcome :=
  match get_scoped_item_or_none db req table item_id actor
          include_lower_pending with
  | None => inl OutOfScope
  | Some item =>
      inr (apply_approval_action db req now item item_type action actor
             reason commit collect_flashes)
  end.

(** [admin_level_required(min_level)]: whether the decorated view runs.
    [login_required] has already established that the user is
    authenticated. *)
Definition admin_level_required (min_level : string) (db : Database)
    (req : Request) (current_user : User.t) : bool :=
  User.is_active current_user
  && negb (admin_act_as_user_mode (session req))
  && negb (hierarchy_get (effective_admin_level db req current_user)
           <? hierarchy_get min_level)%Z.


(** [user.is_admin]: some role of the user is active. *)
Definition is_admin (db : Database) (user : User.t) : bool :=
  existsb AdminRole.is_active (user_roles db user).

(** [admin_required] *)
Definition admin_required (db : Database) (req : Request)
    (current_user : User.t) : bool :=
  User.is_active current_user
  && negb (admin_act_as_user_mode (session req))
  && is_admin db current_user.


(** [POST /publications/<pub_id>/return]; [reason] is
    [request.form.get("reason", "")]. *)
Definition return_publication (db : Database) (req : Request) (now : Z)
    (publications : list Item.t) (pub_id : Z) (current_user : User.t)
    (reason : string) : Early + Outcome :=
  if admin_required db req current_user then
    apply_approval_action_by_id db req now publications "publication" pub_id
      "return" current_user (Some reason) false true true
  else inl Redirected.

End Routes.

(** ** The hours engine *)

Module Hours.

Local Open Scope Q_scope.

(** *** Python numbers *)

(** An operation of the engine either returns or raises. *)
Inductive PyExn : Type := ZeroDivisionError.

Inductive result (A : Type) : Type :=
| Ok (a : A)
| Raise (e : PyExn).

Arguments Ok {A} a.
Arguments Raise {A} e.

Definition bind {A B : Type} (r : result A) (k : A -> result B) : result B :=
  match r with
  | Ok a => k a
  | Raise e => Raise e
  end.

Notation "x <- r ;; k" := (bind r (fun x => k))
  (at level 61, r at next level, right associativity).

(** [x / y]: division by zero raises. *)
Definition py_div (x y : Q) : result Q :=
  if Qeq_bool y 0 then Raise ZeroDivisionError else Ok (x / y).

(** The call returns, and what it returns equals [v]. *)
Definition returns (r : result Q) (v : Q) : Prop :=
  match r with
  | Ok h => h == v
  | Raise _ => False
  end.

Definition Qltb (x y : Q) : bool := negb (Qle_bool y x).

(** [min(a, b)] *)
Definition py_min (a b : Q) : Q := if Qltb b a then b else a.

(** Rounding to the nearest integer, ties to the even one. *)
Definition round_half_even (x : Q) : Z :=
  let f := Qfloor x in
  let r := x - inject_Z f in
  if Qltb r (1 # 2) then f
  else if Qltb (1 # 2) r then (f + 1)%Z
  else if Z.even f then f else (f + 1)%Z.

(** [round(x, 2)] *)
Definition round2 (x : Q) : Q := inject_Z (round_half_even (x * 100)) / 100.

(** *** Configuration *)

Record HoursConfig : Type := {
  hours_journal_wos_scopus_q1_q2 : Q;
  hours_journal_wos_scopus_q3_q4 : Q;
  hours_journal_vnu_special : Q;
  hours_journal_rev : Q;
  hours_journal_international_reputable : Q;
  hours_journal_domestic_gte_1 : Q;
  hours_journal_domestic_gte_05 : Q;
  hours_journal_domestic_lt_05 : Q;
  hours_conference_wos_scopus : Q;
  hours_conference_international : Q;
  hours_conference_national : Q;
  hours_monograph_international : Q;
  hours_monograph_domestic : Q;
  hours_textbook_international : Q;
  hours_textbook_domestic : Q;
  hours_book_chapter_reputable : Q;
  hours_book_chapter_international : Q;
  hours_patent_international : Q;
  hours_patent_vietnam : Q;
  hours_utility_solution : Q;
  hours_award_international : Q;
  hours_award_national : Q;
  hours_exhibition_international : Q;
  hours_exhibition_national : Q;
  hours_exhibition_provincial : Q;
  republished_book_max_ratio : Q;
  patent_stage_1_ratio : Q;
  patent_stage_2_ratio : Q;
  hours_project_national_total : Q;
  hours_project_national_leader : Q;
  hours_project_national_secretary : Q;
  hours_project_national_member : Q;
  hours_project_vnu_total : Q;
  hours_project_vnu_leader : Q;
  hours_project_vnu_secretary : Q;
  hours_project_vnu_member : Q;
  hours_project_university_total : Q;
  hours_project_university_leader : Q;
  cooperation_base_hours : Q;
  cooperation_multiplier : Q;
  cooperation_leader_ratio : Q;
  cooperation_secretary_ratio : Q;
  cooperation_member_ratio : Q;
  other_activity_max_hours_per_year : Q;
  hours_student_research_university : Q;
  hours_student_research_faculty : Q;
  hours_team_training : Q;
  hours_exhibition_product : Q
}.

Definition DEFAULT_CONFIG : HoursConfig := {|
  hours_journal_wos_scopus_q1_q2 := 1800;
  hours_journal_wos_scopus_q3_q4 := 1400;
  hours_journal_vnu_special := 900;
  hours_journal_rev := 900;
  hours_journal_international_reputable := 900;
  hours_journal_domestic_gte_1 := 800;
  hours_journal_domestic_gte_05 := 600;
  hours_journal_domestic_lt_05 := 300;
  hours_conference_wos_scopus := 900;
  hours_conference_international := 600;
  hours_conference_national := 500;
  hours_monograph_international := 2700;
  hours_monograph_domestic := 1500;
  hours_textbook_international := 1800;
  hours_textbook_domestic := 900;
  hours_book_chapter_reputable := 1200;
  hours_book_chapter_international := 900;
  hours_patent_international := 3000;
  hours_patent_vietnam := 1800;
  hours_utility_solution := 1200;
  hours_award_international := 1800;
  hours_award_national := 1200;
  hours_exhibition_international := 900;
  hours_exhibition_national := 600;
  hours_exhibition_provincial := 400;
  republished_book_max_ratio := 1 # 3;
  patent_stage_1_ratio := 1 # 3;
  patent_stage_2_ratio := 2 # 3;
  hours_project_national_total := 1000;
  hours_project_national_leader := 500;
  hours_project_national_secretary := 250;
  hours_project_national_member := 250;
  hours_project_vnu_total := 800;
  hours_project_vnu_leader := 400;
  hours_project_vnu_secretary := 200;
  hours_project_vnu_member := 200;
  hours_project_university_total := 300;
  hours_project_university_leader := 300;
  cooperation_base_hours := 100;
  cooperation_multiplier := 1000;
  cooperation_leader_ratio := 1 # 2;
  cooperation_secretary_ratio := 1 # 4;
  cooperation_member_ratio := 1 # 4;
  other_activity_max_hours_per_year := 250;
  hours_student_research_university := 75;
  hours_student_research_faculty := 30;
  hours_team_training := 75;
  hours_exhibition_product := 45
|}.

(** *** Publications *)

(** [get_base_hours]: the table lookup, then the republished-book and
    the patent-stage adjustments. *)
Definition get_base_hours (publication_type : string)
    (quartile : option string) (domestic_points : Q)
    (patent_stage : option string) (is_republished : bool)
    (config : HoursConfig) : Q :=
  let hours :=
    if String.eqb publication_type "journal_wos_scopus" then
      match quartile with
      | Some q =>
          if Py.str_in q ["Q1"; "Q2"]%string
          then hours_journal_wos_scopus_q1_q2 config
          else hours_journal_wos_scopus_q3_q4 config
      | None => hours_journal_wos_scopus_q3_q4 config
      end
    else if String.eqb publication_type "journal_vnu_special" then
      hours_journal_vnu_special config
    else if String.eqb publication_type "journal_rev" then
      hours_journal_rev config
    else if String.eqb publication_type "journal_international_reputable" then
      hours_journal_international_reputable config
    else if String.eqb publication_type "journal_domestic" then
      if Qle_bool 1 domestic_points then hours_journal_domestic_gte_1 config
      else if Qle_bool (1 # 2) domestic_points
      then hours_journal_domestic_gte_05 config
      else hours_journal_domestic_lt_05 config
    else if String.eqb publication_type "conference_wos_scopus" then
      hours_conference_wos_scopus config
    else if String.eqb publication_type "conference_international" then
      hours_conference_international config
    else if String.eqb publication_type "conference_national" then
      hours_conference_national config
    else if String.eqb publication_type "monograph_international" then
      hours_monograph_international config
    else if String.eqb publication_type "monograph_domestic" then
      hours_monograph_domestic config
    else if String.eqb publication_type "textbook_international" then
      hours_textbook_international config
    else if String.eqb publication_type "textbook_domestic" then
      hours_textbook_domestic config
    else if String.eqb publication_type "book_chapter_reputable" then
      hours_book_chapter_reputable config
    else if String.eqb publication_type "book_chapter_international" then
      hours_book_chapter_international config
    else if String.eqb publication_type "patent_international" then
      hours_patent_international config
    else if String.eqb publication_type "patent_vietnam" then
      hours_patent_vietnam config
    else if String.eqb publication_type "utility_solution" then
      hours_utility_solution config
    else if String.eqb publication_type "award_international" then
      hours_award_international config
    else if String.eqb publication_type "award_national" then
      hours_award_national config
    else if String.eqb publication_type "exhibition_international" then
      hours_exhibition_international config
    else if String.eqb publication_type "exhibition_national" then
      hours_exhibition_national config
    else if String.eqb publication_type "exhibition_provincial" then
      hours_exhibition_provincial config
    else 0 in
  let hours :=
    if is_republished
       && Py.str_in publication_type
            ["monograph_international"; "monograph_domestic";
             "textbook_international"; "textbook_domestic";
             "book_chapter_reputable"; "book_chapter_international"]%string
    then hours * republished_book_max_ratio config
    else hours in
  if Py.str_in publication_type
       ["patent_international"; "patent_vietnam"; "utility_solution"]%string
  then
    if Py.opt_str_eqb patent_stage "stage_1"
    then hours * patent_stage_1_ratio config
    else if Py.opt_str_eqb patent_stage "stage_2"
    then hours * patent_stage_2_ratio config
    else 0
  else hours.

Definition calculate_author_hours (base_hours : Q)
    (author_role : option string) (total_authors : Z)
    (contribution_percentage : option Q) : result Q :=
  if Qle_bool base_hours 0 then Ok 0
  else
    match
      match contribution_percentage with
      | Some p => if Qltb 0 p then Some p else None
      | None => None
      end
    with
    | Some p => Ok (base_hours * (p / 100))
    | None =>
        let total_authors :=
          if (total_authors <=? 0)%Z then 1%Z else total_authors in
        base_share <-
          py_div (base_hours * (2 # 3)) (inject_Z total_authors) ;;
        let role := Py.lower (Py.str_or author_role "middle") in
        let bonus_share :=
          if String.eqb role "first_corresponding"
          then base_hours * (1 # 3)
          else if Py.str_in role ["first"; "corresponding"]%string
          then base_hours * (1 # 6)
          else 0 in
        Ok (base_share + bonus_share)
    end.

(** The nullable columns of a [Publication] the engine reads. *)
Module Publication.
Record t : Type := {
  year : Z;
  publication_type : string;
  quartile : option string;
  domestic_points : option Q;
  patent_stage : option string;
  is_republished : option bool;
  author_role : option string;
  total_authors : option Z;
  contribution_percentage : option Q
}.
End Publication.

Record PublicationHours : Type := {
  base_hours : Q;
  author_hours : Q
}.

Definition calculate_publication_hours (pub : Publication.t)
    (config : HoursConfig) : result PublicationHours :=
  let base :=
    get_base_hours (Publication.publication_type pub)
      (Publication.quartile pub)
      (match Publication.domestic_points pub with
       | Some d => if Qeq_bool d 0 then 0 else d
       | None => 0
       end)
      (Publication.patent_stage pub)
      (match Publication.is_republished pub with
       | Some b => b
       | None => false
       end)
      config in
  author <-
    calculate_author_hours base
      (Some (Py.str_or (Publication.author_role pub) "middle"))
      (Py.int_or (Publication.total_authors pub) 1)
      (Publication.contribution_percentage pub) ;;
  Ok {| base_hours := round2 base; author_hours := round2 author |}.

(** [calculate_yearly_summary]: the totals; the per-type and per-quartile
    counters of the returned dictionary are display data. *)
Record YearlySummary : Type := {
  total_publications : Z;
  total_base_hours : Q;
  total_author_hours : Q
}.

Fixpoint sum_publications (pubs : list Publication.t) (config : HoursConfig)
    (acc_base acc_author : Q) : result (Q * Q) :=
  match pubs with
  | [] => Ok (acc_base, acc_author)
  | pub :: rest =>
      hours <- calculate_publication_hours pub config ;;
      sum_publications rest config
        (acc_base + base_hours hours) (acc_author + author_hours hours)
  end.

Definition calculate_yearly_summary (publications : list Publication.t)
    (year : option Z) (config : HoursConfig) : result YearlySummary :=
  let publications :=
    if Py.int_truthy year
    then filter (fun p => Z.eqb (Publication.year p) (Py.int_or year 0))
           publications
    else publications in
  totals <- sum_publications publications config 0 0 ;;
  Ok {| total_publications := Z.of_nat (length publications);
        total_base_hours := round2 (fst totals);
        total_author_hours := round2 (snd totals) |}.




(** *** Projects *)

Record ProjectHours : Type := {
  total_hours : Q;
  user_hours : Q;
  leader_hours : Q;
  secretary_hours : Q;
  member_pool_hours : Q;
  member_each_hours : Q;
  other_members_count : Z
}.

Definition calculate_project_hours (project_level role : string)
    (funding_amount : Q) (duration_years : Z) (status : string)
    (total_members : Z) (config : HoursConfig) : result ProjectHours :=
  if String.eqb status "extended" then
    Ok {| total_hours := 0; user_hours := 0; leader_hours := 0;
          secretary_hours := 0; member_pool_hours := 0;
          member_each_hours := 0; other_members_count := 0 |}
  else
    shares <-
      (if String.eqb project_level "national" then
         Ok (hours_project_national_total config,
             hours_project_national_leader config,
             hours_project_national_secretary config,
             hours_project_national_member config)
       else if String.eqb project_level "vnu_ministry" then
         Ok (hours_project_vnu_total config,
             hours_project_vnu_leader config,
             hours_project_vnu_secretary config,
             hours_project_vnu_member config)
       else if String.eqb project_level "university" then
         Ok (hours_project_university_total config,
             hours_project_university_leader config, 0, 0)
       else if String.eqb project_level "cooperation" then
         let duration_years :=
           if (duration_years <=? 0)%Z then 1%Z else duration_years in
         per_year <-
           py_div (cooperation_multiplier config * funding_amount)
             (inject_Z duration_years) ;;
         let total := cooperation_base_hours config + per_year in
         Ok (total,
             total * cooperation_leader_ratio config,
             total * cooperation_secretary_ratio config,
             total * cooperation_member_ratio config)
       else Ok (0, 0, 0, 0)) ;;
    let '(total, leader, secretary, member_pool) := shares in
    let other_members :=
      if String.eqb project_level "university" then 0%Z
      else Z.max 0 (total_members - 2) in
    member_each <-
      (if (0 <? other_members)%Z && Qltb 0 member_pool
       then py_div member_pool (inject_Z other_members)
       else Ok 0) ;;
    let user :=
      if String.eqb role "leader" then leader
      else if String.eqb role "secretary" then secretary
      else member_each in
    Ok {| total_hours := round2 total;
          user_hours := round2 user;
          leader_hours := round2 leader;
          secretary_hours := round2 secretary;
          member_pool_hours := round2 member_pool;
          member_each_hours := round2 member_each;
          other_members_count := other_members |}.

Module Project.
Record t : Type := {
  project_level : string;
  role : string;
  funding_amount : option Q;
  duration_years : option Z;
  status : option string;
  total_members : option Z;
  start_year : Z;
  end_year : Z
}.
End Project.

Definition calculate_project_hours_from_model (project : Project.t)
    (config : HoursConfig) : result ProjectHours :=
  calculate_project_hours (Project.project_level project)
    (Project.role project)
    (match Project.funding_amount project with
     | Some f => if Qeq_bool f 0 then 0 else f
     | None => 0
     end)
    (Py.int_or (Project.duration_years project) 1)
    (Py.str_or (Project.status project) "completed")
    (Py.int_or (Project.total_members project) 1)
    config.

Definition calculate_project_hours_per_year (project : Project.t)
    (config : HoursConfig) : result Q :=
  hours <- calculate_project_hours_from_model project config ;;
  let user := user_hours hours in
  if Qeq_bool user 0 then Ok 0
  else if String.eqb (Project.project_level project) "cooperation" then
    Ok (round2 user)
  else
    let span_years :=
      Z.max 1 (Project.end_year project - Project.start_year project + 1) in
    per_year <- py_div user (inject_Z span_years) ;;
    Ok (round2 per_year).

(** *** Other activities *)

Definition calculate_other_activity_hours (activity_type : string)
    (quantity : Z) (config : HoursConfig) : Q :=
  let hours_per_unit :=
    if String.eqb activity_type "student_research_university"
    then hours_student_research_university config
    else if String.eqb activity_type "student_research_faculty"
    then hours_student_research_faculty config
    else if String.eqb activity_type "team_training"
    then hours_team_training config
    else if String.eqb activity_type "exhibition_product"
    then hours_exhibition_product config
    else 0 in
  round2 (hours_per_unit * inject_Z quantity).

Module OtherActivity.
Record t : Type := {
  activity_type : string;
  quantity : option Z;
  year : Z
}.
End OtherActivity.

Definition calculate_other_activity_hours_from_model
    (activity : OtherActivity.t) (config : HoursConfig) : Q :=
  calculate_other_activity_hours (OtherActivity.activity_type activity)
    (Py.int_or (OtherActivity.quantity activity) 1) config.

(** [calculate_yearly_other_activities_total]; the per-type breakdown of
    the returned dictionary is display data. *)
Record OtherActivitiesTotal : Type := {
  oa_year : Z;
  total_raw_hours : Q;
  capped_hours : Q;
  is_capped : bool;
  activity_count : Z
}.

(** The loop [for act in year_activities: total_raw_hours += hours]. *)
Definition raw_hours_sum (year_activities : list OtherActivity.t)
    (config : HoursConfig) : Q :=
  fold_left
    (fun acc act => acc + calculate_other_activity_hours_from_model act config)
    year_activities 0.

Definition calculate_yearly_other_activities_total
    (activities : list OtherActivity.t) (year : Z) (config : HoursConfig)
  : OtherActivitiesTotal :=
  let year_activities :=
    filter (fun a => Z.eqb (OtherActivity.year a) year) activities in
  let total_raw := raw_hours_sum year_activities config in
  let capped := py_min total_raw (other_activity_max_hours_per_year config) in
  {| oa_year := year;
     total_raw_hours := round2 total_raw;
     capped_hours := round2 capped;
     is_capped := Qltb (other_activity_max_hours_per_year config) total_raw;
     activity_count := Z.of_nat (length year_activities) |}.

(** *** The aggregate *)

Record TotalResearchHours : Type := {
  publication_hours : Q;
  publication_count : Z;
  project_hours : Q;
  project_count : Z;
  other_activity_hours : Q;
  grand_total_hours : Q
}.

Fixpoint sum_projects_per_year (projects : list Project.t)
    (config : HoursConfig) (acc : Q) : result Q :=
  match projects with
  | [] => Ok acc
  | proj :: rest =>
      h <- calculate_project_hours_per_year proj config ;;
      sum_projects_per_year rest config (acc + h)
  end.

Fixpoint sum_projects_total (projects : list Project.t)
    (config : HoursConfig) (acc : Q) : result Q :=
  match projects with
  | [] => Ok acc
  | proj :: rest =>
      hours <- calculate_project_hours_from_model proj config ;;
      sum_projects_total rest config (acc + user_hours hours)
  end.

(** [sorted(set(a.year for a in other_activities))] *)
Definition activity_years (other_activities : list OtherActivity.t)
  : list Z :=
  Py.sorted_set (map OtherActivity.year other_activities).

(** The loop over [years] adding each year's capped figure. *)
Definition sum_capped_by_year (other_activities : list OtherActivity.t)
    (years : list Z) (config : HoursConfig) : Q :=
  fold_left
    (fun acc y =>
       acc + capped_hours
               (calculate_yearly_other_activities_total other_activities y
                  config))
    years 0.

Definition calculate_total_research_hours
    (publications : list Publication.t) (projects : list Project.t)
    (other_activities : list OtherActivity.t) (year : option Z)
    (config : HoursConfig) : result TotalResearchHours :=
  pub_summary <- calculate_yearly_summary publications year config ;;
  let year_projects :=
    if Py.int_truthy year
    then filter (fun p => (Project.start_year p <=? Py.int_or year 0)%Z
                          && (Py.int_or year 0 <=? Project.end_year p)%Z)
           projects
    else projects in
  project_sum <-
    (if Py.int_truthy year
     then sum_projects_per_year year_projects config 0
     else sum_projects_total year_projects config 0) ;;
  let other_hours :=
    if Py.int_truthy year
    then capped_hours
           (calculate_yearly_other_activities_total other_activities
              (Py.int_or year 0) config)
    else sum_capped_by_year other_activities
           (activity_years other_activities) config in
  let total := total_author_hours pub_summary + project_sum + other_hours in
  Ok {| publication_hours := total_author_hours pub_summary;
        publication_count := total_publications pub_summary;
        project_hours := round2 project_sum;
        project_count := Z.of_nat (length year_projects);
        other_activity_hours := round2 other_hours;
        grand_total_hours := round2 total |}.

(** *** Definitions the properties are stated with *)






(** *** Sample records *)

(** Scenario A: university tier, leader, five members, 2024-2025. *)
Definition scenario_a : Project.t :=
  {| Project.project_level := "university"; Project.role := "leader";
     Project.funding_amount := None; Project.duration_years := Some 1%Z;
     Project.status := Some "ongoing"%string;
     Project.total_members := Some 5%Z;
     Project.start_year := 2024; Project.end_year := 2025 |}.

(** Scenario B: national tier, five members, the user an ordinary
    member. *)
Definition scenario_b : Project.t :=
  {| Project.project_level := "national"; Project.role := "member";
     Project.funding_amount := None; Project.duration_years := Some 1%Z;
     Project.status := Some "completed"%string;
     Project.total_members := Some 5%Z;
     Project.start_year := 2024; Project.end_year := 2024 |}.

(** Four top-tier student groups in each of 2024 and 2025. *)
Definition two_capped_years : list OtherActivity.t :=
  let group y := {| OtherActivity.activity_type :=
                      "student_research_university";
                    OtherActivity.quantity := Some 4%Z;
                    OtherActivity.year := y |} in
  [group 2024%Z; group 2025%Z].





(** A national project whose contract was extended. *)
Definition extended_national : Project.t :=
  {| Project.project_level := "national"; Project.role := "leader";
     Project.funding_amount := None; Project.duration_years := Some 2%Z;
     Project.status := Some "extended"%string;
     Project.total_members := Some 5%Z;
     Project.start_year := 2023; Project.end_year := 2024 |}.

End Hours.

(** ** Validation and role management of the models ([db_models.py]) *)

Module Models.

Import Scope.
Local Open Scope Z_scope.

(** The [ValueError]s of the two validators, by what they say. *)
Inductive ValueError : Type :=
| ErrChooseUnit            (* no organization_unit_id *)
| ErrUnknownUnit           (* organization_unit_id names no unit *)
| ErrDivisionRequired      (* a faculty member needs a division *)
| ErrUnknownDivision       (* division_id names no division *)
| ErrDivisionNotInUnit     (* the division belongs to another unit *)
| ErrRoleLevel             (* role_level is not one of the three levels *)
| ErrUniversityScoped      (* a university role carries a scope *)
| ErrFacultyNeedsUnit      (* a faculty role has no organization_unit_id *)
| ErrFacultyHasDivision    (* a faculty role carries a division_id *)
| ErrDepartmentNeedsDivision (* a department role has no division_id *)
| ErrRoleUnknownDivision   (* the role's division_id names no division *)
| ErrRoleDivisionNotInUnit. (* the role's unit is not the division's *)

(** [User.validate_org_structure]: the error raised, or the user as the
    call leaves it.  [admin_level] is the legacy cache column of the
    user. *)
Definition validate_org_structure (db : Database)
    (admin_level : option string) (self : User.t) : ValueError + User.t :=
  if negb (Py.int_truthy (User.organization_unit_id self)) then
    if String.eqb (highest_admin_level db self) "university"
       || Py.opt_str_eqb admin_level "university"
    then inr self
    else inl ErrChooseUnit
  else
    match org_unit_of db (User.organization_unit_id self) with
    | None => inl ErrUnknownUnit
    | Some org_unit =>
        if String.eqb (OrganizationUnit.unit_type org_unit) "office" then
          inr {| User.id := User.id self;
                 User.organization_unit_id := User.organization_unit_id self;
                 User.division_id := None;
                 User.is_active := User.is_active self |}
        else if String.eqb (OrganizationUnit.unit_type org_unit) "faculty"
        then
          let requires_division :=
            String.eqb (OrganizationUnit.unit_type org_unit) "faculty" in
          if requires_division && negb (Py.int_truthy (User.division_id self))
          then inl ErrDivisionRequired
          else if Py.int_truthy (User.division_id self) then
            match division_of db (User.division_id self) with
            | None => inl ErrUnknownDivision
            | Some division =>
                if negb (opt_z_eqb
                           (Some (Division.organization_unit_id division))
                           (User.organization_unit_id self))
                then inl ErrDivisionNotInUnit
                else inr self
            end
          else inr self
        else inr self
    end.

(** [_validate_admin_role_scope(target)]: the error raised, or the role
    as the call leaves it. *)
Definition _validate_admin_role_scope (db : Database) (target : AdminRole.t)
  : ValueError + AdminRole.t :=
  let level := Py.strip (AdminRole.role_level target) in
  if negb (Py.str_in level ["university"; "faculty"; "department"]) then
    inl ErrRoleLevel
  else if String.eqb level "university" then
    if Py.int_truthy (AdminRole.organization_unit_id target)
       || Py.int_truthy (AdminRole.division_id target)
    then inl ErrUniversityScoped
    else inr target
  else if String.eqb level "faculty" then
    if negb (Py.int_truthy (AdminRole.organization_unit_id target))
    then inl ErrFacultyNeedsUnit
    else if Py.int_truthy (AdminRole.division_id target)
    then inl ErrFacultyHasDivision
    else inr target
  else
    if negb (Py.int_truthy (AdminRole.division_id target))
    then inl ErrDepartmentNeedsDivision
    else
      match division_of db (AdminRole.division_id target) with
      | None => inl ErrRoleUnknownDivision
      | Some division =>
          if Py.int_truthy (AdminRole.organization_unit_id target)
             && negb (opt_z_eqb
                        (Some (Division.organization_unit_id division))
                        (AdminRole.organization_unit_id target))
          then inl ErrRoleDivisionNotInUnit
          else if negb (Py.int_truthy (AdminRole.organization_unit_id target))
          then
            inr {| AdminRole.id := AdminRole.id target;
                   AdminRole.user_id := AdminRole.user_id target;
                   AdminRole.role_level := AdminRole.role_level target;
                   AdminRole.organization_unit_id :=
                     Some (Division.organization_unit_id division);
                   AdminRole.division_id := AdminRole.division_id target;
                   AdminRole.is_active := AdminRole.is_active target |}
          else inr target
      end.

(** [AdminRole.get_user_roles(user_id, active_only)] *)
Definition get_user_roles (db : Database) (user_id : Z) (active_only : bool)
  : list AdminRole.t :=
  filter (fun r => Z.eqb (AdminRole.user_id r) user_id
                   && (negb active_only || AdminRole.is_active r))
    (admin_roles db).

(** [AdminRole.get_highest_level(user_id)] *)
Definition get_highest_level (db : Database) (user_id : Z) : string :=
  match get_user_roles db user_id true with
  | [] => "none"
  | roles =>
      snd (fold_left
             (fun (acc : Z * string) (role : AdminRole.t) =>
                let level := role_hierarchy (AdminRole.role_level role) in
                if (fst acc <? level) then (level, AdminRole.role_level role)
                else acc)
             roles (0, "none"))
  end.


(** The row with the primary key of [r] overwritten by [r]. *)
Fixpoint replace_role (r : AdminRole.t) (rows : list AdminRole.t)
  : list AdminRole.t :=
  match rows with
  | [] => []
  | x :: rest =>
      if Z.eqb (AdminRole.id x) (AdminRole.id r) then r :: rest
      else x :: replace_role r rest
  end.

(** [session.delete(role)] for the row with primary key [role_id]. *)
Fixpoint delete_role (role_id : Z) (rows : list AdminRole.t)
  : list AdminRole.t :=
  match rows with
  | [] => []
  | x :: rest =>
      if Z.eqb (AdminRole.id x) role_id then rest
      else x :: delete_role role_id rest
  end.

Definition with_roles (db : Database) (rows : list AdminRole.t) : Database :=
  {| users := users db;
     admin_roles := rows;
     organization_units := organization_units db;
     divisions := divisions db |}.

(** [AdminRole.grant_role(user_id, role_level, organization_unit_id,
    division_id)]: the role returned ([None] when the user already holds
    it) and the table as the call leaves it.  [new_id] is the key the
    database gives a new row; the audit columns (who, when, note) are
    not modelled. *)
Definition grant_role (db : Database) (new_id : Z) (user_id : Z)
    (role_level : string) (organization_unit_id division_id : option Z)
  : option AdminRole.t * Database :=
  match find (fun r => Z.eqb (AdminRole.user_id r) user_id
                       && String.eqb (AdminRole.role_level r) role_level
                       && opt_z_eqb (AdminRole.organization_unit_id r)
                            organization_unit_id
                       && opt_z_eqb (AdminRole.division_id r) division_id)
          (admin_roles db) with
  | Some existing =>
      if negb (AdminRole.is_active existing) then
        let revived :=
          {| AdminRole.id := AdminRole.id existing;
             AdminRole.user_id := AdminRole.user_id existing;
             AdminRole.role_level := AdminRole.role_level existing;
             AdminRole.organization_unit_id :=
               AdminRole.organization_unit_id existing;
             AdminRole.division_id := AdminRole.division_id existing;
             AdminRole.is_active := true |} in
        (Some revived, with_roles db (replace_role revived (admin_roles db)))
      else (None, db)
  | None =>
      let role :=
        {| AdminRole.id := new_id;
           AdminRole.user_id := user_id;
           AdminRole.role_level := role_level;
           AdminRole.organization_unit_id := organization_unit_id;
           AdminRole.division_id := division_id;
           AdminRole.is_active := true |} in
      (Some role, with_roles db (admin_roles db ++ [role]))
  end.

(** *** Definitions the properties are stated with *)

(** The scope a role works on is there: a faculty role names a unit and
    a department role a division (the check constraints of the table,
    read with Python's truthiness). *)
Definition has_scope (r : AdminRole.t) : bool :=
  if String.eqb (AdminRole.role_level r) "faculty"
  then Py.int_truthy (AdminRole.organization_unit_id r)
  else if String.eqb (AdminRole.role_level r) "department"
  then Py.int_truthy (AdminRole.division_id r)
  else true.

End Models.

(** ** The admin helpers ([blueprints/admin/helpers.py]) *)

Module Helpers.

Import Scope.
Local Open Scope Z_scope.

(** [filter_users_by_scope]: whether a user row survives the filter. *)
Definition filter_users_by_scope (db : Database) (req : Request)
    (admin_user : User.t) (u : User.t) : bool :=
  let lvl := effective_admin_level db req admin_user in
  if String.eqb lvl "university" then true
  else if String.eqb lvl "faculty" then
    match get_role_scope_ids db req admin_user "faculty" with
    | (_ :: _) as org_unit_ids =>
        opt_z_in (User.organization_unit_id u) org_unit_ids
    | [] =>
        if Py.int_truthy (User.organization_unit_id admin_user) then
          match User.organization_unit_id u with
          | Some _ => opt_z_eqb (User.organization_unit_id u)
                        (User.organization_unit_id admin_user)
          | None => false
          end
        else Z.eqb (User.id u) (-1)
    end
  else if String.eqb lvl "department" then
    match get_role_scope_ids db req admin_user "department" with
    | (_ :: _) as division_ids => opt_z_in (User.division_id u) division_ids
    | [] =>
        if Py.int_truthy (User.division_id admin_user) then
          match User.division_id u with
          | Some _ => opt_z_eqb (User.division_id u)
                        (User.division_id admin_user)
          | None => false
          end
        else Z.eqb (User.id u) (-1)
    end
  else Z.eqb (User.id u) (-1).

(** [is_user_in_scope(target_user)], read against [current_user]. *)
Definition is_user_in_scope (db : Database) (req : Request)
    (current_user target_user : User.t) : bool :=
  existsb (fun u => filter_users_by_scope db req current_user u
                    && Z.eqb (User.id u) (User.id target_user))
    (users db).

(** [_effective_admin_rank] *)
Definition _effective_admin_rank (db : Database) (req : Request)
    (admin_user : User.t) : Z :=
  hierarchy_get (effective_admin_level db req admin_user).

(** [can_view_user_scoped(admin_user, target_user)]; the scope test
    inside reads [current_user]. *)
Definition can_view_user_scoped (db : Database) (req : Request)
    (current_user admin_user target_user : User.t) : bool :=
  if negb (Routes.is_admin db admin_user) then false
  else if admin_act_as_user_mode (session req) then false
  else if negb (is_user_in_scope db req current_user target_user) then false
  else
    let effective_rank := _effective_admin_rank db req admin_user in
    if effective_rank <=? 0 then false
    else if negb (Routes.is_admin db target_user) then true
    else hierarchy_get (highest_admin_level db target_user) <=? effective_rank.

(** [can_manage_user_scoped(admin_user, target_user)] *)
Definition can_manage_user_scoped (db : Database) (req : Request)
    (current_user admin_user target_user : User.t) : bool :=
  if negb (can_view_user_scoped db req current_user admin_user target_user)
  then false
  else
    let effective_rank := _effective_admin_rank db req admin_user in
    if Routes.is_admin db target_user
       && (effective_rank <=? hierarchy_get (highest_admin_level db target_user))
    then false
    else true.

(** [can_assign_admin_level_scoped(admin_user, target_level)] *)
Definition can_assign_admin_level_scoped (db : Database) (req : Request)
    (admin_user : User.t) (target_level : string) : bool :=
  let lvl := effective_admin_level db req admin_user in
  if String.eqb lvl "university" then
    Py.str_in target_level ["university"; "faculty"; "department"; "none"]
  else if String.eqb lvl "faculty" then
    Py.str_in target_level ["faculty"; "department"; "none"]
  else false.

(** [get_approval_status_for_level] *)
Definition get_approval_status_for_level (admin_level : string) : string :=
  if String.eqb admin_level "department" then "pending"
  else if String.eqb admin_level "faculty" then "department_approved"
  else if String.eqb admin_level "university" then "faculty_approved"
  else "pending".

(** The scope ids of a listing: the role scope ids, else the actor's own
    placement, else nothing. *)
Definition scope_ids_or_own (ids : list Z) (own : option Z) : list Z :=
  match ids with
  | _ :: _ => ids
  | [] =>
      if Py.int_truthy own
      then match own with Some k => [k] | None => [] end
      else []
  end.

(** The ids of the divisions of the given units that have no effective
    department admin. *)
Definition missing_division_ids (db : Database) (org_unit_ids : list Z)
  : list Z :=
  map Division.id
    (filter
       (fun d =>
          existsb (Z.eqb (Division.organization_unit_id d)) org_unit_ids
          && (count_effective_admins_by_scope db "department" None
                (Some (Division.id d)) =? 0))
       (divisions db)).

(** The ids of the non-office units that have no effective faculty
    admin. *)
Definition missing_org_unit_ids (db : Database) : list Z :=
  map OrganizationUnit.id
    (filter
       (fun u =>
          negb (String.eqb (OrganizationUnit.unit_type u) "office")
          && (count_effective_admins_by_scope db "faculty"
                (Some (OrganizationUnit.id u)) None =? 0))
       (organization_units db)).

(** SQL [column IS NULL OR column IN ids]. *)
Definition null_or_in (column : option Z) (ids : list Z) : bool :=
  match column with
  | None => true
  | Some k => existsb (Z.eqb k) ids
  end.

(** [filter_my_pending_items]: whether an item row is among those that
    await this admin.  The three listings join the owner and the owner's
    unit; the empty listing is the query [id == -1]. *)
Definition filter_my_pending_items (db : Database) (req : Request)
    (admin_user : User.t) (item : Item.t) : bool :=
  let lvl := effective_admin_level db req admin_user in
  let status := Item.approval_status item in
  let joined (keep : User.t -> bool -> bool) : bool :=
    match user_get db (Item.user_id item) with
    | None => false
    | Some owner =>
        match org_unit_of db (User.organization_unit_id owner) with
        | None => false
        | Some unit =>
            keep owner (String.eqb (OrganizationUnit.unit_type unit) "office")
        end
    end in
  if String.eqb lvl "department" then
    match scope_ids_or_own
            (get_role_scope_ids db req admin_user "department")
            (User.division_id admin_user) with
    | [] => Z.eqb (Item.id item) (-1)
    | division_ids =>
        joined
          (fun owner office =>
             Py.opt_str_eqb status "pending"
             && opt_z_in (User.division_id owner) division_ids
             && negb office)
    end
  else if String.eqb lvl "faculty" then
    match scope_ids_or_own
            (get_role_scope_ids db req admin_user "faculty")
            (User.organization_unit_id admin_user) with
    | [] => Z.eqb (Item.id item) (-1)
    | org_unit_ids =>
        joined
          (fun owner office =>
             opt_z_in (User.organization_unit_id owner) org_unit_ids
             && negb office
             && (Py.opt_str_eqb status "department_approved"
                 || (Py.opt_str_eqb status "pending"
                     && null_or_in (User.division_id owner)
                          (missing_division_ids db org_unit_ids))))
    end
  else if String.eqb lvl "university" then
    let missing_units := missing_org_unit_ids db in
    let missing_divisions :=
      match missing_units with
      | [] => []
      | _ => missing_division_ids db missing_units
      end in
    joined
      (fun owner office =>
         (Py.opt_str_eqb status "faculty_approved" && negb office)
         || (Py.opt_str_eqb status "pending" && office)
         || (Py.opt_str_eqb status "department_approved"
             && opt_z_in (User.organization_unit_id owner) missing_units)
         || (Py.opt_str_eqb status "pending"
             && opt_z_in (User.organization_unit_id owner) missing_units
             && null_or_in (User.division_id owner) missing_divisions))
  else Z.eqb (Item.id item) (-1).

(** [get_approved_statuses(admin_user)] *)
Definition get_approved_statuses (db : Database) (req : Request)
    (admin_user : User.t) : list string :=
  let lvl := effective_admin_level db req admin_user in
  if String.eqb lvl "department"
  then ["department_approved"; "faculty_approved"; "approved"]
  else if String.eqb lvl "faculty" then ["faculty_approved"; "approved"]
  else ["approved"].

(** [normalize_status_filter(raw_status)] *)
Definition normalize_status_filter (raw_status : string) : string :=
  if String.eqb raw_status "my_pending" then "pending"
  else if Py.str_in raw_status ["all"; "pending"; "approved"; "returned"]
  then raw_status
  else "all".

(** [get_next_approval_status(current_status, item_owner)] *)
Definition get_next_approval_status (db : Database) (current_status : string)
    (item_owner : option User.t) : string :=
  if match item_owner with
     | Some owner => is_office_user db owner
     | None => false
     end
  then if String.eqb current_status "pending" then "approved"
       else current_status
  else if String.eqb current_status "pending" then "department_approved"
  else if String.eqb current_status "department_approved"
  then "faculty_approved"
  else if String.eqb current_status "faculty_approved" then "approved"
  else current_status.

End Helpers.

(** ** The role-management routes ([blueprints/admin/admin_roles.py]) *)

Module RoleRoutes.

Import Scope Models Helpers.
Local Open Scope Z_scope.

(** [count_effective_admins_by_scope] with its two exclusion arguments;
    [Scope.count_effective_admins_by_scope] is the call that leaves them
    out. *)
Definition count_effective_admins_excluding (db : Database)
    (role_level : string) (organization_unit_id division_id : option Z)
    (exclude_role_id exclude_user_id : option Z) : Z :=
  Z.of_nat
    (length
       (filter
          (fun role =>
             String.eqb (AdminRole.role_level role) role_level
             && AdminRole.is_active role
             && existsb
                  (fun u => Z.eqb (User.id u) (AdminRole.user_id role)
                            && User.is_active u)
                  (users db)
             && (if String.eqb role_level "faculty"
                    && Py.int_truthy organization_unit_id
                 then opt_z_eqb (AdminRole.organization_unit_id role)
                        organization_unit_id
                 else true)
             && (if String.eqb role_level "department"
                    && Py.int_truthy division_id
                 then opt_z_eqb (AdminRole.division_id role) division_id
                 else true)
             && (if Py.int_truthy exclude_role_id
                 then negb (opt_z_eqb (Some (AdminRole.id role))
                              exclude_role_id)
                 else true)
             && (if Py.int_truthy exclude_user_id
                 then negb (opt_z_eqb (Some (AdminRole.user_id role))
                              exclude_user_id)
                 else true))
          (admin_roles db))).

(** [AdminPermissionLog]: who was changed, how, from and to which
    level, by whom. *)
Record AdminPermissionLog : Type := {
  log_user_id : Z;
  log_action : string;
  log_old_level : string;
  log_new_level : string;
  log_performed_by : Z
}.

(** [AdminPermissionLog.log_change] *)
Definition log_change (user_id : Z) (old_level new_level : string)
    (performed_by : Z) : option AdminPermissionLog :=
  if String.eqb old_level new_level then None
  else
    let action :=
      if String.eqb old_level "none" && negb (String.eqb new_level "none")
      then "grant"
      else if negb (String.eqb old_level "none") && String.eqb new_level "none"
      then "revoke"
      else "change" in
    Some {| log_user_id := user_id; log_action := action;
            log_old_level := old_level; log_new_level := new_level;
            log_performed_by := performed_by |}.

(** Why a role route did not change anything. *)
Inductive Refusal : Type :=
| Redirected            (* the guard decorator sent the request away *)
| NotFound              (* get_or_404 *)
| NoUserChosen
| BadLevel
| UnknownUser
| OutOfScope
| NotAssignable
| FacultyNeedsUnit
| DepartmentNeedsDivision
| UnknownDivision
| DivisionOutOfScope
| UnitOutOfScope
| UserNotInDivision
| UnknownUnit
| UserNotInUnit
| AlreadyGranted
| LastAdmin
| Raised (e : ValueError).  (* the validator refused the row at commit *)

(** What a role route writes: the table, the value of the owner's
    [admin_level] cache column, and the permission log entry. *)
Record RoleChange : Type := {
  changed_role : AdminRole.t;
  changed_db : Database;
  new_admin_level : string;
  permission_log : option AdminPermissionLog
}.

(** [POST /admins/add]; the form fields are the arguments. *)
Definition add_admin (db : Database) (req : Request) (new_id : Z)
    (current_user : User.t) (user_id : option Z) (role_level_field : string)
    (organization_unit_id division_id : option Z) : Refusal + RoleChange :=
  if negb (Routes.admin_level_required "faculty" db req current_user)
  then inl Redirected
  else
    let role_level := Py.strip role_level_field in
    if negb (Py.int_truthy user_id) then inl NoUserChosen
    else if String.eqb role_level ""
            || negb (Py.str_in role_level
                       ["department"; "faculty"; "university"])
    then inl BadLevel
    else
      match user_get db (Py.int_or user_id 0) with
      | None => inl UnknownUser
      | Some user =>
          if negb (existsb
                     (fun u => filter_users_by_scope db req current_user u
                               && Z.eqb (User.id u) (Py.int_or user_id 0))
                     (users db))
          then inl OutOfScope
          else if negb (can_assign_admin_level_scoped db req current_user
                          role_level)
          then inl NotAssignable
          else if String.eqb role_level "faculty"
                  && negb (Py.int_truthy organization_unit_id)
          then inl FacultyNeedsUnit
          else if String.eqb role_level "department"
                  && negb (Py.int_truthy division_id)
          then inl DepartmentNeedsDivision
          else
            let not_university :=
              negb (String.eqb (effective_admin_level db req current_user)
                      "university") in
            let faculty_scope_ids :=
              get_role_scope_ids db req current_user "faculty" in
            let division_scope_ids :=
              get_role_scope_ids db req current_user "department" in
            let department_check : option Refusal :=
              if String.eqb role_level "department" then
                match division_of db division_id with
                | None => Some UnknownDivision
                | Some div =>
                    if not_university
                       && match division_scope_ids with
                          | [] => false
                          | _ => negb (opt_z_in division_id division_scope_ids)
                          end
                    then Some DivisionOutOfScope
                    else if not_university
                            && match faculty_scope_ids with
                               | [] => false
                               | _ =>
                                   negb (existsb
                                           (Z.eqb
                                              (Division.organization_unit_id
                                                 div))
                                           faculty_scope_ids)
                               end
                    then Some UnitOutOfScope
                    else if negb (opt_z_eqb (User.division_id user)
                                    division_id)
                    then Some UserNotInDivision
                    else None
                end
              else None in
            let faculty_check : option Refusal :=
              if String.eqb role_level "faculty" then
                match org_unit_of db organization_unit_id with
                | None => Some UnknownUnit
                | Some org =>
                    if not_university
                       && match faculty_scope_ids with
                          | [] => false
                          | _ => negb (opt_z_in organization_unit_id
                                         faculty_scope_ids)
                          end
                    then Some UnitOutOfScope
                    else if negb (opt_z_eqb (User.organization_unit_id user)
                                    organization_unit_id)
                    then
                      let user_div :=
                        if Py.int_truthy (User.division_id user)
                        then division_of db (User.division_id user)
                        else None in
                      match user_div with
                      | Some d =>
                          if opt_z_eqb
                               (Some (Division.organization_unit_id d))
                               organization_unit_id
                          then None
                          else Some UserNotInUnit
                      | None => Some UserNotInUnit
                      end
                    else None
                end
              else None in
            match department_check with
            | Some why => inl why
            | None =>
                match faculty_check with
                | Some why => inl why
                | None =>
                    let old_level := highest_admin_level db user in
                    match grant_role db new_id (Py.int_or user_id 0)
                            role_level
                            (if Py.str_in role_level ["faculty"; "department"]
                             then organization_unit_id else None)
                            (if String.eqb role_level "department"
                             then division_id else None) with
                    | (None, _) => inl AlreadyGranted
                    | (Some role, db') =>
                        match _validate_admin_role_scope db' role with
                        | inl e => inl (Raised e)
                        | inr stored =>
                            let db'' :=
                              with_roles db'
                                (replace_role stored (admin_roles db')) in
                            let new_highest :=
                              get_highest_level db'' (Py.int_or user_id 0) in
                            inr {| changed_role := stored;
                                   changed_db := db'';
                                   new_admin_level := new_highest;
                                   permission_log :=
                                     log_change (Py.int_or user_id 0)
                                       old_level new_highest
                                       (User.id current_user) |}
                        end
                    end
                end
            end
      end.

(** The guards [toggle_admin_role] and [delete_admin_role] share. *)
Definition role_route_guard (db : Database) (req : Request)
    (current_user : User.t) (role_id : Z) : Refusal + (AdminRole.t * User.t) :=
  if negb (Routes.admin_level_required "faculty" db req current_user)
  then inl Redirected
  else
    match find (fun r => Z.eqb (AdminRole.id r) role_id) (admin_roles db) with
    | None => inl NotFound
    | Some role =>
        match user_get db (AdminRole.user_id role) with
        | None => inl OutOfScope
        | Some user =>
            if negb (is_user_in_scope db req current_user user)
            then inl OutOfScope
            else if negb (can_assign_admin_level_scoped db req current_user
                            (AdminRole.role_level role))
            then inl NotAssignable
            else inr (role, user)
        end
    end.

Definition remaining_admins (db : Database) (role : AdminRole.t) : Z :=
  count_effective_admins_excluding db (AdminRole.role_level role)
    (AdminRole.organization_unit_id role) (AdminRole.division_id role)
    (Some (AdminRole.id role)) (Some (AdminRole.user_id role)).

(** [POST /admins/roles/<role_id>/toggle] *)
Definition toggle_admin_role (db : Database) (req : Request)
    (current_user : User.t) (role_id : Z) : Refusal + RoleChange :=
  match role_route_guard db req current_user role_id with
  | inl why => inl why
  | inr (role, user) =>
      if AdminRole.is_active role && (remaining_admins db role <=? 0)
      then inl LastAdmin
      else
        let old_level := highest_admin_level db user in
        let flipped :=
          {| AdminRole.id := AdminRole.id role;
             AdminRole.user_id := AdminRole.user_id role;
             AdminRole.role_level := AdminRole.role_level role;
             AdminRole.organization_unit_id :=
               AdminRole.organization_unit_id role;
             AdminRole.division_id := AdminRole.division_id role;
             AdminRole.is_active := negb (AdminRole.is_active role) |} in
        match _validate_admin_role_scope db flipped with
        | inl e => inl (Raised e)
        | inr stored =>
            let db' := with_roles db (replace_role stored (admin_roles db)) in
            let new_highest := get_highest_level db' (User.id user) in
            inr {| changed_role := stored;
                   changed_db := db';
                   new_admin_level := new_highest;
                   permission_log :=
                     log_change (User.id user) old_level new_highest
                       (User.id current_user) |}
        end
  end.

(** [POST /admins/roles/<role_id>/delete] *)
Definition delete_admin_role (db : Database) (req : Request)
    (current_user : User.t) (role_id : Z) : Refusal + RoleChange :=
  match role_route_guard db req current_user role_id with
  | inl why => inl why
  | inr (role, user) =>
      if remaining_admins db role <=? 0 then inl LastAdmin
      else
        let old_level := highest_admin_level db user in
        let db' := with_roles db (delete_role (AdminRole.id role)
                                    (admin_roles db)) in
        let new_highest := get_highest_level db' (User.id user) in
        inr {| changed_role := role;
               changed_db := db';
               new_admin_level := new_highest;
               permission_log :=
                 log_change (User.id user) old_level new_highest
                   (User.id current_user) |}
  end.

(** *** Sample data *)

(** What deleting the university role 1 of user 1 leaves behind. *)
Definition role_1_deleted : RoleChange :=
  {| changed_role := mk_role 1 1 "university" None None;
     changed_db := with_roles sample_db (delete_role 1 (admin_roles sample_db));
     new_admin_level := "faculty";
     permission_log := log_change 1 "university" "faculty" 5 |}.

(** What granting user 3 the department role of division 50 leaves
    behind; the validator fills in the unit of the division. *)
Definition division_50_granted : RoleChange :=
  {| changed_role := mk_role 6 3 "department" (Some 5) (Some 50);
     changed_db :=
       with_roles sample_db
         (admin_roles sample_db
          ++ [mk_role 6 3 "department" (Some 5) (Some 50)]);
     new_admin_level := "department";
     permission_log := log_change 3 "none" "department" 5 |}.

End RoleRoutes.

(** ** Batch approval ([blueprints/admin/approval.py]) *)

Module Batch.

Import Scope Executor Helpers.
Local Open Scope Z_scope.

(** The rows [batch_approve] works on: the listing of the items that
    await the current admin. *)
Definition batch_items (db : Database) (req : Request)
    (current_user : User.t) (table : list Item.t) : list Item.t :=
  filter (filter_my_pending_items db req current_user) table.

(** One turn of the loop of [batch_approve]; [clock item] is what
    [datetime.utcnow()] reads while [item] is processed. *)
Definition batch_step (db : Database) (req : Request) (clock : Item.t -> Z)
    (item_type_name : string) (current_user : User.t) (item : Item.t)
  : Outcome :=
  apply_approval_action db req (clock item) item item_type_name "approve"
    current_user None false false.

(** [batch_approve(model_class, item_type_name)] over the rows of one
    item table. *)
Definition batch_approve (db : Database) (req : Request)
    (clock : Item.t -> Z) (table : list Item.t) (item_type_name : string)
    (current_user : User.t) : Z :=
  fold_left
    (fun approved_count item =>
       if ok (result (batch_step db req clock item_type_name current_user
                        item))
       then approved_count + 1
       else approved_count)
    (batch_items db req current_user table) 0.

(** The three item tables. *)
Record Tables : Type := {
  publications : list Item.t;
  projects : list Item.t;
  activities : list Item.t
}.

(** [POST /approve-all]: the count flashed, or [None] when the guard
    sent the request away; [item_type] is
    [request.form.get("type", "all")]. *)
Definition approve_all_pending (db : Database) (req : Request)
    (clock : Item.t -> Z) (tables : Tables) (current_user : User.t)
    (item_type : string) : option Z :=
  if negb (Routes.admin_required db req current_user) then None
  else
    let count := 0 in
    let count :=
      if Py.str_in item_type ["all"; "publications"]
      then count + batch_approve db req clock (publications tables)
                     "publication" current_user
      else count in
    let count :=
      if Py.str_in item_type ["all"; "projects"]
      then count + batch_approve db req clock (projects tables)
                     "project" current_user
      else count in
    let count :=
      if Py.str_in item_type ["all"; "activities"]
      then count + batch_approve db req clock (activities tables)
                     "activity" current_user
      else count in
    Some count.

(** *** Sample data *)

(** Two pending items, of the lecturer 3 and of the office employee 4,
    and one the department has passed on. *)
Definition sample_publications : list Item.t :=
  [ mk_item 1 3 (Some "pending"); mk_item 2 4 (Some "pending");
    mk_item 3 3 (Some "department_approved") ].

End Batch.

(** ** The owner's routes ([blueprints/publications/routes.py], and the
    same code in [projects/routes.py] and [activities/routes.py]) *)

Module Owner.

(** [item.can_edit] and [item.can_delete] *)
Definition can_edit (item : Item.t) : bool :=
  match Item.approval_status item with
  | Some st => Py.str_in st ["draft"; "returned"]
  | None => false
  end.

Definition can_delete (item : Item.t) : bool := can_edit item.

Inductive Refusal : Type :=
| NotFound              (* first_or_404: no such item of this user *)
| NotEditable           (* can_edit is false *)
| FormError.            (* the form did not validate; nothing is committed *)

(** [POST /edit/<id>]: the item as committed.  [form_error] says whether
    [_update_..._from_form] returned an error; the content columns it
    writes are outside [Item.t].  [action] is
    [request.form.get("action", "save_draft")]. *)
Definition edit_item (table : list Item.t) (current_user : User.t)
    (item_id : Z) (form_error : bool) (action : string)
  : Refusal + Item.t :=
  match find (fun i => Z.eqb (Item.id i) item_id
                       && Z.eqb (Item.user_id i) (User.id current_user))
          table with
  | None => inl NotFound
  | Some item =>
      if negb (can_edit item) then inl NotEditable
      else if form_error then inl FormError
      else if String.eqb action "submit" then
        inr {| Item.id := Item.id item;
               Item.user_id := Item.user_id item;
               Item.approval_status := Some "pending";
               Item.is_approved := Item.is_approved item;
               Item.approved_at := Item.approved_at item;
               Item.approved_by := Item.approved_by item;
               Item.rejection_reason := None;
               Item.returned_at := None;
               Item.returned_by_level := Item.returned_by_level item |}
      else
        inr {| Item.id := Item.id item;
               Item.user_id := Item.user_id item;
               Item.approval_status :=
                 if negb (Py.opt_str_eqb (Item.approval_status item)
                            "returned")
                 then Some "draft"
                 else Item.approval_status item;
               Item.is_approved := Item.is_approved item;
               Item.approved_at := Item.approved_at item;
               Item.approved_by := Item.approved_by item;
               Item.rejection_reason := Item.rejection_reason item;
               Item.returned_at := Item.returned_at item;
               Item.returned_by_level := Item.returned_by_level item |}
  end.

End Owner.

(** ** Choosing the working role ([blueprints/admin/dashboard.py]) *)

Module ActAs.

Import Scope.
Local Open Scope Z_scope.

(** [POST /act-as]: the session as the route leaves it.
    [requested_role_id] is [request.form.get("role_id", type=int)] and
    [mode_field] is [request.form.get("mode")]. *)
Definition set_act_as_role (db : Database) (req : Request)
    (current_user : User.t) (requested_role_id : option Z)
    (mode_field : option string) : Session :=
  let ses := session req in
  if negb (Routes.is_admin db current_user) then ses
  else
    let roles := _get_active_admin_roles db current_user in
    let mode :=
      Py.str_or (Some (Py.strip (Py.str_or mode_field ""))) "auto" in
    if opt_z_eqb requested_role_id (Some 0) then
      {| admin_act_as_user_mode := true; admin_act_as_role_id := None |}
    else if String.eqb mode "auto" || negb (Py.int_truthy requested_role_id)
    then {| admin_act_as_user_mode := false; admin_act_as_role_id := None |}
    else if negb (existsb
                    (fun r => opt_z_eqb (Some (AdminRole.id r))
                                requested_role_id)
                    roles)
    then {| admin_act_as_user_mode := false; admin_act_as_role_id := None |}
    else {| admin_act_as_user_mode := false;
            admin_act_as_role_id := requested_role_id |}.

(** The next request of the same browser session. *)
Definition next_request (ses : Session) : Request :=
  {| has_request_context := true; session := ses |}.

End ActAs.

(** ** Proof automation *)

(** Case analysis on a status string against the three working states. *)
Ltac case_status s :=
  destruct (String.eqb_spec s "pending") as [-> | ?];
  [ | destruct (String.eqb_spec s "department_approved") as [-> | ?];
      [ | destruct (String.eqb_spec s "faculty_approved") as [-> | ?] ] ].



(** * Properties *)

(** ** The approval state machine *)

Section ApprovalFacts.

Import Approval.



(** C2, as stated, fails for an office owner: a university actor moves
    pending straight to approved, two levels skipped, whether the gap
    flags report no vacant level or (an office owner has no division)
    only the department one. *)
Lemma approve_skip_office_counterexample :
  next_status office_pending_ctx = "approved"
  /\ levels_skipped office_pending_ctx = 2%Z
  /\ vacant_levels office_pending_ctx = 0%Z
  /\ (levels_skipped office_pending_ctx <=? vacant_levels office_pending_ctx)%Z
     = false
  /\ next_status office_no_division_ctx = "approved"
  /\ levels_skipped office_no_division_ctx = 2%Z
  /\ vacant_levels office_no_division_ctx = 1%Z.
Proof. repeat split. Qed.

(** C2, amended.  For a non-office owner the number of levels skipped by
    one approve never exceeds the number of levels the gap flags report
    vacant: pending goes to faculty_approved only when
    missing_department is set (and the actor has faculty access), to
    approved only when both flags are set (university access), and
    department_approved goes to approved only when missing_faculty is
    set.  For an office owner the single step pending -> approved needs
    university access and no gap flag. *)
Theorem approve_skips_only_vacant_levels (ctx : ApprovalContext) :
  (is_office ctx = false ->
     (levels_skipped ctx <= vacant_levels ctx)%Z
     /\ (status_of ctx = "pending" -> next_status ctx = "faculty_approved" ->
         can_faculty ctx = true /\ missing_department_admin ctx = true)
     /\ (status_of ctx = "pending" -> next_status ctx = "approved" ->
         can_university ctx = true
         /\ missing_department_admin ctx = true
         /\ missing_faculty_admin ctx = true)
     /\ (status_of ctx = "department_approved" ->
         next_status ctx = "approved" ->
         can_university ctx = true /\ missing_faculty_admin ctx = true))
  /\ (is_office ctx = true ->
      next_status ctx
      = if String.eqb (status_of ctx) "pending" && can_university ctx
        then "approved" else status_of ctx).
Proof.
  split.
  - unfold levels_skipped, vacant_levels, next_status, chain_index.
    intros ->.
    generalize (status_of ctx) as s. intro s.
    case_status s;
      destruct (can_department ctx), (can_faculty ctx), (can_university ctx),
        (missing_department_admin ctx), (missing_faculty_admin ctx);
      cbn;
      repeat match goal with
        | H : s <> _ |- _ => rewrite (proj2 (String.eqb_neq _ _) H)
        end;
      repeat split; intros; try discriminate; try congruence; try lia;
      try (destruct (String.eqb_spec s "approved"); lia).
  - unfold next_status. now intros ->.
Qed.


(** Scenario F: the owner's division has no department admin, the
    unit has a faculty admin; a faculty actor's approve of a pending item
    is allowed, is performed at the faculty level and gives
    faculty_approved, one level skipped. *)
Lemma scenario_f_skips_department :
  can_approve scenario_f = (true, MsgEmpty)
  /\ next_status scenario_f = "faculty_approved"
  /\ action_level scenario_f = Some "faculty"
  /\ levels_skipped scenario_f = 1%Z
  /\ missing_department_admin scenario_f = true.
Proof. repeat split. Qed.

End ApprovalFacts.

(** ** The scope resolver *)

Section ScopeFacts.

Import Scope.
Local Open Scope Z_scope.

Lemma insert_by_In {A K : Type} (key : A -> K) (leb : K -> K -> bool)
    (x y : A) (l : list A) :
  In y (insert_by key leb x l) <-> y = x \/ In y l.
Proof.
  induction l as [| z l IH]; cbn.
  - intuition congruence.
  - destruct (leb (key x) (key z)); cbn; rewrite ?IH; intuition congruence.
Qed.

Lemma sort_by_In {A K : Type} (key : A -> K) (leb : K -> K -> bool)
    (y : A) (l : list A) :
  In y (sort_by key leb l) <-> In y l.
Proof.
  induction l as [| x l IH]; cbn; [tauto |].
  rewrite insert_by_In, IH. intuition congruence.
Qed.

Lemma insert_uniq_In (x y : Z) (l : list Z) :
  In y (Py.insert_uniq x l) <-> y = x \/ In y l.
Proof.
  induction l as [| z l IH]; cbn.
  - intuition congruence.
  - destruct (Z.compare_spec x z); cbn; rewrite ?IH; subst;
      intuition congruence.
Qed.

Lemma sorted_set_In (y : Z) (l : list Z) :
  In y (Py.sorted_set l) <-> In y l.
Proof.
  unfold Py.sorted_set.
  induction l as [| x l IH]; cbn; [tauto |].
  rewrite insert_uniq_In, IH. intuition congruence.
Qed.

Lemma insert_uniq_sorted (x : Z) (l : list Z) :
  StronglySorted Z.lt l ->
  StronglySorted Z.lt (Py.insert_uniq x l).
Proof.
  induction 1 as [| z l Hs IH Hall]; cbn.
  - repeat constructor.
  - destruct (Z.compare_spec x z) as [-> | Hlt | Hgt].
    + now constructor.
    + constructor; [now constructor |].
      constructor; [exact Hlt |].
      rewrite Forall_forall in *. intros w Hw. specialize (Hall w Hw). lia.
    + constructor; [exact IH |].
      rewrite Forall_forall in *. intros w Hw.
      apply insert_uniq_In in Hw as [-> | Hw]; [lia | now apply Hall].
Qed.

Lemma sorted_set_sorted (l : list Z) :
  StronglySorted Z.lt (Py.sorted_set l).
Proof.
  unfold Py.sorted_set.
  induction l as [| x l IH]; cbn; [constructor | now apply insert_uniq_sorted].
Qed.

(** The sorted list of active roles holds exactly [user.active_admin_roles]. *)
Lemma active_roles_In (db : Database) (user : User.t) (r : AdminRole.t) :
  User.id user <> 0%Z ->
  In r (_get_active_admin_roles db user) <-> In r (active_admin_roles db user).
Proof.
  intros Hid. unfold _get_active_admin_roles, active_admin_roles, user_roles.
  destruct (Z.eqb_spec (User.id user) 0) as [? | _]; [contradiction |].
  rewrite sort_by_In, !filter_In, andb_true_iff. tauto.
Qed.

Lemma role_hierarchy_get (l : string) : role_hierarchy l = hierarchy_get l.
Proof.
  unfold role_hierarchy, hierarchy_get, ADMIN_LEVEL_HIERARCHY.
  destruct (String.eqb_spec l "none") as [-> | _]; [reflexivity |].
  destruct (String.eqb_spec l "department") as [-> | _]; [reflexivity |].
  destruct (String.eqb_spec l "faculty") as [-> | _]; [reflexivity |].
  destruct (String.eqb l "university"); reflexivity.
Qed.

Lemma hierarchy_get_pos (l : string) :
  (0 < hierarchy_get l)%Z ->
  ADMIN_LEVEL_HIERARCHY l = Some (hierarchy_get l) /\ l <> "".
Proof.
  unfold hierarchy_get, ADMIN_LEVEL_HIERARCHY.
  destruct (String.eqb_spec l "none") as [-> | _]; [cbn; lia |].
  destruct (String.eqb_spec l "department") as [-> | _];
    [split; [reflexivity | discriminate] |].
  destruct (String.eqb_spec l "faculty") as [-> | _];
    [split; [reflexivity | discriminate] |].
  destruct (String.eqb_spec l "university") as [-> | _];
    [split; [reflexivity | discriminate] |].
  lia.
Qed.

Lemma hierarchy_get_nonneg (l : string) : (0 <= hierarchy_get l)%Z.
Proof.
  unfold hierarchy_get, ADMIN_LEVEL_HIERARCHY.
  destruct (String.eqb l "none"), (String.eqb l "department"),
    (String.eqb l "faculty"), (String.eqb l "university"); lia.
Qed.

Lemma highest_step_cases (acc : Z * string) (x : AdminRole.t) :
  (AdminRole.is_active x = true
   /\ (fst acc < hierarchy_get (AdminRole.role_level x))%Z
   /\ highest_step acc x
      = (hierarchy_get (AdminRole.role_level x), AdminRole.role_level x))
  \/ (highest_step acc x = acc
      /\ (AdminRole.is_active x = true ->
          (hierarchy_get (AdminRole.role_level x) <= fst acc)%Z)).
Proof.
  unfold highest_step. rewrite role_hierarchy_get.
  destruct (AdminRole.is_active x); [| right; split; congruence].
  destruct (Z.ltb_spec (fst acc) (hierarchy_get (AdminRole.role_level x)));
    [left | right]; tauto.
Qed.

(** What the loop of [highest_admin_level] maintains. *)
Lemma highest_fold (l : list AdminRole.t) :
  forall m h,
    m = hierarchy_get h ->
    let res := fold_left highest_step l (m, h) in
    fst res = hierarchy_get (snd res)
    /\ (m <= fst res)%Z
    /\ (forall r, In r l -> AdminRole.is_active r = true ->
          (hierarchy_get (AdminRole.role_level r) <= fst res)%Z)
    /\ (snd res = h
        \/ (0 < fst res)%Z
           /\ exists r, In r l /\ AdminRole.is_active r = true
                        /\ AdminRole.role_level r = snd res).
Proof.
  induction l as [| x l IH]; intros m h Hm; cbn [fold_left].
  - cbn. repeat split; [exact Hm | lia | tauto | now left].
  - destruct (highest_step_cases (m, h) x) as [(Ha & Hlt & ->) | [-> Hle]];
      cbn [fst] in *.
    + destruct (IH (hierarchy_get (AdminRole.role_level x))
                  (AdminRole.role_level x) eq_refl) as (H1 & H2 & H3 & H4).
      cbv zeta. repeat split; [exact H1 | lia | |].
      * intros r [<- | Hr] Hr'; [exact H2 | now apply H3].
      * right. destruct H4 as [H4 | (Hp & r & Hr & Hr' & Hl)].
        -- pose proof (hierarchy_get_nonneg h).
           split; [lia |]. exists x. rewrite H4. cbn. tauto.
        -- split; [exact Hp |]. exists r. cbn. tauto.
    + destruct (IH m h Hm) as (H1 & H2 & H3 & H4).
      cbv zeta. repeat split; [exact H1 | exact H2 | |].
      * intros r [<- | Hr] Hr'; [specialize (Hle Hr'); lia | now apply H3].
      * destruct H4 as [H4 | (Hp & r & Hr & Hr' & Hl)]; [now left |].
        right. split; [exact Hp |]. exists r. cbn. tauto.
Qed.

(** [highest_admin_level] is the highest level among the active grants,
    and is a key of [ADMIN_LEVEL_HIERARCHY]. *)
Lemma highest_admin_level_spec (db : Database) (user : User.t) :
  is_highest_level (active_admin_roles db user) (highest_admin_level db user)
  /\ ADMIN_LEVEL_HIERARCHY (highest_admin_level db user) <> None
  /\ highest_admin_level db user <> "".
Proof.
  unfold highest_admin_level, active_admin_roles.
  destruct (highest_fold (user_roles db user) 0%Z "none" eq_refl)
    as (H1 & _ & H3 & H4).
  set (res := fold_left highest_step (user_roles db user) (0%Z, "none")) in *.
  split; [split |].
  - intros r Hr. apply filter_In in Hr as [Hr Ha].
    rewrite <- H1. now apply H3.
  - destruct H4 as [H4 | (_ & r & Hr & Ha & Hl)]; [now left |].
    right. exists r. split; [apply filter_In; tauto | exact Hl].
  - destruct H4 as [-> | (Hp & _)]; [split; discriminate |].
    rewrite H1 in Hp. destruct (hierarchy_get_pos _ Hp) as [-> Hne].
    split; [discriminate | exact Hne].
Qed.

Lemma str_or_nonempty (v d : string) : v <> "" -> Py.str_or (Some v) d = v.
Proof. destruct v; [congruence | reflexivity]. Qed.

(** Without an override, outside a request or with at most one active
    grant, no role is acted as. *)
Lemma no_default_act_as (db : Database) (req : Request) (user : User.t) :
  Py.int_truthy (admin_act_as_role_id (session req)) = false ->
  has_request_context req = false
  \/ (length (_get_active_admin_roles db user) <= 1)%nat ->
  fst (get_act_as_role db req user) = None.
Proof.
  intros Hno Hcase. unfold get_act_as_role.
  destruct (has_request_context req); cbn [negb]; [| reflexivity].
  destruct (admin_act_as_user_mode (session req)); [reflexivity |].
  rewrite Hno.
  destruct Hcase as [? | Hlen]; [discriminate |].
  destruct (preferred_role _); [| reflexivity].
  destruct (Z.ltb_spec 1 (Z.of_nat (length (_get_active_admin_roles db user))));
    [lia | reflexivity].
Qed.

(** C5, as stated, fails for an actor with several active grants and no
    override chosen: user 1 holds a university grant, yet the resolver
    defaults to the first faculty grant, so the effective level is
    faculty and the faculty scope is that grant's unit alone, not the
    union over both faculty grants. *)
Lemma scope_default_counterexample :
  admin_act_as_user_mode (session fresh_request) = false
  /\ admin_act_as_role_id (session fresh_request) = None
  /\ highest_admin_level sample_db (mk_user 1 (Some 5) None) = "university"
  /\ level (get_effective_context sample_db fresh_request
              (mk_user 1 (Some 5) None)) = "faculty"
  /\ get_role_scope_ids sample_db fresh_request (mk_user 1 (Some 5) None)
       "faculty" = [5%Z]
  /\ get_role_scope_ids sample_db fresh_request (mk_user 1 (Some 5) None)
       "university" = [].
Proof. repeat split. Qed.

(** C5, amended.  For an actor not in plain-user mode with no override
    chosen: inside a request, when the actor holds more than one active
    grant, the resolver acts as the default grant (the first faculty
    grant, else the first department grant, else the first university
    grant), so the effective level is that grant's level and the scope
    is locked to that grant's single scope id; outside a request, or with
    at most one active grant, the effective level is the highest level
    among the active grants and the scope ids at that level are the
    sorted, duplicate-free union of the scope ids of the active grants
    at that level. *)
Theorem scope_resolver_without_override (db : Database) (req : Request)
    (user : User.t) :
  User.id user <> 0%Z ->
  admin_act_as_user_mode (session req) = false ->
  Py.int_truthy (admin_act_as_role_id (session req)) = false ->
  (has_request_context req = true ->
   (1 < length (_get_active_admin_roles db user))%nat ->
   forall p, preferred_role (_get_active_admin_roles db user) = Some p ->
     act_as_role (get_effective_context db req user) = Some p
     /\ level (get_effective_context db req user)
        = match ADMIN_LEVEL_HIERARCHY (AdminRole.role_level p) with
          | Some _ => AdminRole.role_level p
          | None => "none"
          end
     /\ get_role_scope_ids db req user (AdminRole.role_level p)
        = match scope_id_at (AdminRole.role_level p) p with
          | Some k => [k]
          | None => []
          end)
  /\ (has_request_context req = false
      \/ (length (_get_active_admin_roles db user) <= 1)%nat ->
      act_as_role (get_effective_context db req user) = None
      /\ is_highest_level (active_admin_roles db user)
           (level (get_effective_context db req user))
      /\ is_scope_union (active_admin_roles db user)
           (level (get_effective_context db req user))
           (get_role_scope_ids db req user
              (level (get_effective_context db req user)))
      /\ StronglySorted Z.lt
           (get_role_scope_ids db req user
              (level (get_effective_context db req user)))).
Proof.
  intros Hid Hmode Hno. split.
  - intros Hreq Hlen p Hp.
    assert (Hact : fst (get_act_as_role db req user) = Some p).
    { unfold get_act_as_role. rewrite Hreq, Hmode, Hno, Hp. cbn [negb].
      destruct (Z.ltb_spec 1
                  (Z.of_nat (length (_get_active_admin_roles db user))));
        [reflexivity | lia]. }
    assert (Hctx : get_effective_context db req user
                   = {| level :=
                          match ADMIN_LEVEL_HIERARCHY (AdminRole.role_level p)
                          with
                          | Some _ => AdminRole.role_level p
                          | None => "none"
                          end;
                        act_as_role := Some p; user_mode := false |}).
    { unfold get_effective_context.
      rewrite Hmode, andb_false_r, Hact. reflexivity. }
    unfold get_role_scope_ids. rewrite Hctx. cbn [act_as_role level user_mode].
    rewrite String.eqb_refl. cbn [negb]. repeat split.
  - intros Hcase.
    pose proof (no_default_act_as db req user Hno Hcase) as Hact.
    destruct (highest_admin_level_spec db user) as (Hhigh & Hkey & Hne).
    assert (Hctx : get_effective_context db req user
                   = {| level := highest_admin_level db user;
                        act_as_role := None; user_mode := false |}).
    { unfold get_effective_context.
      rewrite Hmode, andb_false_r, Hact, (str_or_nonempty _ _ Hne).
      destruct (ADMIN_LEVEL_HIERARCHY (highest_admin_level db user));
        [reflexivity | congruence]. }
    unfold get_role_scope_ids. rewrite Hctx. cbn [act_as_role level user_mode].
    split; [reflexivity |]. split; [exact Hhigh |].
    split; [| apply sorted_set_sorted].
    intros k. rewrite sorted_set_In, in_flat_map. split.
    + intros (r & Hr & Hk). exists r.
      apply (active_roles_In db user r Hid) in Hr.
      destruct (String.eqb_spec (AdminRole.role_level r)
                  (highest_admin_level db user)) as [Hl | Hl];
        cbn [negb] in Hk; [| contradiction].
      destruct (scope_id_at _ r) as [k' |]; [| contradiction].
      destruct Hk as [<- | []]. tauto.
    + intros (r & Hr & Hl & Hk). exists r.
      split; [now apply (active_roles_In db user r Hid) |].
      rewrite Hl, String.eqb_refl, Hk. now left.
Qed.

Lemma scope_resolver_without_override_witness :
  (User.id (mk_user 2 (Some 5) (Some 50)) <> 0%Z
   /\ admin_act_as_user_mode (session fresh_request) = false
   /\ Py.int_truthy (admin_act_as_role_id (session fresh_request)) = false)
  /\ act_as_role (get_effective_context sample_db fresh_request
                    (mk_user 2 (Some 5) (Some 50))) = None
  /\ is_highest_level (active_admin_roles sample_db
                         (mk_user 2 (Some 5) (Some 50)))
       (level (get_effective_context sample_db fresh_request
                 (mk_user 2 (Some 5) (Some 50)))).
Proof.
  assert (Hid : User.id (mk_user 2 (Some 5) (Some 50)) <> 0%Z)
    by (cbn; lia).
  destruct (scope_resolver_without_override sample_db fresh_request
              (mk_user 2 (Some 5) (Some 50)) Hid eq_refl eq_refl)
    as [_ Hsingle].
  destruct Hsingle as (Hnone & Hhigh & _).
  { right. vm_compute. lia. }
  split; [split; [exact Hid | split; reflexivity] |].
  split; [exact Hnone | exact Hhigh].
Defined.

End ScopeFacts.

(** ** The executor: return and reject *)

Section ExecutorFacts.

Import Scope Executor Routes.
Local Open Scope Z_scope.





Lemma hierarchy_get_university (l : string) :
  3 <= hierarchy_get l -> l = "university".
Proof.
  unfold hierarchy_get, ADMIN_LEVEL_HIERARCHY.
  destruct (String.eqb l "none"); [lia |].
  destruct (String.eqb l "department"); [lia |].
  destruct (String.eqb l "faculty"); [lia |].
  destruct (String.eqb_spec l "university"); [tauto | lia].
Qed.




Lemma can_approve_not_approved (ctx : Approval.ApprovalContext) :
  fst (Approval.can_approve ctx) = true ->
  Py.opt_str_eqb (Approval.current_status ctx) "approved" = false.
Proof.
  unfold Approval.can_approve, Approval.status_of.
  destruct (Approval.current_status ctx) as [[| c r] |]; cbn [Py.str_or];
    try reflexivity.
  cbn [Py.opt_str_eqb].
  destruct (String.eqb_spec (String c r) "approved") as [-> | ?];
    [| reflexivity].
  cbn. destruct (Approval.is_office ctx); cbn; discriminate.
Qed.

(** X3. The executor keeps the is_approved flag and the status
    synchronised: if the flag holds exactly when the status is approved
    before an action, it does so after it, whether the action is applied
    or refused. *)
Theorem executor_keeps_flag_synchronised (db : Database) (req : Request)
    (now : Z) (item : Item.t) (item_type action : string) (actor : User.t)
    (reason : option string) (commit collect_flashes : bool) :
  synchronised item ->
  synchronised
    (item_after (apply_approval_action db req now item item_type action actor
                   reason commit collect_flashes)).
Proof.
  unfold synchronised, apply_approval_action. intros Hsync.
  destruct (user_get db (Item.user_id item)) as [owner |] eqn:Ho;
    [| exact Hsync].
  destruct (String.eqb action "approve").
  { destruct (check_approval_chain db req item actor) as [can msg] eqn:Hc.
    destruct can; cbn [negb]; [| exact Hsync].
    cbn [item_after Item.is_approved Item.approval_status Py.opt_str_eqb].
    destruct (String.eqb (resolve_next_approval_status db req _ owner actor)
                "approved"); [reflexivity |].
    rewrite Hsync.
    unfold check_approval_chain in Hc. rewrite Ho in Hc.
    destruct (get_scope_permissions db req actor owner) as [[cu cf] cd].
    unfold Approval.approval_can_approve in Hc.
    apply (f_equal fst) in Hc. cbn [fst] in Hc.
    apply can_approve_not_approved in Hc. exact Hc. }
  destruct (String.eqb action "reject"); [reflexivity |].
  destruct (String.eqb action "return"); [| exact Hsync].
  destruct (String.eqb (Py.strip _) ""); [exact Hsync |].
  destruct (String.eqb (Py.str_or _ _) "approved"); [exact Hsync |].
  destruct (can_return_item db req item actor); [reflexivity | exact Hsync].
Qed.

Lemma executor_keeps_flag_synchronised_witness :
  synchronised (mk_item 1 3 (Some "faculty_approved"))
  /\ synchronised
       (item_after (apply_approval_action sample_db fresh_request 100
                      (mk_item 1 3 (Some "faculty_approved")) "publication"
                      "approve" (mk_user 5 None None) None true true)).
Proof.
  assert (H : synchronised (mk_item 1 3 (Some "faculty_approved")))
    by reflexivity.
  split; [exact H |].
  apply (executor_keeps_flag_synchronised sample_db fresh_request 100
           (mk_item 1 3 (Some "faculty_approved")) "publication" "approve"
           (mk_user 5 None None) None true true H).
Defined.

(** X4. Every applied action writes exactly one log entry, from the old
    status to the new one, and the item carries the new status; a
    refused action changes nothing, logs nothing and commits nothing. *)
Theorem executor_logs_one_entry (db : Database) (req : Request)
    (now : Z) (item : Item.t) (item_type action : string) (actor : User.t)
    (reason : option string) (commit collect_flashes : bool) :
  let out := apply_approval_action db req now item item_type action actor
               reason commit collect_flashes in
  (ok (result out) = true /\
   Item.approval_status (item_after out) = new_status (result out)
   /\ committed out = commit
   /\ exists entry,
        logged out = [entry]
        /\ ApprovalLog.old_status entry
           = Some (Py.str_or (Item.approval_status item) "pending")
        /\ ApprovalLog.new_status entry = new_status (result out)
        /\ ApprovalLog.performed_by entry = User.id actor)
  \/ (ok (result out) = false
      /\ item_after out = item /\ logged out = [] /\ committed out = false).
Proof.
  cbv zeta. unfold apply_approval_action.
  destruct (user_get db (Item.user_id item)) as [owner |];
    [| right; repeat split].
  destruct (String.eqb action "approve").
  { destruct (check_approval_chain db req item actor) as [[|] msg];
      cbn [negb]; [left | right; repeat split].
    repeat split. eexists. repeat split. }
  destruct (String.eqb action "reject").
  { left. repeat split. eexists. repeat split. }
  destruct (String.eqb action "return"); [| right; repeat split].
  destruct (String.eqb (Py.strip _) ""); [right; repeat split |].
  destruct (String.eqb (Py.str_or _ _) "approved"); [right; repeat split |].
  destruct (can_return_item db req item actor); cbn [negb];
    [left | right; repeat split].
  repeat split. eexists. repeat split.
Qed.

End ExecutorFacts.

(** ** The hours engine *)

Section HoursFacts.

Import Hours.
Local Open Scope Q_scope.

Lemma Qle_bool_false (x y : Q) : y < x -> Qle_bool x y = false.
Proof.
  intros H. destruct (Qle_bool x y) eqn:E; [| reflexivity].
  apply Qle_bool_iff in E. lra.
Qed.

Lemma Qltb_true (x y : Q) : x < y -> Qltb x y = true.
Proof. intros H. unfold Qltb. now rewrite Qle_bool_false. Qed.

Lemma Qltb_false (x y : Q) : y <= x -> Qltb x y = false.
Proof.
  intros H. unfold Qltb. apply Qle_bool_iff in H. now rewrite H.
Qed.

Lemma Qltb_spec (x y : Q) : Qltb x y = true <-> x < y.
Proof.
  split; [| apply Qltb_true].
  unfold Qltb. destruct (Qle_bool y x) eqn:E; [discriminate |].
  intros _. destruct (Qlt_le_dec x y) as [? | Hle]; [assumption |].
  apply Qle_bool_iff in Hle. congruence.
Qed.

Lemma py_div_ok (x y : Q) : ~ y == 0 -> py_div x y = Ok (x / y).
Proof.
  intros H. unfold py_div. destruct (Qeq_bool y 0) eqn:E; [| reflexivity].
  apply Qeq_bool_iff in E. contradiction.
Qed.

Lemma inject_Z_nonzero (n : Z) : n <> 0%Z -> ~ inject_Z n == 0.
Proof.
  intros H E. apply H. unfold Qeq in E. cbn in E. lia.
Qed.

(** C10. For the type journal_wos_scopus the base hours are the Q1/Q2
    figure exactly when the quartile is "Q1" or "Q2" and the Q3/Q4 figure
    otherwise, an absent or unrecognised quartile included: 1800 and
    1400 under the default configuration.  A patent with no stage, by
    contrast, is credited zero. *)
Theorem journal_quartile_tiers (quartile patent_stage : option string)
    (domestic_points : Q) (is_republished : bool) (config : HoursConfig) :
  get_base_hours "journal_wos_scopus" quartile domestic_points patent_stage
    is_republished config
  = (if Py.opt_str_eqb quartile "Q1" || Py.opt_str_eqb quartile "Q2"
     then hours_journal_wos_scopus_q1_q2 config
     else hours_journal_wos_scopus_q3_q4 config)
  /\ (get_base_hours "journal_wos_scopus" quartile domestic_points
        patent_stage is_republished DEFAULT_CONFIG = 1800
      <-> quartile = Some "Q1"%string \/ quartile = Some "Q2"%string)
  /\ (get_base_hours "journal_wos_scopus" quartile domestic_points
        patent_stage is_republished DEFAULT_CONFIG = 1400
      <-> quartile <> Some "Q1"%string /\ quartile <> Some "Q2"%string)
  /\ get_base_hours "journal_wos_scopus" None domestic_points patent_stage
       is_republished DEFAULT_CONFIG = 1400
  /\ get_base_hours "patent_vietnam" quartile domestic_points None
       is_republished DEFAULT_CONFIG = 0.
Proof.
  assert (Hd : forall c, get_base_hours "journal_wos_scopus" quartile
                 domestic_points patent_stage is_republished c
               = (if Py.opt_str_eqb quartile "Q1"
                     || Py.opt_str_eqb quartile "Q2"
                  then hours_journal_wos_scopus_q1_q2 c
                  else hours_journal_wos_scopus_q3_q4 c)).
  { intro c. unfold get_base_hours. cbn -[Qmult].
    rewrite andb_false_r.
    destruct quartile as [q |]; cbn; [| reflexivity].
    now rewrite orb_false_r. }
  split; [apply Hd |].
  rewrite !(Hd DEFAULT_CONFIG). cbn [DEFAULT_CONFIG
    hours_journal_wos_scopus_q1_q2 hours_journal_wos_scopus_q3_q4].
  split; [| split; [| split]].
  - destruct quartile as [q |]; cbn.
    + destruct (String.eqb_spec q "Q1") as [-> | H1]; cbn; [tauto |].
      destruct (String.eqb_spec q "Q2") as [-> | H2]; cbn; [tauto |].
      split; [discriminate | intros [[=] | [=]]; congruence].
    + split; [discriminate | intros [[=] | [=]]].
  - destruct quartile as [q |]; cbn.
    + destruct (String.eqb_spec q "Q1") as [-> | H1]; cbn;
        [split; [discriminate | intros [H _]; congruence] |].
      destruct (String.eqb_spec q "Q2") as [-> | H2]; cbn;
        [split; [discriminate | intros [_ H]; congruence] |].
      split; [intros _; split; congruence | reflexivity].
    + split; [intros _; split; discriminate | reflexivity].
  - unfold get_base_hours. cbn -[Qmult]. now rewrite andb_false_r.
  - reflexivity.
Qed.

(** *** Rounding to two decimals *)









(** *** Author hours *)

(** C6. With base hours b > 0, at least one author and no positive
    contribution percentage, the author hours are b * (2/3) /
    total_authors plus b/6 for the role first or corresponding, b/3
    for first_corresponding and nothing for middle; a contribution
    percentage above 0 replaces the whole split by b * percentage/100.
    1800 base hours, 4 authors, role first give 600. *)
Theorem author_hours_split (b : Q) (n : Z) (cp : option Q) :
  0 < b ->
  (1 <= n)%Z ->
  (forall p, cp = Some p -> p <= 0) ->
  returns (calculate_author_hours b (Some "first"%string) n cp)
    (b * (2 # 3) / inject_Z n + b / 6)
  /\ returns (calculate_author_hours b (Some "corresponding"%string) n cp)
       (b * (2 # 3) / inject_Z n + b / 6)
  /\ returns (calculate_author_hours b (Some "first_corresponding"%string)
                n cp)
       (b * (2 # 3) / inject_Z n + b / 3)
  /\ returns (calculate_author_hours b (Some "middle"%string) n cp)
       (b * (2 # 3) / inject_Z n)
  /\ (forall role p, 0 < p ->
        returns (calculate_author_hours b role n (Some p)) (b * p / 100))
  /\ returns (calculate_author_hours 1800 (Some "first"%string) 4 None) 600.
Proof.
  intros Hb Hn Hcp.
  assert (Hdiv : py_div (b * (2 # 3)) (inject_Z n)
                 = Ok (b * (2 # 3) / inject_Z n))
    by (apply py_div_ok, inject_Z_nonzero; lia).
  assert (Hn' : (n <=? 0)%Z = false) by (apply Z.leb_gt; lia).
  assert (Hover : match cp with
                  | Some p => if Qltb 0 p then Some p else None
                  | None => None
                  end = None).
  { destruct cp as [p |]; [| reflexivity].
    rewrite Qltb_false; [reflexivity | now apply Hcp]. }
  assert (Hnz : ~ inject_Z n == 0) by (apply inject_Z_nonzero; lia).
  assert (Hsplit : forall role,
            Py.lower (Py.str_or (Some role) "middle") = role ->
            calculate_author_hours b (Some role) n cp
            = Ok (b * (2 # 3) / inject_Z n
                  + (if String.eqb role "first_corresponding"
                     then b * (1 # 3)
                     else if Py.str_in role ["first"; "corresponding"]%string
                          then b * (1 # 6)
                          else 0))).
  { intros role Hrole. unfold calculate_author_hours.
    rewrite (Qle_bool_false b 0 Hb), Hover, Hn', Hdiv, Hrole. reflexivity. }
  split; [rewrite Hsplit by reflexivity; cbn; field; exact Hnz |].
  split; [rewrite Hsplit by reflexivity; cbn; field; exact Hnz |].
  split; [rewrite Hsplit by reflexivity; cbn; field; exact Hnz |].
  split; [rewrite Hsplit by reflexivity; cbn; field; exact Hnz |].
  split; [| vm_compute; reflexivity].
  intros role p Hp. unfold calculate_author_hours.
  rewrite (Qle_bool_false b 0 Hb), (Qltb_true 0 p Hp). cbn. field.
Qed.

Lemma author_hours_split_witness :
  (0 < 1800 /\ (1 <= 4)%Z)
  /\ returns (calculate_author_hours 1800 (Some "middle"%string) 4 None)
       (1800 * (2 # 3) / inject_Z 4).
Proof.
  assert (Hb : 0 < 1800) by reflexivity.
  assert (Hn : (1 <= 4)%Z) by lia.
  split; [split; assumption |].
  apply (author_hours_split 1800 4 None Hb Hn); discriminate.
Defined.

(** *** Project hours *)









(** *** Nothing raises *)










(** *** Other activities and the annual ceiling *)







(** *** Degradation of incomplete input *)




(** *** Scenarios of the specification *)

(** Scenario A: a university-tier project led by the user, five
    members, 2024-2025, ongoing: total 300, user 300, and 150 credited
    to each of the two years. *)
Lemma scenario_a_hours :
  match calculate_project_hours_from_model scenario_a DEFAULT_CONFIG with
  | Ok ph => total_hours ph == 300 /\ user_hours ph == 300
  | Raise _ => False
  end
  /\ returns (calculate_project_hours_per_year scenario_a DEFAULT_CONFIG) 150.
Proof. vm_compute. repeat split. Qed.

(** Scenario B: a national project of five (leader, secretary, three
    others): the member pool is 250, shared by 3, so an ordinary member
    is credited 83.33. *)
Lemma scenario_b_hours :
  match calculate_project_hours_from_model scenario_b DEFAULT_CONFIG with
  | Ok ph => member_pool_hours ph == 250
             /\ other_members_count ph = 3%Z
             /\ member_each_hours ph == 8333 # 100
             /\ user_hours ph == 8333 # 100
  | Raise _ => False
  end.
Proof. vm_compute. repeat split. Qed.

(** X7. For fixed base hours and author count the roles are ordered
    first_corresponding >= first = corresponding > middle. *)
Theorem author_roles_ordered (b : Q) (n : Z) :
  0 < b ->
  (1 <= n)%Z ->
  exists both first corresponding middle,
    calculate_author_hours b (Some "first_corresponding"%string) n None
    = Ok both
    /\ calculate_author_hours b (Some "first"%string) n None = Ok first
    /\ calculate_author_hours b (Some "corresponding"%string) n None
       = Ok corresponding
    /\ calculate_author_hours b (Some "middle"%string) n None = Ok middle
    /\ first <= both
    /\ first == corresponding
    /\ middle < first.
Proof.
  intros Hb Hn.
  assert (Hdiv : py_div (b * (2 # 3)) (inject_Z n)
                 = Ok (b * (2 # 3) / inject_Z n))
    by (apply py_div_ok, inject_Z_nonzero; lia).
  assert (Hn' : (n <=? 0)%Z = false) by (apply Z.leb_gt; lia).
  unfold calculate_author_hours.
  rewrite (Qle_bool_false b 0 Hb), Hn', Hdiv. cbn [bind].
  do 4 eexists.
  split; [reflexivity |]. split; [reflexivity |].
  split; [reflexivity |]. split; [reflexivity |].
  change (Py.lower (Py.str_or (Some "first"%string) "middle"))
    with "first"%string.
  change (Py.lower (Py.str_or (Some "corresponding"%string) "middle"))
    with "corresponding"%string.
  change (Py.lower (Py.str_or (Some "first_corresponding"%string) "middle"))
    with "first_corresponding"%string.
  change (Py.lower (Py.str_or (Some "middle"%string) "middle"))
    with "middle"%string.
  cbn -[Qplus Qmult Qdiv Qle Qlt Qeq inject_Z].
  set (share := b * (2 # 3) / inject_Z n).
  repeat split; lra.
Qed.

Lemma author_roles_ordered_witness :
  (0 < 1800 /\ (1 <= 4)%Z)
  /\ exists both first corresponding middle,
       calculate_author_hours 1800 (Some "first_corresponding"%string) 4 None
       = Ok both
       /\ calculate_author_hours 1800 (Some "first"%string) 4 None = Ok first
       /\ calculate_author_hours 1800 (Some "corresponding"%string) 4 None
          = Ok corresponding
       /\ calculate_author_hours 1800 (Some "middle"%string) 4 None
          = Ok middle
       /\ first <= both
       /\ first == corresponding
       /\ middle < first.
Proof.
  assert (Hb : 0 < 1800) by reflexivity.
  assert (Hn : (1 <= 4)%Z) by lia.
  split; [split; assumption |].
  exact (author_roles_ordered 1800 4 Hb Hn).
Defined.

(** The all-years rollup caps each year on its own: two years of
    300 raw hours each are credited 250 + 250 = 500, where capping the
    grand total of 600 would give 250. *)
Lemma all_years_rollup_caps_each_year :
  match calculate_total_research_hours [] [] two_capped_years None
          DEFAULT_CONFIG with
  | Ok r => other_activity_hours r == 500
  | Raise _ => False
  end
  /\ raw_hours_sum two_capped_years DEFAULT_CONFIG == 600
  /\ py_min (raw_hours_sum two_capped_years DEFAULT_CONFIG)
       (other_activity_max_hours_per_year DEFAULT_CONFIG) == 250.
Proof. vm_compute. repeat split. Qed.

End HoursFacts.

(** ** Acting as a role *)

Section EffectiveFacts.

Import Scope.
Local Open Scope Z_scope.

Lemma active_roles_owned (db : Database) (user : User.t) (r : AdminRole.t) :
  In r (_get_active_admin_roles db user) ->
  In r (admin_roles db) /\ AdminRole.user_id r = User.id user
  /\ AdminRole.is_active r = true.
Proof.
  unfold _get_active_admin_roles.
  destruct (Z.eqb (User.id user) 0); [intros [] |].
  rewrite sort_by_In, filter_In, andb_true_iff, Z.eqb_eq. tauto.
Qed.

Lemma act_as_role_owned (db : Database) (req : Request) (user : User.t)
    (r : AdminRole.t) :
  fst (get_act_as_role db req user) = Some r ->
  In r (admin_roles db) /\ AdminRole.user_id r = User.id user
  /\ AdminRole.is_active r = true.
Proof.
  unfold get_act_as_role.
  destruct (has_request_context req); cbn; [| discriminate].
  destruct (admin_act_as_user_mode (session req)); cbn; [discriminate |].
  destruct (Py.int_truthy (admin_act_as_role_id (session req))).
  - destruct (find _ (_get_active_admin_roles db user)) as [r1 |] eqn:E1.
    + cbn. intros [= <-]. apply find_some in E1 as [Hin _].
      now apply active_roles_owned.
    + destruct (find _ (admin_roles db)) as [r2 |] eqn:E2;
        cbn; [| discriminate].
      intros [= <-]. apply find_some in E2 as [Hin Hp].
      rewrite !andb_true_iff, !Z.eqb_eq in Hp. tauto.
  - assert (Hfind : forall lv l,
             first_with_level lv (_get_active_admin_roles db user) = Some l ->
             In l (admin_roles db) /\ AdminRole.user_id l = User.id user
             /\ AdminRole.is_active l = true).
    { intros lv l H. apply find_some in H as [H _].
      now apply active_roles_owned. }
    unfold preferred_role.
    destruct (first_with_level "faculty" _) as [p1 |] eqn:E1;
      [| destruct (first_with_level "department" _) as [p2 |] eqn:E2;
         [| destruct (first_with_level "university" _) as [p3 |] eqn:E3]];
      try (cbn; discriminate);
      (destruct (1 <? _); cbn; [| discriminate]);
      intros [= <-]; eapply Hfind; eassumption.
Qed.

(** What an effective level other than ["none"] tells about the
    context. *)
Lemma effective_level_shape (db : Database) (req : Request) (user : User.t)
    (lvl : string) :
  effective_admin_level db req user = lvl ->
  lvl <> "none" ->
  let ctx := get_effective_context db req user in
  level ctx = lvl
  /\ user_mode ctx = false
  /\ (has_request_context req && admin_act_as_user_mode (session req)) = false
  /\ act_as_role ctx = fst (get_act_as_role db req user)
  /\ match act_as_role ctx with
     | Some r => AdminRole.role_level r = lvl
     | None => highest_admin_level db user = lvl
     end.
Proof.
  unfold effective_admin_level, get_effective_context.
  destruct (has_request_context req && admin_act_as_user_mode (session req));
    cbn [level user_mode act_as_role]; [cbn; congruence |].
  destruct (fst (get_act_as_role db req user)) as [r |] eqn:E;
    cbn [level user_mode act_as_role].
  - destruct (ADMIN_LEVEL_HIERARCHY (AdminRole.role_level r)) eqn:Eh.
    + rewrite Eh. intros <- _. repeat split.
    + cbn. intros <-. congruence.
  - destruct (highest_admin_level_spec db user) as (_ & _ & Hne).
    rewrite (str_or_nonempty _ _ Hne).
    destruct (ADMIN_LEVEL_HIERARCHY (highest_admin_level db user)) eqn:Eh.
    + rewrite Eh. intros <- _. repeat split.
    + cbn. intros <-. congruence.
Qed.

Lemma effective_level_none_rank (db : Database) (req : Request)
    (user : User.t) :
  0 < hierarchy_get (effective_admin_level db req user) ->
  effective_admin_level db req user <> "none".
Proof. intros H E. rewrite E in H. cbn in H. lia. Qed.

Lemma active_role_rank (db : Database) (user : User.t) (r : AdminRole.t) :
  In r (admin_roles db) -> AdminRole.user_id r = User.id user ->
  AdminRole.is_active r = true ->
  hierarchy_get (AdminRole.role_level r)
  <= hierarchy_get (highest_admin_level db user).
Proof.
  intros Hin Hu Ha.
  destruct (highest_admin_level_spec db user) as ((Hmax & _) & _).
  apply Hmax. unfold active_admin_roles, user_roles.
  rewrite !filter_In, Z.eqb_eq. tauto.
Qed.

Lemma act_as_never_escalates_rank (db : Database) (req : Request)
    (user : User.t) :
  hierarchy_get (effective_admin_level db req user)
  <= hierarchy_get (highest_admin_level db user)
  /\ (has_university_access db req user = true ->
      highest_admin_level db user = "university").
Proof.
  split.
  - destruct (String.eqb_spec (effective_admin_level db req user) "none")
      as [E | Hne].
    + rewrite E. apply hierarchy_get_nonneg.
    + destruct (effective_level_shape db req user _ eq_refl Hne)
        as (_ & _ & _ & Hact & Hshape).
      destruct (act_as_role (get_effective_context db req user)) as [r |].
      * rewrite <- Hshape.
        destruct (act_as_role_owned db req user r) as (Hin & Hu & Ha);
          [congruence |].
        now apply active_role_rank.
      * rewrite Hshape. lia.
  - unfold has_university_access.
    destruct (has_request_context req && admin_act_as_user_mode (session req))
      eqn:Emode; [discriminate |].
    assert (Hctx : level (get_effective_context db req user) = "university" ->
                   highest_admin_level db user = "university").
    { intros Hl. unfold get_effective_context in Hl. rewrite Emode in Hl.
      cbn [level] in Hl.
      destruct (fst (get_act_as_role db req user)) as [r |] eqn:E.
      - destruct (ADMIN_LEVEL_HIERARCHY (AdminRole.role_level r));
          [| discriminate].
        destruct (act_as_role_owned db req user r E) as (Hin & Hu & Ha).
        apply hierarchy_get_university.
        pose proof (active_role_rank db user r Hin Hu Ha) as Hr.
        rewrite Hl in Hr. exact Hr.
      - destruct (highest_admin_level_spec db user) as (_ & _ & Hne).
        rewrite (str_or_nonempty _ _ Hne) in Hl.
        destruct (ADMIN_LEVEL_HIERARCHY (highest_admin_level db user));
          [assumption | discriminate]. }
    destruct (act_as_role (get_effective_context db req user)).
    + intros H. apply Hctx. now apply String.eqb_eq.
    + rewrite orb_true_iff. intros [H | H].
      * unfold has_admin_role in H. apply existsb_exists in H
          as (r & Hin & Hp).
        unfold active_admin_roles, user_roles in Hin.
        rewrite !filter_In, Z.eqb_eq in Hin.
        apply andb_true_iff in Hp as [Hl _]. apply String.eqb_eq in Hl.
        apply hierarchy_get_university.
        pose proof (active_role_rank db user r) as Hr. rewrite Hl in Hr.
        cbn in Hr. apply Hr; tauto.
      * apply Hctx. now apply String.eqb_eq.
Qed.

(** X2. Acting as a role never gives more than the user's own grants. *)
Theorem act_as_never_escalates (db : Database) (req : Request)
    (user : User.t) :
  hierarchy_get (effective_admin_level db req user)
  <= hierarchy_get (highest_admin_level db user)
  /\ (has_university_access db req user = true ->
      highest_admin_level db user = "university")
  /\ (forall lvl k,
        In k (get_role_scope_ids db req user lvl) ->
        exists r,
          In r (admin_roles db) /\ AdminRole.user_id r = User.id user
          /\ AdminRole.is_active r = true /\ AdminRole.role_level r = lvl
          /\ scope_id_at lvl r = Some k).
Proof.
  destruct (act_as_never_escalates_rank db req user) as [H1 H2].
  split; [exact H1 |]. split; [exact H2 |].
  intros lvl k. unfold get_role_scope_ids.
  destruct (user_mode _); [intros [] |].
  destruct (act_as_role (get_effective_context db req user)) as [r |] eqn:Er.
  - destruct (String.eqb_spec (AdminRole.role_level r) lvl) as [E | _];
      cbn [negb]; [| intros []].
    destruct (scope_id_at lvl r) as [j |] eqn:Es; [| intros []].
    intros [<- | []]. exists r.
    assert (Hact : fst (get_act_as_role db req user) = Some r).
    { revert Er. unfold get_effective_context.
      destruct (has_request_context req
                && admin_act_as_user_mode (session req)); [discriminate |].
      now cbn [act_as_role]. }
    destruct (act_as_role_owned db req user r Hact) as (Hin & Hu & Ha).
    now repeat split.
  - rewrite sorted_set_In, in_flat_map. intros (r & Hin & H).
    destruct (String.eqb_spec (AdminRole.role_level r) lvl) as [E | _];
      cbn [negb] in H; [| destruct H].
    destruct (scope_id_at lvl r) as [j |] eqn:Es; [| destruct H].
    destruct H as [<- | []]. exists r.
    destruct (active_roles_owned db user r Hin) as (Hin' & Hu & Ha).
    now repeat split.
Qed.

End EffectiveFacts.

(** ** The listing of the items that await an admin *)

Section ListingFacts.

Import Scope Executor Models Helpers.
Local Open Scope Z_scope.

Lemma int_truthy_nonzero (k : Z) : Py.int_truthy (Some k) = true <-> k <> 0.
Proof. cbn. rewrite negb_true_iff, Z.eqb_neq. tauto. Qed.

Lemma scope_id_at_nonzero (lvl : string) (r : AdminRole.t) (k : Z) :
  scope_id_at lvl r = Some k -> k <> 0.
Proof.
  unfold scope_id_at.
  destruct (String.eqb lvl "faculty"
            && Py.int_truthy (AdminRole.organization_unit_id r)) eqn:E1.
  - apply andb_true_iff in E1 as [_ E1]. intros H. rewrite H in E1.
    now apply int_truthy_nonzero.
  - destruct (String.eqb lvl "department"
              && Py.int_truthy (AdminRole.division_id r)) eqn:E2;
      [| discriminate].
    apply andb_true_iff in E2 as [_ E2]. intros H. rewrite H in E2.
    now apply int_truthy_nonzero.
Qed.

Lemma scope_ids_nonzero (db : Database) (req : Request) (user : User.t)
    (lvl : string) (k : Z) :
  In k (get_role_scope_ids db req user lvl) -> k <> 0.
Proof.
  unfold get_role_scope_ids.
  destruct (user_mode _); [intros [] |].
  destruct (act_as_role _) as [r |].
  - destruct (negb _); [intros [] |].
    destruct (scope_id_at lvl r) as [j |] eqn:E; [| intros []].
    intros [<- | []]. eapply scope_id_at_nonzero, E.
  - rewrite sorted_set_In, in_flat_map. intros (r & _ & H).
    destruct (negb _); [destruct H |].
    destruct (scope_id_at lvl r) as [j |] eqn:E; [| destruct H].
    destruct H as [<- | []]. eapply scope_id_at_nonzero, E.
Qed.

Lemma opt_z_in_spec (x : option Z) (ids : list Z) :
  opt_z_in x ids = true <-> exists k, x = Some k /\ In k ids.
Proof.
  unfold opt_z_in. destruct x as [k |].
  - rewrite existsb_exists. split.
    + intros (j & Hin & E). apply Z.eqb_eq in E. subst. eauto.
    + intros (j & [= <-] & Hin). exists k. split; [assumption |].
      apply Z.eqb_refl.
  - split; [discriminate | intros (k & [=] & _)].
Qed.

Lemma opt_z_eqb_refl (k : Z) : opt_z_eqb (Some k) (Some k) = true.
Proof. apply Z.eqb_refl. Qed.

(** An owner found in the listing's scope ids, or in the admin's own
    placement when there are none. *)
Lemma in_scope_or_own (ids : list Z) (own x : option Z) :
  (forall k, In k ids -> k <> 0) ->
  opt_z_in x (scope_ids_or_own ids own) = true ->
  Py.int_truthy x = true
  /\ match ids with
     | _ :: _ => opt_z_in x ids = true
     | [] => opt_z_eqb x own = true
     end.
Proof.
  intros Hnz H. destruct ids as [| i ids]; cbn [scope_ids_or_own] in H.
  - destruct (Py.int_truthy own) eqn:Eo; [| destruct x; discriminate].
    destruct own as [o |]; [| discriminate].
    apply opt_z_in_spec in H as (k & -> & [<- | []]).
    split; [assumption | apply opt_z_eqb_refl].
  - split; [| assumption].
    apply opt_z_in_spec in H as (k & -> & Hin).
    apply int_truthy_nonzero. now apply Hnz.
Qed.

Lemma has_scope_faculty (r : AdminRole.t) :
  has_scope r = true -> AdminRole.role_level r = "faculty" ->
  Py.int_truthy (AdminRole.organization_unit_id r) = true.
Proof. unfold has_scope. intros H E. now rewrite E in H. Qed.

Lemma has_scope_department (r : AdminRole.t) :
  has_scope r = true -> AdminRole.role_level r = "department" ->
  Py.int_truthy (AdminRole.division_id r) = true.
Proof. unfold has_scope. intros H E. now rewrite E in H. Qed.

Lemma listed_can_faculty (db : Database) (req : Request)
    (admin owner : User.t) :
  (forall r, In r (admin_roles db) -> has_scope r = true) ->
  effective_admin_level db req admin = "faculty" ->
  opt_z_in (User.organization_unit_id owner)
    (scope_ids_or_own (get_role_scope_ids db req admin "faculty")
       (User.organization_unit_id admin)) = true ->
  snd (fst (get_scope_permissions db req admin owner)) = true.
Proof.
  intros Hws Heff Hin.
  destruct (effective_level_shape db req admin "faculty" Heff
              ltac:(discriminate)) as (Hl & Hum & _ & Hact & Hshape).
  apply in_scope_or_own in Hin as [Htr Hin];
    [| intros k; apply scope_ids_nonzero].
  revert Hin. unfold get_scope_permissions, get_role_scope_ids. cbv zeta.
  rewrite Hl, Hum.
  destruct (act_as_role (get_effective_context db req admin)) as [r |].
  - destruct (act_as_role_owned db req admin r) as (Hr & _ & _);
      [congruence |].
    pose proof (has_scope_faculty r (Hws r Hr) Hshape) as Ht.
    rewrite Hshape. cbn [String.eqb Ascii.eqb Bool.eqb negb fst snd].
    unfold scope_id_at. cbn [String.eqb Ascii.eqb Bool.eqb andb].
    rewrite Ht. destruct (AdminRole.organization_unit_id r) as [k |];
      [| discriminate].
    intros H. apply opt_z_in_spec in H as (j & -> & [<- | []]).
    apply opt_z_eqb_refl.
  - cbn [fst snd]. rewrite Htr.
    destruct (Py.sorted_set _); [| tauto].
    intros ->. cbn. apply orb_true_r.
Qed.

Lemma listed_can_department (db : Database) (req : Request)
    (admin owner : User.t) :
  (forall r, In r (admin_roles db) -> has_scope r = true) ->
  effective_admin_level db req admin = "department" ->
  opt_z_in (User.division_id owner)
    (scope_ids_or_own (get_role_scope_ids db req admin "department")
       (User.division_id admin)) = true ->
  snd (get_scope_permissions db req admin owner) = true.
Proof.
  intros Hws Heff Hin.
  destruct (effective_level_shape db req admin "department" Heff
              ltac:(discriminate)) as (Hl & Hum & _ & Hact & Hshape).
  apply in_scope_or_own in Hin as [Htr Hin];
    [| intros k; apply scope_ids_nonzero].
  revert Hin. unfold get_scope_permissions, get_role_scope_ids. cbv zeta.
  rewrite Hl, Hum.
  destruct (act_as_role (get_effective_context db req admin)) as [r |].
  - destruct (act_as_role_owned db req admin r) as (Hr & _ & _);
      [congruence |].
    pose proof (has_scope_department r (Hws r Hr) Hshape) as Ht.
    rewrite Hshape. cbn [String.eqb Ascii.eqb Bool.eqb negb fst snd].
    unfold scope_id_at. cbn [String.eqb Ascii.eqb Bool.eqb andb].
    rewrite Ht. destruct (AdminRole.division_id r) as [k |];
      [| discriminate].
    intros H. apply opt_z_in_spec in H as (j & -> & [<- | []]).
    apply opt_z_eqb_refl.
  - cbn [fst snd]. rewrite Htr.
    destruct (Py.sorted_set _); [| tauto].
    intros ->. cbn. apply orb_true_r.
Qed.

Lemma listed_can_university (db : Database) (req : Request)
    (admin owner : User.t) :
  effective_admin_level db req admin = "university" ->
  fst (fst (get_scope_permissions db req admin owner)) = true.
Proof.
  intros Heff.
  destruct (effective_level_shape db req admin "university" Heff
              ltac:(discriminate)) as (Hl & Hum & Hmode & Hact & Hshape).
  unfold get_scope_permissions. cbv zeta. rewrite Hl.
  destruct (act_as_role (get_effective_context db req admin)) as [r |] eqn:Er.
  - reflexivity.
  - cbn [fst snd]. unfold has_university_access. rewrite Hmode, Er, Hl.
    apply orb_true_r.
Qed.

Lemma find_by_key {A : Type} (key : A -> Z) (l : list A) (x : A) :
  NoDup (map key l) -> In x l ->
  find (fun y => Z.eqb (key y) (key x)) l = Some x.
Proof.
  induction l as [| y l IH]; cbn; [intros _ [] |].
  intros Hnd [-> | Hin].
  - now rewrite Z.eqb_refl.
  - inversion Hnd as [| ? ? Hnotin Hnd']; subst.
    destruct (Z.eqb_spec (key y) (key x)) as [E | _].
    + exfalso. apply Hnotin. rewrite E. now apply in_map.
    + now apply IH.
Qed.

Lemma missing_unit_facts (db : Database) (owner : User.t)
    (unit : OrganizationUnit.t) :
  NoDup (map OrganizationUnit.id (organization_units db)) ->
  org_unit_of db (User.organization_unit_id owner) = Some unit ->
  opt_z_in (User.organization_unit_id owner) (missing_org_unit_ids db) = true ->
  String.eqb (OrganizationUnit.unit_type unit) "office" = false
  /\ has_faculty_admin_for_owner db owner = false.
Proof.
  intros Hnd Hunit Hin.
  apply opt_z_in_spec in Hin as (k & Ek & Hin).
  unfold missing_org_unit_ids in Hin.
  apply in_map_iff in Hin as (u & <- & Hu).
  apply filter_In in Hu as [Hu Hp].
  apply andb_true_iff in Hp as [Hoff Hcount].
  rewrite Ek in Hunit. cbn [org_unit_of] in Hunit.
  rewrite (find_by_key OrganizationUnit.id _ u Hnd Hu) in Hunit.
  injection Hunit as <-.
  split; [now apply negb_true_iff |].
  unfold has_faculty_admin_for_owner. rewrite Ek.
  apply Z.eqb_eq in Hcount. rewrite Hcount.
  now destruct (Py.int_truthy _).
Qed.

Lemma missing_division_facts (db : Database) (owner : User.t)
    (units : list Z) :
  null_or_in (User.division_id owner) (missing_division_ids db units) = true ->
  has_department_admin_for_owner db owner = false.
Proof.
  unfold null_or_in, has_department_admin_for_owner.
  destruct (User.division_id owner) as [k |]; [| reflexivity].
  intros H. apply existsb_exists in H as (j & Hin & E).
  apply Z.eqb_eq in E. subst j.
  unfold missing_division_ids in Hin.
  apply in_map_iff in Hin as (d & <- & Hd).
  apply filter_In in Hd as [_ Hp].
  apply andb_true_iff in Hp as [_ Hcount].
  apply Z.eqb_eq in Hcount. rewrite Hcount.
  now destruct (Py.int_truthy _).
Qed.

Lemma opt_str_eqb_eq (x : option string) (y : string) :
  Py.opt_str_eqb x y = true -> x = Some y.
Proof.
  destruct x as [s |]; [| discriminate]. cbn. intros H.
  now apply String.eqb_eq in H as ->.
Qed.

Lemma listing_is_sound (db : Database) (req : Request)
    (admin : User.t) (item : Item.t) :
  NoDup (map OrganizationUnit.id (organization_units db)) ->
  (forall r, In r (admin_roles db) -> has_scope r = true) ->
  Item.id item <> -1 ->
  filter_my_pending_items db req admin item = true ->
  check_approval_chain db req item admin = (true, Approval.MsgEmpty).
Proof.
  intros Hnd Hws Hid. apply Z.eqb_neq in Hid.
  unfold filter_my_pending_items, check_approval_chain. cbv zeta.
  destruct (String.eqb_spec (effective_admin_level db req admin) "department")
    as [Elvl | _].
  { (* a department admin *)
    destruct (scope_ids_or_own _ _) as [| i ids] eqn:Eids; [congruence |].
    destruct (user_get db (Item.user_id item)) as [owner |];
      [| discriminate].
    unfold is_office_user.
    destruct (org_unit_of db (User.organization_unit_id owner)) as [unit |];
      [| discriminate].
    rewrite !andb_true_iff, negb_true_iff. intros [[Hst Hin] Hoff].
    rewrite <- Eids in Hin.
    pose proof (listed_can_department db req admin owner Hws Elvl Hin) as Hcd.
    destruct (get_scope_permissions db req admin owner) as [[cu cf] cd].
    cbn in Hcd. subst cd. rewrite Hoff, (opt_str_eqb_eq _ _ Hst).
    reflexivity. }
  destruct (String.eqb_spec (effective_admin_level db req admin) "faculty")
    as [Elvl | _].
  { (* a faculty admin *)
    destruct (scope_ids_or_own _ _) as [| i ids] eqn:Eids; [congruence |].
    destruct (user_get db (Item.user_id item)) as [owner |];
      [| discriminate].
    unfold is_office_user.
    destruct (org_unit_of db (User.organization_unit_id owner)) as [unit |];
      [| discriminate].
    rewrite !andb_true_iff, negb_true_iff. intros [[Hin Hoff] Hst].
    rewrite <- Eids in Hin.
    pose proof (listed_can_faculty db req admin owner Hws Elvl Hin) as Hcf.
    destruct (get_scope_permissions db req admin owner) as [[cu cf] cd].
    cbn in Hcf. subst cf. rewrite Hoff.
    apply orb_true_iff in Hst as [Hst | Hst].
    - rewrite (opt_str_eqb_eq _ _ Hst). reflexivity.
    - apply andb_true_iff in Hst as [Hst Hmiss].
      rewrite (opt_str_eqb_eq _ _ Hst),
        (missing_division_facts db owner _ Hmiss).
      destruct cd; reflexivity. }
  destruct (String.eqb_spec (effective_admin_level db req admin) "university")
    as [Elvl | _]; [| congruence].
  (* a university admin *)
  destruct (user_get db (Item.user_id item)) as [owner |];
    [| discriminate].
  unfold is_office_user.
  destruct (org_unit_of db (User.organization_unit_id owner)) as [unit |] eqn:Eu;
    [| discriminate].
  pose proof (listed_can_university db req admin owner Elvl) as Hcu.
  destruct (get_scope_permissions db req admin owner) as [[cu cf] cd].
  cbn in Hcu. subst cu.
  rewrite !orb_true_iff, !andb_true_iff, negb_true_iff.
  intros [[[[Hst Hoff] | [Hst Hoff]] | [Hst Hin]] | [[Hst Hin] Hmiss]];
    rewrite (opt_str_eqb_eq _ _ Hst).
  - rewrite Hoff. reflexivity.
  - rewrite Hoff. reflexivity.
  - destruct (missing_unit_facts db owner unit Hnd Eu Hin) as [Hoff Hfac].
    rewrite Hoff, Hfac. destruct cf; reflexivity.
  - destruct (missing_unit_facts db owner unit Hnd Eu Hin) as [Hoff Hfac].
    rewrite Hoff, Hfac.
    assert (Hdep : has_department_admin_for_owner db owner = false).
    { destruct (missing_org_unit_ids db) as [| m ms] eqn:Em.
      - apply opt_z_in_spec in Hin as (k & _ & []).
      - now apply missing_division_facts in Hmiss. }
    rewrite Hdep. destruct cd, cf; reflexivity.
Qed.

Lemma sample_units_distinct :
  NoDup (map OrganizationUnit.id (organization_units sample_db)).
Proof. repeat constructor; cbn; intuition lia. Qed.

Lemma sample_roles_scoped (r : AdminRole.t) :
  In r (admin_roles sample_db) -> has_scope r = true.
Proof. cbn. intros H. repeat destruct H as [<- | H]; tauto || reflexivity. Qed.

End ListingFacts.

(** ** Approving: progress, finality and the batch *)

Section BatchFacts.

Import Scope Executor Models Helpers Batch.
Local Open Scope Z_scope.

Lemma approve_ok_is_chain_check (db : Database) (req : Request) (now : Z)
    (item : Item.t) (item_type : string) (actor : User.t)
    (reason : option string) (commit collect_flashes : bool) :
  ok (result (apply_approval_action db req now item item_type "approve" actor
                reason commit collect_flashes))
  = fst (check_approval_chain db req item actor).
Proof.
  unfold apply_approval_action.
  destruct (user_get db (Item.user_id item)) as [owner |] eqn:Eo.
  - cbn [String.eqb Ascii.eqb Bool.eqb].
    destruct (check_approval_chain db req item actor) as [can_do message].
    now destruct can_do.
  - unfold check_approval_chain. now rewrite Eo.
Qed.

Lemma count_fold (A : Type) (p : A -> bool) (l : list A) :
  forall c,
    fold_left (fun count x => if p x then count + 1 else count) l c
    = c + Z.of_nat (length (filter p l)).
Proof.
  induction l as [| x l IH]; intros c; cbn [fold_left filter].
  - cbn. lia.
  - rewrite IH. destruct (p x); cbn [length]; lia.
Qed.

Lemma filter_all (A : Type) (p : A -> bool) (l : list A) :
  (forall x, In x l -> p x = true) -> filter p l = l.
Proof.
  induction l as [| x l IH]; cbn; [reflexivity |].
  intros H. rewrite (H x (or_introl eq_refl)). f_equal. apply IH.
  intros y Hy. apply H. now right.
Qed.

Lemma can_approve_advances (ctx : Approval.ApprovalContext) :
  fst (Approval.can_approve ctx) = true ->
  exists i j,
    Approval.chain_index (Approval.status_of ctx) = Some i
    /\ Approval.chain_index (Approval.next_status ctx) = Some j
    /\ i < j.
Proof.
  unfold Approval.can_approve, Approval.next_status.
  generalize (Approval.status_of ctx) as s. intro s.
  destruct (Approval.is_office ctx);
    case_status s;
    destruct (Approval.can_department ctx), (Approval.can_faculty ctx),
      (Approval.can_university ctx), (Approval.missing_department_admin ctx),
      (Approval.missing_faculty_admin ctx);
    cbn;
    repeat match goal with
      | H : s <> _ |- _ => rewrite (proj2 (String.eqb_neq _ _) H)
      end;
    cbn; intros; try discriminate;
    do 2 eexists; (split; [reflexivity | split; [reflexivity | lia]]).
Qed.

Lemma str_or_idem (x : option string) (d : string) :
  d <> "" -> Py.str_or (Some (Py.str_or x d)) d = Py.str_or x d.
Proof.
  intros Hd. destruct x as [[| c r] |]; cbn; try reflexivity;
    destruct d; congruence.
Qed.

(** X13. An approve that goes through moves the item forward along the
    chain, never backward or sideways. *)
Theorem approve_moves_forward (db : Database) (req : Request) (now : Z)
    (item : Item.t) (item_type : string) (actor : User.t)
    (reason : option string) (commit collect_flashes : bool) :
  let out := apply_approval_action db req now item item_type "approve" actor
               reason commit collect_flashes in
  ok (result out) = true ->
  exists i j new,
    Approval.chain_index (Py.str_or (Item.approval_status item) "pending")
    = Some i
    /\ Item.approval_status (item_after out) = Some new
    /\ Approval.chain_index new = Some j
    /\ i < j
    /\ Item.rejection_reason (item_after out) = None
    /\ Item.returned_at (item_after out) = None.
Proof.
  cbv zeta. unfold apply_approval_action.
  destruct (user_get db (Item.user_id item)) as [owner |] eqn:Eo;
    [| discriminate].
  cbn [String.eqb Ascii.eqb Bool.eqb].
  destruct (check_approval_chain db req item actor) as [can_do message] eqn:Ec.
  destruct can_do; cbn [negb]; [| discriminate].
  intros _.
  cbn [item_after Item.approval_status Item.rejection_reason Item.returned_at
       Item.is_approved].
  unfold check_approval_chain in Ec. rewrite Eo in Ec.
  unfold resolve_next_approval_status.
  destruct (get_scope_permissions db req actor owner) as [[cu cf] cd].
  apply (f_equal fst) in Ec. cbn [fst] in Ec.
  apply can_approve_advances in Ec as (i & j & Hi & Hj & Hlt).
  unfold Approval.status_of in Hi.
  cbn [Approval.current_status Approval.mk_context] in Hi.
  exists i, j. eexists. split; [exact Hi |]. split; [reflexivity |].
  split.
  { rewrite <- Hj. f_equal.
    unfold Approval.approval_next_status, Approval.next_status,
      Approval.status_of.
    cbn [Approval.current_status Approval.mk_context Approval.is_office
         Approval.can_university Approval.can_faculty Approval.can_department
         Approval.missing_department_admin Approval.missing_faculty_admin].
    now rewrite str_or_idem. }
  repeat split; assumption.
Qed.

(** X14. The executor never changes an approved item through approve or
    return: only a reject reopens it. *)
Theorem approved_item_is_final (db : Database) (req : Request) (now : Z)
    (item : Item.t) (item_type action : string) (actor : User.t)
    (reason : option string) (commit collect_flashes : bool) :
  Item.approval_status item = Some "approved" ->
  action <> "reject" ->
  let out := apply_approval_action db req now item item_type action actor
               reason commit collect_flashes in
  ok (result out) = false
  /\ item_after out = item
  /\ logged out = []
  /\ committed out = false.
Proof.
  intros Hst Hact. cbv zeta. unfold apply_approval_action.
  destruct (user_get db (Item.user_id item)) as [owner |] eqn:Eo;
    [| now repeat split].
  destruct (String.eqb action "approve").
  { destruct (check_approval_chain db req item actor) as [can_do message] eqn:Ec.
    destruct can_do; cbn [negb]; [| now repeat split].
    exfalso. unfold check_approval_chain in Ec. rewrite Eo in Ec.
    destruct (get_scope_permissions db req actor owner) as [[cu cf] cd].
    apply (f_equal fst) in Ec. cbn [fst] in Ec.
    apply can_approve_not_approved in Ec.
    cbn [Approval.current_status Approval.mk_context] in Ec.
    rewrite Hst in Ec. discriminate. }
  destruct (String.eqb_spec action "reject"); [contradiction |].
  destruct (String.eqb action "return"); [| now repeat split].
  destruct (String.eqb (Py.strip _) ""); [now repeat split |].
  rewrite Hst. cbn [Py.str_or String.eqb Ascii.eqb Bool.eqb].
  now repeat split.
Qed.

(** X11. Every item the "awaiting me" listing shows can be approved by the
    admin it is shown to. *)
Theorem my_pending_items_are_approvable (db : Database) (req : Request)
    (now : Z) (admin : User.t) (item : Item.t) (item_type : string)
    (reason : option string) (commit collect_flashes : bool) :
  NoDup (map OrganizationUnit.id (organization_units db)) ->
  (forall r, In r (admin_roles db) -> has_scope r = true) ->
  Item.id item <> -1 ->
  filter_my_pending_items db req admin item = true ->
  check_approval_chain db req item admin = (true, Approval.MsgEmpty)
  /\ ok (result (apply_approval_action db req now item item_type "approve"
                   admin reason commit collect_flashes)) = true.
Proof.
  intros Hnd Hws Hid Hlisted.
  pose proof (listing_is_sound db req admin item Hnd Hws Hid Hlisted) as H.
  split; [exact H |].
  rewrite approve_ok_is_chain_check. now rewrite H.
Qed.

(** X12. "Approve all" approves exactly the items the "awaiting me" listing
    shows. *)
Theorem batch_approves_whole_listing (db : Database) (req : Request)
    (clock : Item.t -> Z) (table : list Item.t) (item_type_name : string)
    (current_user : User.t) :
  NoDup (map OrganizationUnit.id (organization_units db)) ->
  (forall r, In r (admin_roles db) -> has_scope r = true) ->
  (forall item, In item table -> Item.id item <> -1) ->
  batch_approve db req clock table item_type_name current_user
  = Z.of_nat (length (batch_items db req current_user table))
  /\ forall item,
       In item (batch_items db req current_user table) ->
       let out := batch_step db req clock item_type_name current_user item in
       ok (result out) = true
       /\ committed out = false
       /\ flashes (result out) = [].
Proof.
  intros Hnd Hws Hids.
  assert (Hok : forall item,
             In item (batch_items db req current_user table) ->
             check_approval_chain db req item current_user
             = (true, Approval.MsgEmpty)).
  { intros item Hin. unfold batch_items in Hin.
    apply filter_In in Hin as [Hin Hp].
    apply listing_is_sound; auto. }
  split.
  - unfold batch_approve.
    rewrite (count_fold _
               (fun item =>
                  ok (result (batch_step db req clock item_type_name
                                current_user item)))).
    rewrite filter_all; [lia |].
    intros item Hin. unfold batch_step.
    rewrite approve_ok_is_chain_check. now rewrite (Hok item Hin).
  - intros item Hin. specialize (Hok item Hin). cbv zeta.
    unfold batch_step, apply_approval_action.
    pose proof Hok as Hchain. unfold check_approval_chain in Hok.
    destruct (user_get db (Item.user_id item)) as [owner |];
      [| discriminate].
    cbn [String.eqb Ascii.eqb Bool.eqb]. rewrite Hchain.
    now repeat split.
Qed.

Lemma my_pending_items_are_approvable_witness :
  (NoDup (map OrganizationUnit.id (organization_units sample_db))
   /\ (forall r, In r (admin_roles sample_db) -> has_scope r = true)
   /\ Item.id (mk_item 1 3 (Some "pending")) <> -1
   /\ filter_my_pending_items sample_db fresh_request
        (mk_user 2 (Some 5) (Some 50)) (mk_item 1 3 (Some "pending")) = true)
  /\ ok (result (apply_approval_action sample_db fresh_request 100
                   (mk_item 1 3 (Some "pending")) "publication" "approve"
                   (mk_user 2 (Some 5) (Some 50)) None true true)) = true.
Proof.
  assert (Hid : Item.id (mk_item 1 3 (Some "pending")) <> -1)
    by (cbn; lia).
  split.
  - split; [exact sample_units_distinct |].
    split; [exact sample_roles_scoped |].
    split; [exact Hid | reflexivity].
  - apply (my_pending_items_are_approvable sample_db fresh_request 100
             (mk_user 2 (Some 5) (Some 50)) (mk_item 1 3 (Some "pending"))
             "publication" None true true sample_units_distinct
             sample_roles_scoped Hid eq_refl).
Defined.

Lemma approve_moves_forward_witness :
  ok (result (apply_approval_action sample_db fresh_request 100
                (mk_item 1 3 (Some "pending")) "publication" "approve"
                (mk_user 2 (Some 5) (Some 50)) None true true)) = true
  /\ exists i j new,
       Approval.chain_index
         (Py.str_or (Item.approval_status (mk_item 1 3 (Some "pending")))
            "pending") = Some i
       /\ Item.approval_status
            (item_after
               (apply_approval_action sample_db fresh_request 100
                  (mk_item 1 3 (Some "pending")) "publication" "approve"
                  (mk_user 2 (Some 5) (Some 50)) None true true))
          = Some new
       /\ Approval.chain_index new = Some j
       /\ i < j.
Proof.
  split; [reflexivity |].
  destruct (approve_moves_forward sample_db fresh_request 100
              (mk_item 1 3 (Some "pending")) "publication"
              (mk_user 2 (Some 5) (Some 50)) None true true eq_refl)
    as (i & j & new & Hi & Hnew & Hj & Hlt & _).
  exists i, j, new. repeat split; assumption.
Defined.

Lemma approved_item_is_final_witness :
  (Item.approval_status (mk_item 1 3 (Some "approved")) = Some "approved"
   /\ "return" <> "reject")
  /\ ok (result (apply_approval_action sample_db fresh_request 100
                   (mk_item 1 3 (Some "approved")) "publication" "return"
                   (mk_user 5 None None) (Some "late") true true)) = false.
Proof.
  assert (Hne : "return" <> "reject") by discriminate.
  split; [split; [reflexivity | exact Hne] |].
  apply (approved_item_is_final sample_db fresh_request 100
           (mk_item 1 3 (Some "approved")) "publication" "return"
           (mk_user 5 None None) (Some "late") true true eq_refl Hne).
Defined.

Lemma batch_approves_whole_listing_witness :
  (NoDup (map OrganizationUnit.id (organization_units sample_db))
   /\ (forall r, In r (admin_roles sample_db) -> has_scope r = true)
   /\ (forall item, In item sample_publications -> Item.id item <> -1))
  /\ batch_approve sample_db fresh_request (fun _ => 100)
       sample_publications "publication" (mk_user 2 (Some 5) (Some 50))
     = Z.of_nat
         (length (batch_items sample_db fresh_request
                    (mk_user 2 (Some 5) (Some 50)) sample_publications)).
Proof.
  assert (Hids : forall item,
             In item sample_publications -> Item.id item <> -1).
  { cbn. intros item H. repeat destruct H as [<- | H]; cbn; lia || tauto. }
  split.
  - split; [exact sample_units_distinct |].
    split; [exact sample_roles_scoped | exact Hids].
  - apply (batch_approves_whole_listing sample_db fresh_request (fun _ => 100)
             sample_publications "publication" (mk_user 2 (Some 5) (Some 50))
             sample_units_distinct sample_roles_scoped Hids).
Defined.

End BatchFacts.

(** ** The validators and the role table *)

Section ModelsFacts.

Import Scope Models.
Local Open Scope Z_scope.

Lemma opt_z_eqb_eq (x y : option Z) : opt_z_eqb x y = true <-> x = y.
Proof.
  destruct x as [a |], y as [b |]; cbn; try (split; congruence).
  rewrite Z.eqb_eq. split; congruence.
Qed.

Lemma str_in_three (x a b c : string) :
  Py.str_in x [a; b; c] = true -> x = a \/ x = b \/ x = c.
Proof.
  unfold Py.str_in. cbn. rewrite !orb_true_iff, !String.eqb_eq.
  intuition discriminate.
Qed.

Lemma validate_role_cases (db : Database) (target stored : AdminRole.t) :
  _validate_admin_role_scope db target = inr stored ->
  ((Py.strip (AdminRole.role_level stored) = "university"
    /\ Py.int_truthy (AdminRole.organization_unit_id stored) = false
    /\ Py.int_truthy (AdminRole.division_id stored) = false)
   \/ (Py.strip (AdminRole.role_level stored) = "faculty"
       /\ Py.int_truthy (AdminRole.organization_unit_id stored) = true
       /\ Py.int_truthy (AdminRole.division_id stored) = false)
   \/ (Py.strip (AdminRole.role_level stored) = "department"
       /\ Py.int_truthy (AdminRole.division_id stored) = true
       /\ exists d,
            division_of db (AdminRole.division_id stored) = Some d
            /\ AdminRole.organization_unit_id stored
               = Some (Division.organization_unit_id d)))
  /\ AdminRole.id stored = AdminRole.id target
  /\ AdminRole.user_id stored = AdminRole.user_id target
  /\ AdminRole.role_level stored = AdminRole.role_level target
  /\ AdminRole.division_id stored = AdminRole.division_id target
  /\ AdminRole.is_active stored = AdminRole.is_active target
  /\ (Py.int_truthy (AdminRole.organization_unit_id target) = true ->
      AdminRole.organization_unit_id stored
      = AdminRole.organization_unit_id target).
Proof.
  unfold _validate_admin_role_scope. cbv zeta.
  destruct (Py.str_in _ _) eqn:Ein; cbn [negb]; [| discriminate].
  apply str_in_three in Ein.
  destruct (String.eqb_spec (Py.strip (AdminRole.role_level target))
              "university") as [Eu | Hu].
  { destruct (Py.int_truthy (AdminRole.organization_unit_id target)) eqn:Eo;
      [discriminate |].
    destruct (Py.int_truthy (AdminRole.division_id target)) eqn:Ed;
      [discriminate |].
    intros [= <-]. split; [| now repeat split]. left. now repeat split. }
  destruct (String.eqb_spec (Py.strip (AdminRole.role_level target))
              "faculty") as [Ef | Hf].
  { destruct (Py.int_truthy (AdminRole.organization_unit_id target)) eqn:Eo;
      cbn [negb]; [| discriminate].
    destruct (Py.int_truthy (AdminRole.division_id target)) eqn:Ed;
      [discriminate |].
    intros [= <-]. split; [| now repeat split]. right. left.
    now repeat split. }
  assert (Edep : Py.strip (AdminRole.role_level target) = "department")
    by tauto.
  destruct (Py.int_truthy (AdminRole.division_id target)) eqn:Ed;
    cbn [negb]; [| discriminate].
  destruct (division_of db (AdminRole.division_id target)) as [d |] eqn:Ediv;
    [| discriminate].
  destruct (Py.int_truthy (AdminRole.organization_unit_id target)) eqn:Eo;
    cbn [negb andb].
  - destruct (opt_z_eqb _ _) eqn:Eeq; cbn [negb]; [| discriminate].
    intros [= <-]. split; [| now repeat split]. right. right.
    repeat split; try assumption. exists d. split; [assumption |].
    symmetry. now apply opt_z_eqb_eq.
  - intros [= <-]. cbn. split; [| repeat split; congruence]. right. right.
    repeat split; try assumption. now exists d.
Qed.

Lemma validated_role_scope_fixed (db : Database)
    (target stored : AdminRole.t) :
  _validate_admin_role_scope db target = inr stored ->
  has_scope stored = true
  /\ _validate_admin_role_scope db stored = inr stored.
Proof.
  intros H. apply validate_role_cases in H as (Hcases & _).
  split.
  - unfold has_scope.
    destruct (String.eqb_spec (AdminRole.role_level stored) "faculty")
      as [E | _].
    { rewrite E in Hcases.
      change (Py.strip "faculty") with "faculty" in Hcases.
      destruct Hcases as [(? & _) | [(_ & ? & _) | (? & _)]];
        (discriminate || assumption). }
    destruct (String.eqb_spec (AdminRole.role_level stored) "department")
      as [E | _]; [| reflexivity].
    rewrite E in Hcases.
    change (Py.strip "department") with "department" in Hcases.
    destruct Hcases as [(? & _) | [(? & _) | (_ & ? & _)]];
      (discriminate || assumption).
  - unfold _validate_admin_role_scope. cbv zeta.
    destruct Hcases as [(El & Eo & Ed) | [(El & Eo & Ed) | (El & Ed & d & Ediv & Eo)]];
      rewrite El; cbn [Py.str_in existsb String.eqb Ascii.eqb Bool.eqb orb negb].
    + now rewrite Eo, Ed.
    + now rewrite Eo, Ed.
    + rewrite Ed, Ediv. cbn [negb]. rewrite Eo.
      cbn [opt_z_eqb]. rewrite Z.eqb_refl. cbn [negb].
      rewrite andb_false_r.
      destruct (Py.int_truthy (Some (Division.organization_unit_id d)));
        cbn [negb]; [reflexivity |].
      destruct stored; cbn in *. now rewrite Eo.
Qed.

(** X18. A role the validator lets through is well scoped, and validating
    it again changes nothing. *)
Theorem validated_role_is_well_scoped (db : Database)
    (target stored : AdminRole.t) :
  _validate_admin_role_scope db target = inr stored ->
  let lvl := Py.strip (AdminRole.role_level stored) in
  ((lvl = "university"
    /\ Py.int_truthy (AdminRole.organization_unit_id stored) = false
    /\ Py.int_truthy (AdminRole.division_id stored) = false)
   \/ (lvl = "faculty"
       /\ Py.int_truthy (AdminRole.organization_unit_id stored) = true
       /\ Py.int_truthy (AdminRole.division_id stored) = false)
   \/ (lvl = "department"
       /\ Py.int_truthy (AdminRole.division_id stored) = true
       /\ exists d,
            division_of db (AdminRole.division_id stored) = Some d
            /\ AdminRole.organization_unit_id stored
               = Some (Division.organization_unit_id d)))
  /\ has_scope stored = true
  /\ _validate_admin_role_scope db stored = inr stored.
Proof.
  intros H. cbv zeta.
  destruct (validated_role_scope_fixed db target stored H) as [Hs Hfix].
  apply validate_role_cases in H as (Hcases & _).
  now repeat split.
Qed.

Lemma highest_fold_filter (uid : Z) (l : list AdminRole.t) :
  forall acc,
    fold_left
      (fun (acc : Z * string) (role : AdminRole.t) =>
         let level := role_hierarchy (AdminRole.role_level role) in
         if fst acc <? level then (level, AdminRole.role_level role) else acc)
      (filter (fun r => Z.eqb (AdminRole.user_id r) uid
                        && (negb true || AdminRole.is_active r)) l) acc
    = fold_left highest_step
        (filter (fun r => Z.eqb (AdminRole.user_id r) uid) l) acc.
Proof.
  induction l as [| r l IH]; intros acc; cbn [filter]; [reflexivity |].
  destruct (Z.eqb (AdminRole.user_id r) uid); cbn [andb negb orb];
    [| apply IH].
  assert (Hstep : highest_step acc r
                  = if AdminRole.is_active r
                    then (if fst acc <? role_hierarchy (AdminRole.role_level r)
                          then (role_hierarchy (AdminRole.role_level r),
                                AdminRole.role_level r)
                          else acc)
                    else acc) by reflexivity.
  destruct (AdminRole.is_active r); cbn [fold_left]; rewrite IH, Hstep;
    reflexivity.
Qed.

(** X20. The two computations of a user's highest level agree. *)
Theorem highest_level_computations_agree (db : Database) (user : User.t) :
  get_highest_level db (User.id user) = highest_admin_level db user.
Proof.
  unfold get_highest_level, highest_admin_level, get_user_roles, user_roles.
  rewrite <- highest_fold_filter.
  now destruct (filter _ (admin_roles db)).
Qed.

Lemma org_unit_of_id (db : Database) (fk : option Z)
    (unit : OrganizationUnit.t) :
  org_unit_of db fk = Some unit -> fk = Some (OrganizationUnit.id unit).
Proof.
  destruct fk as [k |]; [| discriminate]. cbn. intros H.
  apply find_some in H as [_ H]. apply Z.eqb_eq in H. now subst.
Qed.

(** X19. A user the validator lets through is placed consistently, and
    validating the result again changes nothing. *)
Theorem validated_user_is_placed (db : Database)
    (admin_level : option string) (self stored : User.t) :
  validate_org_structure db admin_level self = inr stored ->
  ((Py.int_truthy (User.organization_unit_id stored) = false
    /\ (highest_admin_level db stored = "university"
        \/ admin_level = Some "university"))
   \/ exists unit,
        org_unit_of db (User.organization_unit_id stored) = Some unit
        /\ (OrganizationUnit.unit_type unit = "office" ->
            User.division_id stored = None)
        /\ (OrganizationUnit.unit_type unit = "faculty" ->
            exists d,
              division_of db (User.division_id stored) = Some d
              /\ Division.organization_unit_id d = OrganizationUnit.id unit))
  /\ validate_org_structure db admin_level stored = inr stored
  /\ User.id stored = User.id self
  /\ User.organization_unit_id stored = User.organization_unit_id self
  /\ User.is_active stored = User.is_active self.
Proof.
  unfold validate_org_structure.
  destruct (Py.int_truthy (User.organization_unit_id self)) eqn:Eo;
    cbn [negb].
  { destruct (org_unit_of db (User.organization_unit_id self)) as [unit |]
      eqn:Eu; [| discriminate].
    destruct (String.eqb_spec (OrganizationUnit.unit_type unit) "office")
      as [Eoff | Hoff].
    { intros [= <-]. cbn [User.organization_unit_id User.division_id
                          User.id User.is_active].
      rewrite Eo, Eu. cbn [negb].
      destruct (String.eqb_spec (OrganizationUnit.unit_type unit) "office");
        [| contradiction].
      split; [| now repeat split]. right. exists unit.
      split; [auto |]. split; [reflexivity |].
      intros E. rewrite E in Eoff. discriminate. }
    destruct (String.eqb_spec (OrganizationUnit.unit_type unit) "faculty")
      as [Efac | Hfac].
    - cbn [andb].
      destruct (Py.int_truthy (User.division_id self)) eqn:Ed; cbn [negb];
        [| discriminate].
      destruct (division_of db (User.division_id self)) as [d |] eqn:Ediv;
        [| discriminate].
      destruct (opt_z_eqb _ _) eqn:Eeq; cbn [negb]; [| discriminate].
      intros [= <-]. rewrite Eo, Eu. cbn [negb].
      destruct (String.eqb_spec (OrganizationUnit.unit_type unit) "office");
        [contradiction |].
      destruct (String.eqb_spec (OrganizationUnit.unit_type unit) "faculty");
        [| contradiction].
      cbn [andb]. rewrite Ed, Ediv, Eeq. cbn [negb].
      split; [| now repeat split]. right. exists unit.
      split; [auto |]. split; [intros; contradiction |].
      intros _. exists d. split; [reflexivity |].
      apply opt_z_eqb_eq in Eeq.
      apply org_unit_of_id in Eu. congruence.
    - intros [= <-]. rewrite Eo, Eu. cbn [negb].
      destruct (String.eqb_spec (OrganizationUnit.unit_type unit) "office");
        [contradiction |].
      destruct (String.eqb_spec (OrganizationUnit.unit_type unit) "faculty");
        [contradiction |].
      split; [| now repeat split]. right. exists unit.
      split; [auto |]. split; intros; contradiction. }
  destruct (String.eqb (highest_admin_level db self) "university"
            || Py.opt_str_eqb admin_level "university") eqn:Eadm;
    [| discriminate].
  intros [= <-]. rewrite Eo, Eadm. cbn [negb].
  split; [| now repeat split]. left. split; [auto |].
  apply orb_true_iff in Eadm as [E | E].
  - left. now apply String.eqb_eq.
  - right. destruct admin_level as [a |]; [| discriminate].
    cbn in E. apply String.eqb_eq in E. now subst.
Qed.

Lemma find_app_none {A : Type} (p : A -> bool) (l : list A) (x : A) :
  find p l = None -> p x = true -> find p (l ++ [x]) = Some x.
Proof.
  induction l as [| y l IH]; cbn.
  - intros _ ->. reflexivity.
  - destruct (p y); [discriminate | exact IH].
Qed.

Lemma find_replace_role (p : AdminRole.t -> bool) (l : list AdminRole.t)
    (existing revived : AdminRole.t) :
  find p l = Some existing ->
  AdminRole.id revived = AdminRole.id existing ->
  p revived = true ->
  find p (replace_role revived l) = Some revived.
Proof.
  intros Hfind Hid Hp. induction l as [| y l IH]; cbn in *; [discriminate |].
  rewrite Hid.
  destruct (Z.eqb_spec (AdminRole.id y) (AdminRole.id existing)) as [E | Hne].
  - cbn. now rewrite Hp.
  - cbn. destruct (p y).
    + injection Hfind as ->. contradiction.
    + now apply IH.
Qed.

Lemma granted_role_shape (db : Database) (new_id user_id : Z)
    (role_level : string) (organization_unit_id division_id : option Z)
    (role : AdminRole.t) (db' : Database) :
  grant_role db new_id user_id role_level organization_unit_id division_id
  = (Some role, db') ->
  AdminRole.user_id role = user_id
  /\ AdminRole.role_level role = role_level
  /\ AdminRole.organization_unit_id role = organization_unit_id
  /\ AdminRole.division_id role = division_id
  /\ AdminRole.is_active role = true
  /\ find (fun r => Z.eqb (AdminRole.user_id r) user_id
                    && String.eqb (AdminRole.role_level r) role_level
                    && opt_z_eqb (AdminRole.organization_unit_id r)
                         organization_unit_id
                    && opt_z_eqb (AdminRole.division_id r) division_id)
       (admin_roles db') = Some role
  /\ users db' = users db
  /\ organization_units db' = organization_units db
  /\ divisions db' = divisions db.
Proof.
  unfold grant_role.
  set (p := fun r : AdminRole.t => _).
  destruct (find p (admin_roles db)) as [existing |] eqn:Ef.
  - destruct (AdminRole.is_active existing); cbn [negb]; [discriminate |].
    intros [= <- <-]. cbn.
    pose proof (find_some _ _ Ef) as [_ Hp]. unfold p in Hp.
    rewrite !andb_true_iff, Z.eqb_eq, String.eqb_eq, !opt_z_eqb_eq in Hp.
    destruct Hp as [[[Hu Hl] Ho] Hd].
    repeat split; try assumption.
    apply (find_replace_role p _ existing); [assumption | reflexivity |].
    unfold p. cbn.
    rewrite !andb_true_iff, Z.eqb_eq, String.eqb_eq, !opt_z_eqb_eq. tauto.
  - intros [= <- <-]. cbn. repeat split.
    apply find_app_none; [assumption |].
    unfold p. cbn.
    rewrite !andb_true_iff, Z.eqb_eq, String.eqb_eq, !opt_z_eqb_eq. tauto.
Qed.


Lemma validated_role_is_well_scoped_witness :
  _validate_admin_role_scope sample_db (mk_role 9 3 "department" None (Some 50))
  = inr (mk_role 9 3 "department" (Some 5) (Some 50))
  /\ has_scope (mk_role 9 3 "department" (Some 5) (Some 50)) = true
  /\ _validate_admin_role_scope sample_db
       (mk_role 9 3 "department" (Some 5) (Some 50))
     = inr (mk_role 9 3 "department" (Some 5) (Some 50)).
Proof.
  split; [reflexivity |].
  apply (validated_role_is_well_scoped sample_db
           (mk_role 9 3 "department" None (Some 50))
           (mk_role 9 3 "department" (Some 5) (Some 50)) eq_refl).
Defined.

Lemma validated_user_is_placed_witness :
  validate_org_structure sample_db None (mk_user 4 (Some 9) (Some 50))
  = inr (mk_user 4 (Some 9) None)
  /\ validate_org_structure sample_db None (mk_user 4 (Some 9) None)
     = inr (mk_user 4 (Some 9) None).
Proof.
  split; [reflexivity |].
  apply (validated_user_is_placed sample_db None
           (mk_user 4 (Some 9) (Some 50)) (mk_user 4 (Some 9) None) eq_refl).
Defined.

End ModelsFacts.

(** ** Managing users and roles *)

Section RoleFacts.

Import Scope Models Helpers RoleRoutes.
Local Open Scope Z_scope.

Lemma not_admin_is_none (db : Database) (user : User.t) :
  Routes.is_admin db user = false -> highest_admin_level db user = "none".
Proof.
  intros Hna.
  destruct (highest_admin_level_spec db user) as ((_ & [E | (r & Hin & _)]) & _);
    [assumption |].
  exfalso. unfold active_admin_roles in Hin. apply filter_In in Hin as [Hin Ha].
  unfold Routes.is_admin in Hna.
  assert (existsb AdminRole.is_active (user_roles db user) = true)
    by (apply existsb_exists; eauto).
  congruence.
Qed.

Lemma highest_level_by_id (db : Database) (u v : User.t) :
  User.id u = User.id v -> highest_admin_level db u = highest_admin_level db v.
Proof.
  intros E. unfold highest_admin_level, user_roles. now rewrite E.
Qed.

(** X22. Whoever may manage a user strictly outranks that user. *)
Theorem manager_outranks_target (db : Database) (req : Request)
    (current_user admin target : User.t) :
  can_manage_user_scoped db req current_user admin target = true ->
  hierarchy_get (highest_admin_level db target)
  < hierarchy_get (effective_admin_level db req admin)
  /\ hierarchy_get (effective_admin_level db req admin)
     <= hierarchy_get (highest_admin_level db admin)
  /\ User.id target <> User.id admin
  /\ is_user_in_scope db req current_user target = true
  /\ admin_act_as_user_mode (session req) = false.
Proof.
  unfold can_manage_user_scoped, can_view_user_scoped, _effective_admin_rank.
  destruct (Routes.is_admin db admin); cbn [negb]; [| discriminate].
  destruct (admin_act_as_user_mode (session req)); [discriminate |].
  destruct (is_user_in_scope db req current_user target); cbn [negb];
    [| discriminate].
  destruct (Z.leb_spec (hierarchy_get (effective_admin_level db req admin)) 0)
    as [| Hpos]; [discriminate |].
  pose proof (proj1 (act_as_never_escalates_rank db req admin)) as Hle.
  assert (Hlt : Routes.is_admin db target = false
                \/ hierarchy_get (highest_admin_level db target)
                   < hierarchy_get (effective_admin_level db req admin) ->
                hierarchy_get (highest_admin_level db target)
                < hierarchy_get (effective_admin_level db req admin)).
  { intros [Hna | H]; [| exact H].
    rewrite (not_admin_is_none db target Hna). exact Hpos. }
  intros H.
  assert (Hrank : hierarchy_get (highest_admin_level db target)
                  < hierarchy_get (effective_admin_level db req admin)).
  { apply Hlt. destruct (Routes.is_admin db target); cbn [negb andb] in H.
    - right.
      destruct (hierarchy_get (highest_admin_level db target)
                <=? hierarchy_get (effective_admin_level db req admin));
        cbn [negb] in H; [| discriminate].
      destruct (Z.leb_spec
                  (hierarchy_get (effective_admin_level db req admin))
                  (hierarchy_get (highest_admin_level db target)));
        [discriminate | assumption].
    - now left. }
  repeat split; try assumption.
  intros E. rewrite (highest_level_by_id db target admin E) in Hrank. lia.
Qed.

Lemma In_delete_role (k : Z) (x : AdminRole.t) (l : list AdminRole.t) :
  In x l -> AdminRole.id x <> k -> In x (delete_role k l).
Proof.
  intros Hin Hne. induction l as [| y l IH]; cbn; [destruct Hin |].
  destruct (Z.eqb_spec (AdminRole.id y) k) as [E | _].
  - destruct Hin as [-> | Hin]; [contradiction | assumption].
  - destruct Hin as [-> | Hin]; [now left | right; now apply IH].
Qed.

Lemma In_replace_role_other (r x : AdminRole.t) (l : list AdminRole.t) :
  In x l -> AdminRole.id x <> AdminRole.id r -> In x (replace_role r l).
Proof.
  intros Hin Hne. induction l as [| y l IH]; cbn; [destruct Hin |].
  destruct (Z.eqb_spec (AdminRole.id y) (AdminRole.id r)) as [E | _].
  - destruct Hin as [-> | Hin]; [contradiction | now right].
  - destruct Hin as [-> | Hin]; [now left | right; now apply IH].
Qed.

Lemma In_replace_role_self (r : AdminRole.t) (l : list AdminRole.t) :
  (exists x, In x l /\ AdminRole.id x = AdminRole.id r) ->
  In r (replace_role r l).
Proof.
  intros (x & Hin & E). induction l as [| y l IH]; cbn; [destruct Hin |].
  destruct (Z.eqb_spec (AdminRole.id y) (AdminRole.id r)) as [_ | Hne].
  - now left.
  - right. destruct Hin as [-> | Hin]; [contradiction | now apply IH].
Qed.

Lemma count_excluding_none (db : Database) (role_level : string)
    (organization_unit_id division_id : option Z) :
  count_effective_admins_excluding db role_level organization_unit_id
    division_id None None
  = count_effective_admins_by_scope db role_level organization_unit_id
      division_id.
Proof.
  unfold count_effective_admins_excluding, count_effective_admins_by_scope.
  do 2 f_equal. apply filter_ext. intros r. cbn [Py.int_truthy].
  now rewrite !andb_true_r.
Qed.

Lemma filter_nonempty_length {A : Type} (p : A -> bool) (l : list A) (x : A) :
  In x l -> p x = true -> 1 <= Z.of_nat (length (filter p l)).
Proof.
  intros Hin Hp.
  assert (Hf : In x (filter p l)) by (apply filter_In; tauto).
  destruct (filter p l); [destruct Hf | cbn [length]; lia].
Qed.

Lemma positive_count_witness {A : Type} (p : A -> bool) (l : list A) :
  0 < Z.of_nat (length (filter p l)) -> exists x, In x l /\ p x = true.
Proof.
  destruct (filter p l) as [| x rest] eqn:E; cbn [length]; [lia |].
  intros _. exists x. apply filter_In. rewrite E. now left.
Qed.

(** Another active holder survives whatever is done to the row with key
    [rid]. *)
Lemma remaining_admin_survives (db db' : Database) (role : AdminRole.t) :
  AdminRole.id role <> 0 ->
  0 < remaining_admins db role ->
  users db' = users db ->
  (forall x, In x (admin_roles db) -> AdminRole.id x <> AdminRole.id role ->
             In x (admin_roles db')) ->
  1 <= count_effective_admins_by_scope db' (AdminRole.role_level role)
         (AdminRole.organization_unit_id role) (AdminRole.division_id role).
Proof.
  intros Hid Hrem Husers Hkeep.
  unfold remaining_admins, count_effective_admins_excluding in Hrem.
  apply positive_count_witness in Hrem as (x & Hin & Hp).
  cbv beta in Hp. rewrite !andb_true_iff in Hp.
  destruct Hp as [[Hp Hrid] _].
  assert (Htr : Py.int_truthy (Some (AdminRole.id role)) = true).
  { cbn. now apply negb_true_iff, Z.eqb_neq. }
  rewrite Htr in Hrid. cbn [opt_z_eqb] in Hrid.
  apply negb_true_iff, Z.eqb_neq in Hrid.
  unfold count_effective_admins_by_scope.
  apply (filter_nonempty_length _ _ x); [now apply Hkeep |].
  cbv beta. rewrite Husers, !andb_true_iff. exact Hp.
Qed.

Lemma role_route_guard_found (db : Database) (req : Request)
    (current_user : User.t) (role_id : Z) (role : AdminRole.t)
    (user : User.t) :
  role_route_guard db req current_user role_id = inr (role, user) ->
  In role (admin_roles db) /\ AdminRole.id role = role_id
  /\ user_get db (AdminRole.user_id role) = Some user
  /\ is_user_in_scope db req current_user user = true
  /\ can_assign_admin_level_scoped db req current_user
       (AdminRole.role_level role) = true
  /\ Routes.admin_level_required "faculty" db req current_user = true.
Proof.
  unfold role_route_guard.
  destruct (Routes.admin_level_required "faculty" db req current_user);
    cbn [negb]; [| discriminate].
  destruct (find _ (admin_roles db)) as [r |] eqn:Ef; [| discriminate].
  destruct (user_get db (AdminRole.user_id r)) as [u |] eqn:Eu;
    [| discriminate].
  destruct (is_user_in_scope db req current_user u) eqn:Es; cbn [negb];
    [| discriminate].
  destruct (can_assign_admin_level_scoped db req current_user
              (AdminRole.role_level r)) eqn:Ec; cbn [negb]; [| discriminate].
  intros [= <- <-]. apply find_some in Ef as [Hin Hid].
  apply Z.eqb_eq in Hid. now repeat split.
Qed.

(** X24. Deleting or switching off a role never leaves its scope without
    an effective admin. *)
Theorem last_admin_is_kept (db : Database) (req : Request)
    (current_user : User.t) (role_id : Z) (change : RoleChange) :
  role_id <> 0 ->
  delete_admin_role db req current_user role_id = inr change
  \/ (toggle_admin_role db req current_user role_id = inr change
      /\ AdminRole.is_active (changed_role change) = false) ->
  1 <= count_effective_admins_by_scope (changed_db change)
         (AdminRole.role_level (changed_role change))
         (AdminRole.organization_unit_id (changed_role change))
         (AdminRole.division_id (changed_role change)).
Proof.
  intros Hid [Hdel | [Htog Hoff]].
  - unfold delete_admin_role in Hdel.
    destruct (role_route_guard db req current_user role_id)
      as [why | [role user]] eqn:Eg; [discriminate |].
    apply role_route_guard_found in Eg as (_ & Erid & _).
    destruct (Z.leb_spec (remaining_admins db role) 0) as [| Hrem];
      [discriminate |].
    injection Hdel as <-. cbn [changed_db changed_role].
    apply (remaining_admin_survives db); try assumption; try reflexivity.
    + congruence.
    + intros x Hin Hne. cbn. now apply In_delete_role.
  - unfold toggle_admin_role in Htog.
    destruct (role_route_guard db req current_user role_id)
      as [why | [role user]] eqn:Eg; [discriminate |].
    apply role_route_guard_found in Eg as (_ & Erid & _).
    destruct (AdminRole.is_active role) eqn:Ea; cbn [andb] in Htog.
    + destruct (Z.leb_spec (remaining_admins db role) 0) as [| Hrem];
        [discriminate |].
      destruct (_validate_admin_role_scope db _) as [e | stored] eqn:Ev;
        [discriminate |].
      injection Htog as <-. cbn [changed_db changed_role] in *.
      pose proof (validate_role_cases db _ stored Ev)
        as (Hcases & Esid & _ & Elvl & Ediv & _).
      cbn in Esid, Elvl, Ediv.
      assert (Hcount :
                1 <= count_effective_admins_by_scope
                       (with_roles db (replace_role stored (admin_roles db)))
                       (AdminRole.role_level role)
                       (AdminRole.organization_unit_id role)
                       (AdminRole.division_id role)).
      { apply (remaining_admin_survives db); try assumption;
          try reflexivity; [congruence |].
        intros x Hin Hne. cbn. apply In_replace_role_other; congruence. }
      rewrite Elvl, Ediv.
      unfold _validate_admin_role_scope in Ev. cbv zeta in Ev.
      cbn [AdminRole.role_level AdminRole.organization_unit_id
           AdminRole.division_id] in Ev.
      revert Hcount. unfold count_effective_admins_by_scope.
      destruct (String.eqb_spec (AdminRole.role_level role) "faculty")
        as [Ef | Hf]; cbn [andb]; [| auto].
      rewrite Ef in Ev.
      change (Py.strip "faculty") with "faculty" in Ev.
      cbn [Py.str_in existsb String.eqb Ascii.eqb Bool.eqb orb negb] in Ev.
      destruct (negb (Py.int_truthy (AdminRole.organization_unit_id role)));
        [discriminate |].
      destruct (Py.int_truthy (AdminRole.division_id role)); [discriminate |].
      injection Ev as <-. cbn. auto.
    + destruct (_validate_admin_role_scope db _) as [e | stored] eqn:Ev;
        [discriminate |].
      injection Htog as <-. cbn [changed_role] in Hoff.
      pose proof (validate_role_cases db _ stored Ev)
        as (_ & _ & _ & _ & _ & Hact & _).
      cbn in Hact. congruence.
Qed.

Lemma can_assign_rank (db : Database) (req : Request) (admin : User.t)
    (target_level : string) :
  can_assign_admin_level_scoped db req admin target_level = true ->
  hierarchy_get target_level
  <= hierarchy_get (effective_admin_level db req admin)
  /\ 2 <= hierarchy_get (effective_admin_level db req admin).
Proof.
  unfold can_assign_admin_level_scoped.
  destruct (String.eqb_spec (effective_admin_level db req admin) "university")
    as [-> | _].
  - intros _. cbn. split; [| lia].
    unfold hierarchy_get, ADMIN_LEVEL_HIERARCHY.
    destruct (String.eqb target_level "none"),
      (String.eqb target_level "department"),
      (String.eqb target_level "faculty"),
      (String.eqb target_level "university"); lia.
  - destruct (String.eqb_spec (effective_admin_level db req admin) "faculty")
      as [-> | _]; [| discriminate].
    intros H. apply str_in_three in H as [-> | [-> | ->]]; cbn; lia.
Qed.

(** X23. A role created through the add-admin form is never above the
    grantor's working level, passes the validator, and belongs to a user
    of the unit it covers. *)
Theorem add_admin_stays_within_level (db : Database) (req : Request)
    (new_id : Z) (current_user : User.t) (user_id : option Z)
    (role_level_field : string) (organization_unit_id division_id : option Z)
    (change : RoleChange) :
  add_admin db req new_id current_user user_id role_level_field
    organization_unit_id division_id = inr change ->
  let role := changed_role change in
  AdminRole.role_level role = Py.strip role_level_field
  /\ 1 <= hierarchy_get (AdminRole.role_level role)
     <= hierarchy_get (effective_admin_level db req current_user)
  /\ 2 <= hierarchy_get (effective_admin_level db req current_user)
  /\ admin_act_as_user_mode (session req) = false
  /\ AdminRole.is_active role = true
  /\ has_scope role = true
  /\ _validate_admin_role_scope (changed_db change) role = inr role
  /\ In role (admin_roles (changed_db change))
  /\ exists user,
       user_get db (AdminRole.user_id role) = Some user
       /\ user_id = Some (User.id user)
       /\ is_user_in_scope db req current_user user = true
       /\ (AdminRole.role_level role = "department" ->
           User.division_id user = AdminRole.division_id role)
       /\ (AdminRole.role_level role = "faculty" ->
           User.organization_unit_id user = AdminRole.organization_unit_id role
           \/ exists d,
                division_of db (User.division_id user) = Some d
                /\ Some (Division.organization_unit_id d)
                   = AdminRole.organization_unit_id role).
Proof.
  unfold add_admin. cbv zeta.
  destruct (Routes.admin_level_required "faculty" db req current_user)
    eqn:Eguard; cbn [negb]; [| discriminate].
  destruct (Py.int_truthy user_id) eqn:Euid; cbn [negb]; [| discriminate].
  set (lvl := Py.strip role_level_field).
  destruct (String.eqb lvl "" || negb (Py.str_in lvl _)) eqn:Elvl;
    [discriminate |].
  apply orb_false_iff in Elvl as [_ Elvl]. apply negb_false_iff in Elvl.
  destruct user_id as [uid |]; [| discriminate].
  assert (Euid' : Py.int_or (Some uid) 0 = uid).
  { unfold Py.int_or. now rewrite Euid. }
  rewrite Euid'.
  destruct (user_get db uid) as [user |] eqn:Euser; [| discriminate].
  destruct (existsb _ (users db)) eqn:Escope; cbn [negb]; [| discriminate].
  destruct (can_assign_admin_level_scoped db req current_user lvl) eqn:Eassign;
    cbn [negb]; [| discriminate].
  destruct (String.eqb lvl "faculty"
            && negb (Py.int_truthy organization_unit_id)) eqn:Ef1;
    [discriminate |].
  destruct (String.eqb lvl "department"
            && negb (Py.int_truthy division_id)) eqn:Ed1; [discriminate |].
  match goal with
  | |- match ?c with Some why => _ | None => _ end = _ -> _ =>
      destruct c as [why |] eqn:Edep; [discriminate |]
  end.
  match goal with
  | |- match ?c with Some why => _ | None => _ end = _ -> _ =>
      destruct c as [why |] eqn:Efac; [discriminate |]
  end.
  destruct (grant_role db new_id uid lvl _ _) as [[role |] db'] eqn:Egrant;
    [| discriminate].
  destruct (_validate_admin_role_scope db' role) as [e | stored] eqn:Eval;
    [discriminate |].
  intros [= <-]. cbn [changed_role changed_db].
  pose proof (granted_role_shape _ _ _ _ _ _ _ _ Egrant)
    as (Hu & Hl & Ho & Hd & Ha & Hfind & _ & _ & Hdivs).
  pose proof (validate_role_cases db' role stored Eval)
    as (Hcases & Esid & Esu & Esl & Esd & Esa & Eso).
  destruct (can_assign_rank db req current_user lvl Eassign) as [Hle Hge].
  assert (Hin' : In role (admin_roles db'))
    by (now apply find_some in Hfind).
  assert (Hstored : In stored (replace_role stored (admin_roles db'))).
  { apply In_replace_role_self. exists role. split; [assumption |].
    congruence. }
  assert (Hvalid : forall d, divisions d = divisions db' ->
                             _validate_admin_role_scope d stored = inr stored).
  { intros d Hd'.
    assert (Hsame : forall t, _validate_admin_role_scope d t
                              = _validate_admin_role_scope db' t).
    { intros t. unfold _validate_admin_role_scope, division_of.
      now rewrite Hd'. }
    rewrite Hsame.
    now destruct (validated_role_scope_fixed db' role stored Eval). }
  split; [congruence |].
  split.
  { rewrite Esl, Hl. split; [| assumption].
    apply str_in_three in Elvl as [-> | [-> | ->]]; cbn; lia. }
  split; [assumption |].
  split.
  { unfold Routes.admin_level_required in Eguard.
    rewrite !andb_true_iff in Eguard. destruct Eguard as [[_ Hm] _].
    now apply negb_true_iff. }
  split; [congruence |].
  split; [now destruct (validated_role_scope_fixed db' role stored Eval) |].
  split; [now apply Hvalid |].
  split; [assumption |].
  exists user. rewrite Esu, Hu.
  assert (Eid : User.id user = uid).
  { pose proof (find_some _ _ Euser) as [_ E]. now apply Z.eqb_eq in E. }
  split; [assumption |].
  split; [congruence |].
  split; [unfold is_user_in_scope; now rewrite Eid |].
  rewrite Esl, Hl, Esd, Hd.
  split.
  - intros E. clear Efac. rewrite E in Edep.
    cbn [String.eqb Ascii.eqb Bool.eqb] in Edep.
    destruct (division_of db division_id) as [dv |]; [| discriminate Edep].
    repeat match type of Edep with
      | (if ?c then _ else _) = None =>
          let Ec := fresh "Ec" in destruct c eqn:Ec; [discriminate Edep |]
      end.
    rewrite E. cbn [String.eqb Ascii.eqb Bool.eqb].
    match goal with
    | Hc : negb (opt_z_eqb _ _) = false |- _ =>
        apply negb_false_iff, opt_z_eqb_eq in Hc; exact Hc
    end.
  - intros E. clear Edep. rewrite E in Efac, Ef1, Ho.
    cbn [String.eqb Ascii.eqb Bool.eqb andb Py.str_in existsb orb]
      in Efac, Ef1, Ho.
    apply negb_false_iff in Ef1.
    assert (Eorg : AdminRole.organization_unit_id stored = organization_unit_id).
    { rewrite <- Ho. apply Eso. now rewrite Ho. }
    rewrite Eorg.
    destruct (org_unit_of db organization_unit_id) as [org |];
      [| discriminate Efac].
    match type of Efac with
    | (if ?c then _ else _) = None => destruct c; [discriminate Efac |]
    end.
    destruct (opt_z_eqb (User.organization_unit_id user) organization_unit_id)
      eqn:Eq; cbn [negb] in Efac.
    + left. now apply opt_z_eqb_eq.
    + right. revert Efac.
      destruct (Py.int_truthy (User.division_id user));
        [| intros H; cbv iota in H; discriminate H].
      destruct (division_of db (User.division_id user)) as [d |];
        [| intros H; cbv iota in H; discriminate H].
      destruct (opt_z_eqb (Some (Division.organization_unit_id d))
                  organization_unit_id) eqn:Eq2;
        [| intros H; discriminate H].
      intros _. exists d. split; [reflexivity |]. now apply opt_z_eqb_eq.
Qed.

Lemma manager_outranks_target_witness :
  can_manage_user_scoped sample_db fresh_request (mk_user 5 None None)
    (mk_user 5 None None) (mk_user 2 (Some 5) (Some 50)) = true
  /\ hierarchy_get (highest_admin_level sample_db (mk_user 2 (Some 5) (Some 50)))
     < hierarchy_get
         (effective_admin_level sample_db fresh_request (mk_user 5 None None)).
Proof.
  split; [reflexivity |].
  apply (manager_outranks_target sample_db fresh_request (mk_user 5 None None)
           (mk_user 5 None None) (mk_user 2 (Some 5) (Some 50)) eq_refl).
Defined.

Lemma last_admin_is_kept_witness :
  (1 <> 0
   /\ delete_admin_role sample_db fresh_request (mk_user 5 None None) 1
      = inr role_1_deleted)
  /\ 1 <= count_effective_admins_by_scope (changed_db role_1_deleted)
            "university" None None.
Proof.
  assert (Hid : 1 <> 0) by lia.
  split; [split; [exact Hid | reflexivity] |].
  apply (last_admin_is_kept sample_db fresh_request (mk_user 5 None None) 1
           role_1_deleted Hid (or_introl eq_refl)).
Defined.

Lemma add_admin_stays_within_level_witness :
  add_admin sample_db fresh_request 6 (mk_user 5 None None) (Some 3)
    " department " None (Some 50) = inr division_50_granted
  /\ AdminRole.role_level (changed_role division_50_granted) = "department"
  /\ has_scope (changed_role division_50_granted) = true
  /\ In (changed_role division_50_granted)
       (admin_roles (changed_db division_50_granted)).
Proof.
  split; [reflexivity |].
  destruct (add_admin_stays_within_level sample_db fresh_request 6
              (mk_user 5 None None) (Some 3) " department " None (Some 50)
              division_50_granted eq_refl)
    as (Hl & _ & _ & _ & _ & Hs & _ & Hin & _).
  split; [exact Hl |]. split; [exact Hs | exact Hin].
Defined.

End RoleFacts.

(** ** Returning an item, and what the owner does next *)

Section RouteFacts.

Import Scope Executor Routes Models Helpers.
Local Open Scope Z_scope.





Lemma find_all_false {A : Type} (p : A -> bool) (l : list A) :
  (forall x, In x l -> p x = false) -> find p l = None.
Proof.
  induction l as [| x l IH]; cbn; [reflexivity |].
  intros H. rewrite (H x (or_introl eq_refl)). apply IH.
  intros y Hy. apply H. now right.
Qed.

(** X16. The return route never reaches an item of a lower level: a
    faculty-level admin cannot send back a pending item, nor a
    university-level admin one the department has passed on, even when
    the "awaiting me" listing shows it to them. *)
Theorem return_route_skips_lower_levels (db : Database) (req : Request)
    (now : Z) (publications : list Item.t) (pub_id : Z)
    (current_user : User.t) (reason : string) :
  (effective_admin_level db req current_user = "faculty"
   /\ forall item, In item publications -> Item.id item = pub_id ->
                   sql_ne (Item.approval_status item) "pending" = false)
  \/ (effective_admin_level db req current_user = "university"
      /\ forall item, In item publications -> Item.id item = pub_id ->
                      sql_ne (Item.approval_status item) "department_approved"
                      = false) ->
  return_publication db req now publications pub_id current_user reason
  = inl (if admin_required db req current_user
         then OutOfScope else Redirected).
Proof.
  intros Hcase. unfold return_publication.
  destruct (admin_required db req current_user); [| reflexivity].
  unfold apply_approval_action_by_id, get_scoped_item_or_none.
  rewrite find_all_false; [reflexivity |].
  intros item Hin. cbn [orb].
  destruct (Z.eqb_spec (Item.id item) pub_id) as [Eid | _];
    [| apply andb_false_r].
  rewrite andb_true_r. apply andb_false_iff. right.
  unfold exclude_lower_level_pending.
  destruct Hcase as [[Elvl Hrows] | [Elvl Hrows]]; rewrite Elvl;
    cbn [String.eqb Ascii.eqb Bool.eqb]; rewrite (Hrows item Hin Eid);
    reflexivity.
Qed.

Lemma return_route_skips_lower_levels_witness :
  ((effective_admin_level sample_db fresh_request (mk_user 1 (Some 5) None)
    = "faculty"
    /\ forall item, In item [mk_item 7 1 (Some "pending")] ->
                    Item.id item = 7 ->
                    sql_ne (Item.approval_status item) "pending" = false)
   /\ Helpers.filter_my_pending_items sample_db fresh_request
        (mk_user 1 (Some 5) None) (mk_item 7 1 (Some "pending")) = true)
  /\ return_publication sample_db fresh_request 100
       [mk_item 7 1 (Some "pending")] 7 (mk_user 1 (Some 5) None) "fix"
     = inl OutOfScope.
Proof.
  assert (Hrows : forall item,
             In item [mk_item 7 1 (Some "pending")] -> Item.id item = 7 ->
             sql_ne (Item.approval_status item) "pending" = false).
  { intros item [<- | []] _. reflexivity. }
  split; [split; [split; [reflexivity | exact Hrows] | reflexivity] |].
  exact (return_route_skips_lower_levels sample_db fresh_request 100
           [mk_item 7 1 (Some "pending")] 7 (mk_user 1 (Some 5) None) "fix"
           (or_introl (conj eq_refl Hrows))).
Defined.


End RouteFacts.

Section OwnerFacts.

Import Scope Executor Owner.
Local Open Scope Z_scope.

(** X17. A returned item goes back to its owner: resubmitting it reopens
    the chain at pending with the reason cleared, saving it as a draft
    keeps the reason, and once resubmitted it is out of the owner's
    hands. *)
Theorem returned_item_goes_back_to_owner (db : Database) (req : Request)
    (now : Z) (item : Item.t) (item_type : string) (actor : User.t)
    (reason : option string) (commit collect_flashes : bool)
    (table : list Item.t) (owner : User.t) :
  let out := apply_approval_action db req now item item_type "return" actor
               reason commit collect_flashes in
  ok (result out) = true ->
  find (fun i => Z.eqb (Item.id i) (Item.id item)
                 && Z.eqb (Item.user_id i) (User.id owner)) table
  = Some (item_after out) ->
  can_edit (item_after out) = true
  /\ (exists resubmitted,
        edit_item table owner (Item.id item) false "submit" = inr resubmitted
        /\ Item.approval_status resubmitted = Some "pending"
        /\ Item.rejection_reason resubmitted = None
        /\ Item.returned_at resubmitted = None
        /\ Item.is_approved resubmitted = false
        /\ Item.returned_by_level resubmitted
           = Some (effective_admin_level db req actor)
        /\ can_edit resubmitted = false)
  /\ (forall action,
        action <> "submit" ->
        edit_item table owner (Item.id item) false action
        = inr (item_after out))
  /\ edit_item table owner (Item.id item) true "submit" = inl FormError.
Proof.
  cbv zeta. intros Hok Hfind.
  assert (Hret : item_after
                   (apply_approval_action db req now item item_type "return"
                      actor reason commit collect_flashes)
                 = {| Item.id := Item.id item;
                      Item.user_id := Item.user_id item;
                      Item.approval_status := Some "returned";
                      Item.is_approved := false;
                      Item.approved_at := None;
                      Item.approved_by := None;
                      Item.rejection_reason :=
                        Some (Py.strip (match reason with
                                        | Some r => r
                                        | None => ""
                                        end));
                      Item.returned_at := Some now;
                      Item.returned_by_level :=
                        Some (effective_admin_level db req actor) |}).
  { revert Hok. unfold apply_approval_action.
    destruct (user_get db (Item.user_id item)); [| discriminate].
    cbn [String.eqb Ascii.eqb Bool.eqb].
    destruct (String.eqb (Py.strip _) ""); [discriminate |].
    destruct (String.eqb (Py.str_or _ _) "approved"); [discriminate |].
    destruct (can_return_item db req item actor); [| discriminate].
    reflexivity. }
  rewrite Hret in *. unfold edit_item. rewrite Hfind.
  split; [reflexivity |]. split.
  - eexists. split; [reflexivity |]. now repeat split.
  - split; [| reflexivity].
    intros action Hne. apply String.eqb_neq in Hne.
    cbn. now rewrite Hne.
Qed.

Lemma returned_item_goes_back_to_owner_witness :
  (ok (result (apply_approval_action sample_db fresh_request 100
                 (mk_item 1 3 (Some "pending")) "publication" "return"
                 (mk_user 2 (Some 5) (Some 50)) (Some "fix") true true))
   = true
   /\ find (fun i => Z.eqb (Item.id i) (Item.id (mk_item 1 3 (Some "pending")))
                     && Z.eqb (Item.user_id i)
                          (User.id (mk_user 3 (Some 5) (Some 50))))
        [item_after
           (apply_approval_action sample_db fresh_request 100
              (mk_item 1 3 (Some "pending")) "publication" "return"
              (mk_user 2 (Some 5) (Some 50)) (Some "fix") true true)]
      = Some (item_after
                (apply_approval_action sample_db fresh_request 100
                   (mk_item 1 3 (Some "pending")) "publication" "return"
                   (mk_user 2 (Some 5) (Some 50)) (Some "fix") true true)))
  /\ can_edit (item_after
                 (apply_approval_action sample_db fresh_request 100
                    (mk_item 1 3 (Some "pending")) "publication" "return"
                    (mk_user 2 (Some 5) (Some 50)) (Some "fix") true true))
     = true.
Proof.
  split; [split; reflexivity |].
  apply (returned_item_goes_back_to_owner sample_db fresh_request 100
           (mk_item 1 3 (Some "pending")) "publication"
           (mk_user 2 (Some 5) (Some 50)) (Some "fix") true true
           [item_after
              (apply_approval_action sample_db fresh_request 100
                 (mk_item 1 3 (Some "pending")) "publication" "return"
                 (mk_user 2 (Some 5) (Some 50)) (Some "fix") true true)]
           (mk_user 3 (Some 5) (Some 50)) eq_refl eq_refl).
Defined.

End OwnerFacts.

(** ** The hours engine: shares, irrelevant fields, years *)

Section HoursMoreFacts.

Import Hours.
Local Open Scope Q_scope.



(** X6. No author is credited more than the base hours, unless a
    contribution percentage above 100 is entered. *)
Theorem author_hours_bounded (b : Q) (role : option string) (n : Z)
    (cp : option Q) :
  0 < b ->
  (forall p, cp = Some p -> p <= 100) ->
  exists h,
    calculate_author_hours b role n cp = Ok h /\ 0 < h /\ h <= b.
Proof.
  intros Hb Hcp. unfold calculate_author_hours.
  rewrite (Qle_bool_false b 0 Hb).
  assert (Hshare : forall m : Z,
             (1 <= m)%Z ->
             exists h,
               (base_share <- py_div (b * (2 # 3)) (inject_Z m) ;;
                Ok (base_share
                    + (if String.eqb (Py.lower (Py.str_or role "middle"))
                            "first_corresponding"
                       then b * (1 # 3)
                       else if Py.str_in (Py.lower (Py.str_or role "middle"))
                                 ["first"; "corresponding"]%string
                       then b * (1 # 6)
                       else 0))) = Ok h
               /\ 0 < h /\ h <= b).
  { intros m Hm.
    assert (Hmq : 1 <= inject_Z m).
    { change 1 with (inject_Z 1). now rewrite <- Zle_Qle. }
    rewrite py_div_ok by (apply inject_Z_nonzero; lia).
    cbn [bind]. eexists. split; [reflexivity |].
    assert (Hpos : 0 < b * (2 # 3) / inject_Z m).
    { apply Qlt_shift_div_l; lra. }
    assert (Hle : b * (2 # 3) / inject_Z m <= b * (2 # 3)).
    { apply Qle_shift_div_r; [lra |].
      assert (0 <= b * (2 # 3) * (inject_Z m - 1))
        by (apply Qmult_le_0_compat; lra).
      lra. }
    destruct (String.eqb _ "first_corresponding");
      [| destruct (Py.str_in _ _)]; split; lra. }
  assert (Hnone : exists h,
             (let total_authors := if (n <=? 0)%Z then 1%Z else n in
              base_share <-
                py_div (b * (2 # 3)) (inject_Z total_authors) ;;
              Ok (base_share
                  + (if String.eqb (Py.lower (Py.str_or role "middle"))
                          "first_corresponding"
                     then b * (1 # 3)
                     else if Py.str_in (Py.lower (Py.str_or role "middle"))
                               ["first"; "corresponding"]%string
                     then b * (1 # 6)
                     else 0))) = Ok h
             /\ 0 < h /\ h <= b).
  { cbv zeta. destruct (Z.leb_spec n 0); apply Hshare; lia. }
  destruct cp as [p |]; [| exact Hnone].
  destruct (Qltb 0 p) eqn:Ep; [| exact Hnone].
  apply Qltb_spec in Ep. specialize (Hcp p eq_refl).
  eexists. split; [reflexivity |].
  assert (Hq0 : 0 < p / 100) by (apply Qlt_shift_div_l; lra).
  assert (Hq1 : p / 100 <= 1) by (apply Qle_shift_div_r; lra).
  split.
  - now apply Qmult_lt_0_compat.
  - assert (0 <= b * (1 - p / 100))
      by (apply Qmult_le_0_compat; lra).
    lra.
Qed.

(** X9. Fields that do not belong to a publication type never change its
    base hours. *)
Theorem base_hours_ignore_foreign_fields (t : string)
    (quartile quartile' patent_stage patent_stage' : option string)
    (points points' : Q) (republished republished' : bool)
    (config : HoursConfig) :
  (t <> "journal_wos_scopus"%string ->
   get_base_hours t quartile points patent_stage republished config
   = get_base_hours t quartile' points patent_stage republished config)
  /\ (t <> "journal_domestic"%string ->
      get_base_hours t quartile points patent_stage republished config
      = get_base_hours t quartile points' patent_stage republished config)
  /\ (Py.str_in t ["patent_international"; "patent_vietnam";
                   "utility_solution"]%string = false ->
      get_base_hours t quartile points patent_stage republished config
      = get_base_hours t quartile points patent_stage' republished config)
  /\ (Py.str_in t ["monograph_international"; "monograph_domestic";
                   "textbook_international"; "textbook_domestic";
                   "book_chapter_reputable"; "book_chapter_international"]%string
      = false ->
      get_base_hours t quartile points patent_stage republished config
      = get_base_hours t quartile points patent_stage republished' config).
Proof.
  unfold get_base_hours. repeat split; intros H.
  - now rewrite (proj2 (String.eqb_neq _ _) H).
  - now rewrite (proj2 (String.eqb_neq _ _) H).
  - now rewrite H.
  - now rewrite H, !andb_false_r.
Qed.

Lemma filter_idem {A : Type} (p : A -> bool) (l : list A) :
  filter p (filter p l) = filter p l.
Proof.
  induction l as [| x l IH]; cbn; [reflexivity |].
  destruct (p x) eqn:E; cbn; [rewrite E; f_equal |]; exact IH.
Qed.

(** X8. A year's total depends on the records of that year only, and
    year 0 is read as "all years". *)
Theorem yearly_total_reads_its_year_only (publications : list Publication.t)
    (projects : list Project.t) (other_activities : list OtherActivity.t)
    (y : Z) (config : HoursConfig) :
  (y <> 0%Z ->
   calculate_total_research_hours publications projects other_activities
     (Some y) config
   = calculate_total_research_hours
       (filter (fun p => Z.eqb (Publication.year p) y) publications)
       (filter (fun p => (Project.start_year p <=? y)%Z
                         && (y <=? Project.end_year p)%Z) projects)
       (filter (fun a => Z.eqb (OtherActivity.year a) y) other_activities)
       (Some y) config)
  /\ calculate_total_research_hours publications projects other_activities
       (Some 0%Z) config
     = calculate_total_research_hours publications projects other_activities
         None config.
Proof.
  split; [| reflexivity].
  intros Hy.
  assert (Ht : Py.int_truthy (Some y) = true).
  { cbn. now apply negb_true_iff, Z.eqb_neq. }
  assert (Ho : Py.int_or (Some y) 0 = y).
  { unfold Py.int_or. now rewrite Ht. }
  unfold calculate_total_research_hours, calculate_yearly_summary,
    calculate_yearly_other_activities_total.
  rewrite Ht, Ho, !filter_idem. reflexivity.
Qed.

(** X10. A project in extended status credits nothing, whatever its tier,
    role, funding and years. *)
Theorem extended_project_credits_nothing (p : Project.t)
    (config : HoursConfig) :
  Project.status p = Some "extended"%string ->
  (exists ph,
     calculate_project_hours_from_model p config = Ok ph
     /\ total_hours ph == 0 /\ user_hours ph == 0 /\ leader_hours ph == 0
     /\ secretary_hours ph == 0 /\ member_pool_hours ph == 0)
  /\ calculate_project_hours_per_year p config = Ok 0
  /\ forall acc rest,
       sum_projects_per_year (p :: rest) config acc
       = sum_projects_per_year rest config (acc + 0).
Proof.
  intros Hst.
  assert (Hm : calculate_project_hours_from_model p config
               = Ok {| total_hours := 0; user_hours := 0; leader_hours := 0;
                       secretary_hours := 0; member_pool_hours := 0;
                       member_each_hours := 0; other_members_count := 0 |}).
  { unfold calculate_project_hours_from_model, calculate_project_hours.
    now rewrite Hst. }
  assert (Hy : calculate_project_hours_per_year p config = Ok 0).
  { unfold calculate_project_hours_per_year. now rewrite Hm. }
  split; [| split; [exact Hy |]].
  - eexists. split; [exact Hm |]. cbn. repeat split; reflexivity.
  - intros acc rest. cbn [sum_projects_per_year]. now rewrite Hy.
Qed.


Lemma author_hours_bounded_witness :
  (0 < 1800 /\ forall p, Some (50 # 1) = Some p -> p <= 100)
  /\ exists h,
       calculate_author_hours 1800 (Some "middle"%string) 4 (Some (50 # 1))
       = Ok h
       /\ 0 < h /\ h <= 1800.
Proof.
  assert (Hb : 0 < 1800) by reflexivity.
  assert (Hp : forall p, Some (50 # 1) = Some p -> p <= 100).
  { intros p [= <-]. discriminate. }
  split; [split; assumption |].
  exact (author_hours_bounded 1800 (Some "middle"%string) 4 (Some (50 # 1))
           Hb Hp).
Defined.

Lemma extended_project_credits_nothing_witness :
  Project.status extended_national = Some "extended"%string
  /\ calculate_project_hours_per_year extended_national DEFAULT_CONFIG = Ok 0.
Proof.
  split; [reflexivity |].
  apply (extended_project_credits_nothing extended_national DEFAULT_CONFIG
           eq_refl).
Defined.

End HoursMoreFacts.

(** ** Choosing the working role *)

Section ActAsFacts.

Import Scope Executor Routes ActAs.
Local Open Scope Z_scope.



(** X26. Switching to user mode disarms every admin power for the next
    request, and a role id that is not the user's own is never kept. *)
Theorem user_mode_disarms_admin (db : Database) (req : Request)
    (current_user : User.t) (mode_field : option string) (foreign_id : Z) :
  Routes.is_admin db current_user = true ->
  (let req' := next_request (set_act_as_role db req current_user (Some 0)
                               mode_field) in
   effective_admin_level db req' current_user = "none"
   /\ has_university_access db req' current_user = false
   /\ (forall lvl, get_role_scope_ids db req' current_user lvl = [])
   /\ admin_required db req' current_user = false
   /\ (forall min_level,
         admin_level_required min_level db req' current_user = false))
  /\ (existsb (fun r => Z.eqb (AdminRole.id r) foreign_id)
        (_get_active_admin_roles db current_user) = false ->
      admin_act_as_role_id
        (set_act_as_role db req current_user (Some foreign_id) mode_field)
      = None).
Proof.
  intros Hadmin. split.
  - assert (Hses : set_act_as_role db req current_user (Some 0) mode_field
                   = {| admin_act_as_user_mode := true;
                        admin_act_as_role_id := None |}).
    { unfold set_act_as_role. now rewrite Hadmin. }
    cbv zeta. rewrite Hses.
    unfold effective_admin_level, has_university_access, get_role_scope_ids,
      admin_required, admin_level_required, get_effective_context,
      next_request.
    cbn [has_request_context session admin_act_as_user_mode andb level
         user_mode negb].
    repeat split.
    + now rewrite !andb_false_r.
    + intros min_level. now rewrite andb_false_r.
  - intros Hforeign. unfold set_act_as_role. rewrite Hadmin. cbn [negb].
    cbn [opt_z_eqb]. destruct (Z.eqb foreign_id 0); [reflexivity |].
    destruct (_ || _); [reflexivity |].
    cbn [opt_z_eqb] in *. rewrite Hforeign. reflexivity.
Qed.


Lemma user_mode_disarms_admin_witness :
  Routes.is_admin sample_db (mk_user 5 None None) = true
  /\ effective_admin_level sample_db
       (next_request (set_act_as_role sample_db fresh_request
                        (mk_user 5 None None) (Some 0) None))
       (mk_user 5 None None) = "none".
Proof.
  split; [reflexivity |].
  apply (user_mode_disarms_admin sample_db fresh_request (mk_user 5 None None)
           None 0 eq_refl).
Defined.

End ActAsFacts.
